(** * libzbc: generic zoned-block-device layer and ATA (ZAC) command assembly

    A shallow embedding of [lib/zbc.c] (device-independent report-zones
    iterator, vectored I/O splitter, backend dispatcher) and of the ATA
    backend (pass-through CDB assembly, signature classification and
    Report Zones log parsing), together with the properties the library
    documentation states about them.

    C integers are mathematical integers ([Z]) with the wrap-around of
    their C type written out; arrays are lists read with stdpp's lookup
    and written with stdpp's insert; the kernel and the device are an
    abstract world state threaded through every call that reaches them. *)

From Stdlib Require Import ZArith Lia Bool List String Sorted.
From stdpp Require Import base list.
Import ListNotations.

Open Scope Z_scope.

(** ** C integer types *)

Module CInt.

(** Wrap-around of the unsigned types. *)
Definition u8 (x : Z) : Z := x mod 2 ^ 8.
Definition u16 (x : Z) : Z := x mod 2 ^ 16.
Definition u32 (x : Z) : Z := x mod 2 ^ 32.
Definition u64 (x : Z) : Z := x mod 2 ^ 64.

(** Conversion of a 32-bit pattern to [int] (two's complement). *)
Definition to_int (x : Z) : Z :=
  let y := u32 x in if y <? 2 ^ 31 then y else y - 2 ^ 32.

(** [ssize_t] upper bound on an LP64 target. *)
Definition SSIZE_MAX : Z := 2 ^ 63 - 1.

(** Linux errno values used by the library. *)
Definition EPERM : Z := 1.
Definition EIO : Z := 5.
Definition ENXIO : Z := 6.
Definition ENOMEM : Z := 12.
Definition EACCES : Z := 13.
Definition ENODEV : Z := 19.
Definition EINVAL : Z := 22.

Lemma u8_range x : 0 <= u8 x < 256.
Proof. unfold u8. apply Z.mod_pos_bound. lia. Qed.

Lemma u32_range x : 0 <= u32 x < 2 ^ 32.
Proof. unfold u32. apply Z.mod_pos_bound. lia. Qed.

Lemma u64_range x : 0 <= u64 x < 2 ^ 64.
Proof. unfold u64. apply Z.mod_pos_bound. lia. Qed.

Lemma u8_small x : 0 <= x < 256 -> u8 x = x.
Proof. intros H. unfold u8. apply Z.mod_small. lia. Qed.

Lemma u32_small x : 0 <= x < 2 ^ 32 -> u32 x = x.
Proof. intros H. unfold u32. apply Z.mod_small. lia. Qed.

Lemma u64_small x : 0 <= x < 2 ^ 64 -> u64 x = x.
Proof. intros H. unfold u64. apply Z.mod_small. lia. Qed.

Lemma to_int_small x : 0 <= x < 2 ^ 31 -> to_int x = x.
Proof.
  intros H. unfold to_int. rewrite u32_small by lia.
  destruct (Z.ltb_spec x (2 ^ 31)); lia.
Qed.

(** OR-ing a value shifted past the bits of another one adds them. *)
Lemma lor_shiftl_add a b k :
  0 <= k -> 0 <= a < 2 ^ k -> Z.lor a (Z.shiftl b k) = a + 2 ^ k * b.
Proof.
  intros Hk Ha.
  assert (Hl : Z.land a (Z.shiftl b k) = 0).
  { apply Z.bits_inj'. intros n Hn. rewrite Z.land_spec, Z.bits_0.
    destruct (Z.ltb_spec n k).
    - rewrite Z.shiftl_spec_low by lia. apply andb_false_r.
    - replace (Z.testbit a n) with false; [reflexivity|].
      symmetry. destruct (Z.eq_dec a 0) as [->|]; [apply Z.bits_0|].
      apply Z.bits_above_log2; [lia|]. apply Z.log2_lt_pow2; [lia|].
      apply Z.lt_le_trans with (2 ^ k); [lia|].
      apply Z.pow_le_mono_r; lia. }
  rewrite <- Z.lxor_lor by exact Hl.
  rewrite <- Z.add_nocarry_lxor by exact Hl.
  rewrite Z.shiftl_mul_pow2 by lia. lia.
Qed.

(** Masking with [0xff] keeps the low byte. *)
Lemma land_ff x : Z.land x 0xff = x mod 2 ^ 8.
Proof. change 0xff with (Z.ones 8). apply Z.land_ones. lia. Qed.

End CInt.

Import CInt.

(** ** ATA backend: command assembly, classification, Report Zones log *)

Module ZbcAta.

Definition ZBC_ATA_ZONE_DESCRIPTOR_LENGTH : Z := 64.
Definition ZBC_ATA_ZONE_DESCRIPTOR_OFFSET : Z := 64.

Definition ZBC_ATA_IDENTIFY : Z := 0xEC.
Definition ZBC_ATA_EXEC_DEV_DIAGNOSTIC : Z := 0x90.
Definition ZBC_ATA_READ_LOG_DMA_EXT : Z := 0x47.
Definition ZBC_ATA_READ_DMA_EXT : Z := 0x25.
Definition ZBC_ATA_WRITE_DMA_EXT : Z := 0x35.
Definition ZBC_ATA_FLUSH_CACHE_EXT : Z := 0xEA.
Definition ZBC_ATA_RESET_WRITE_POINTER_EXT : Z := 0x9F.
Definition ZBC_ATA_REPORT_ZONES_LOG_PAGE : Z := 0x1A.
Definition ZBC_ATA_LOG_SIZE : Z := 65536.

(** Modelled from the spec: the opcode constant of [zbc_sg.h], which is
    not part of the sources; the ATA pass-through opcode is [0x85] in
    its 16-byte variant. *)
Definition ZBC_SG_ATA16_CDB_OPCODE : Z := 0x85.

(** A byte array; an element is read as [uint8_t].  A read past the
    end of the list stands for memory the model does not track and
    gives 0. *)
Definition byte_at (buf : list Z) (i : Z) : Z :=
  match buf !! Z.to_nat i with
  | Some b => u8 b
  | None => 0
  end.

(** [buf[i] = v] for a [uint8_t] array. *)
Definition set_byte (buf : list Z) (i : nat) (v : Z) : list Z :=
  <[i := u8 v]> buf.

(** [zbc_ata_get_word], [zbc_ata_get_dword], [zbc_ata_get_qword] read
    at [&buf[off]]. *)
Definition zbc_ata_get_word (buf : list Z) (off : Z) : Z :=
  u16 (Z.lor (byte_at buf off) (Z.shiftl (byte_at buf (off + 1)) 8)).

Definition zbc_ata_get_dword (buf : list Z) (off : Z) : Z :=
  u32 (Z.lor (Z.lor (Z.lor (byte_at buf off)
                           (Z.shiftl (byte_at buf (off + 1)) 8))
                    (Z.shiftl (byte_at buf (off + 2)) 16))
             (Z.shiftl (byte_at buf (off + 3)) 24)).

Definition zbc_ata_get_qword (buf : list Z) (off : Z) : Z :=
  u64 (Z.lor (Z.lor (Z.lor (Z.lor (Z.lor (Z.lor (Z.lor
         (byte_at buf off)
         (Z.shiftl (byte_at buf (off + 1)) 8))
         (Z.shiftl (byte_at buf (off + 2)) 16))
         (Z.shiftl (byte_at buf (off + 3)) 24))
         (Z.shiftl (byte_at buf (off + 4)) 32))
         (Z.shiftl (byte_at buf (off + 5)) 40))
         (Z.shiftl (byte_at buf (off + 6)) 48))
         (Z.shiftl (byte_at buf (off + 7)) 56)).

(** *** CDB assembly

    Each function is the block of [cmd.cdb[i] = ...] assignments of the
    C function of the same name, applied to the CDB that
    [zbc_sg_cmd_init] prepared. *)

(** CDB of [zbc_ata_read_log]; [bufsz] is a [size_t], [page] an [int],
    [log] and [opt] are [uint8_t]. *)
Definition zbc_ata_read_log_cdb (cdb : list Z) (log page opt bufsz : Z)
  : list Z :=
  let c := set_byte cdb 0 ZBC_SG_ATA16_CDB_OPCODE in
  let c := set_byte c 1 (Z.lor (Z.shiftl 0x6 1) 0x01) in
  let c := set_byte c 2 0x0e in
  let c := if u8 opt =? 0 then c else set_byte c 4 opt in
  let c := set_byte c 5 (Z.land (Z.shiftr (bufsz / 512) 8) 0xff) in
  let c := set_byte c 6 (Z.land (bufsz / 512) 0xff) in
  let c := set_byte c 8 log in
  let c := set_byte c 9 (Z.land (Z.shiftr page 8) 0xff) in
  let c := set_byte c 10 (Z.land page 0xff) in
  set_byte c 14 ZBC_ATA_READ_LOG_DMA_EXT.

(** CDB of [zbc_ata_classify] (EXECUTE DEVICE DIAGNOSTIC). *)
Definition zbc_ata_classify_cdb (cdb : list Z) : list Z :=
  let c := set_byte cdb 0 ZBC_SG_ATA16_CDB_OPCODE in
  let c := set_byte c 1 (Z.lor (Z.shiftl 0x3 1) 0x1) in
  let c := set_byte c 2 (Z.shiftl 0x1 5) in
  set_byte c 14 ZBC_ATA_EXEC_DEV_DIAGNOSTIC.

(** The assignments shared by [zbc_ata_pread] and [zbc_ata_pwrite];
    [lba_count] is a [uint32_t], [lba] a [uint64_t].  The count bytes
    are computed with the C remainder operator, as in the source. *)
Definition zbc_ata_rw_cdb (cdb : list Z) (byte2 command lba_count lba : Z)
  : list Z :=
  let c := set_byte cdb 0 ZBC_SG_ATA16_CDB_OPCODE in
  let c := set_byte c 1 (Z.lor (Z.shiftl 0x6 1) 0x01) in
  let c := set_byte c 2 byte2 in
  let c := set_byte c 5 (Z.rem (Z.shiftr lba_count 8) 0xff) in
  let c := set_byte c 6 (Z.rem lba_count 0xff) in
  let c := set_byte c 7 (Z.land (Z.shiftr lba 24) 0xff) in
  let c := set_byte c 8 (Z.land lba 0xff) in
  let c := set_byte c 9 (Z.land (Z.shiftr lba 32) 0xff) in
  let c := set_byte c 10 (Z.land (Z.shiftr lba 8) 0xff) in
  let c := set_byte c 11 (Z.land (Z.shiftr lba 40) 0xff) in
  let c := set_byte c 12 (Z.land (Z.shiftr lba 16) 0xff) in
  let c := set_byte c 13 (Z.shiftl 1 6) in
  set_byte c 14 command.

Definition zbc_ata_pread_cdb (cdb : list Z) (lba_count lba : Z) : list Z :=
  zbc_ata_rw_cdb cdb 0x1e ZBC_ATA_READ_DMA_EXT lba_count lba.

Definition zbc_ata_pwrite_cdb (cdb : list Z) (lba_count lba : Z) : list Z :=
  zbc_ata_rw_cdb cdb 0x16 ZBC_ATA_WRITE_DMA_EXT lba_count lba.

(** The zeroed 16-byte CDB. *)
Definition cdb_zero : list Z := replicate 16 0.

(** *** Reading the fields back out of a CDB (the layout table of the
    source comments) *)

Definition cdb_count (cdb : list Z) : Z :=
  Z.lor (Z.shiftl (byte_at cdb 5) 8) (byte_at cdb 6).

Definition cdb_lba (cdb : list Z) : Z :=
  Z.lor (Z.lor (Z.lor (Z.lor (Z.lor
    (byte_at cdb 8)
    (Z.shiftl (byte_at cdb 10) 8))
    (Z.shiftl (byte_at cdb 12) 16))
    (Z.shiftl (byte_at cdb 7) 24))
    (Z.shiftl (byte_at cdb 9) 32))
    (Z.shiftl (byte_at cdb 11) 40).

(** Fields of byte 1 and byte 2. *)
Definition cdb_protocol (cdb : list Z) : Z :=
  Z.land (Z.shiftr (byte_at cdb 1) 1) 0xf.
Definition cdb_ext (cdb : list Z) : Z := Z.land (byte_at cdb 1) 1.
Definition cdb_ck_cond (cdb : list Z) : Z :=
  Z.land (Z.shiftr (byte_at cdb 2) 5) 1.
Definition cdb_t_type (cdb : list Z) : Z :=
  Z.land (Z.shiftr (byte_at cdb 2) 4) 1.
Definition cdb_t_dir (cdb : list Z) : Z :=
  Z.land (Z.shiftr (byte_at cdb 2) 3) 1.
Definition cdb_byt_blk (cdb : list Z) : Z :=
  Z.land (Z.shiftr (byte_at cdb 2) 2) 1.
Definition cdb_t_length (cdb : list Z) : Z := Z.land (byte_at cdb 2) 0x3.

(** *** Device handle and zone descriptor of the ATA backend *)

Inductive zbc_dev_type :=
| ZBC_DT_UNKNOWN | ZBC_DT_BLOCK | ZBC_DT_SCSI | ZBC_DT_ATA | ZBC_DT_FAKE.

Inductive zbc_dev_model :=
| ZBC_DM_DRIVE_UNKNOWN | ZBC_DM_HOST_AWARE | ZBC_DM_HOST_MANAGED
| ZBC_DM_DRIVE_MANAGED | ZBC_DM_STANDARD.

Definition zbc_dev_model_eqb (a b : zbc_dev_model) : bool :=
  match a, b with
  | ZBC_DM_DRIVE_UNKNOWN, ZBC_DM_DRIVE_UNKNOWN
  | ZBC_DM_HOST_AWARE, ZBC_DM_HOST_AWARE
  | ZBC_DM_HOST_MANAGED, ZBC_DM_HOST_MANAGED
  | ZBC_DM_DRIVE_MANAGED, ZBC_DM_DRIVE_MANAGED
  | ZBC_DM_STANDARD, ZBC_DM_STANDARD => true
  | _, _ => false
  end.

Record zbc_device_info := {
  zbd_type : zbc_dev_type;
  zbd_model : zbc_dev_model;
  zbd_logical_blocks : Z;
  zbd_logical_block_size : Z;
  zbd_physical_blocks : Z;
  zbd_physical_block_size : Z
}.

Record zbc_device := {
  zbd_filename : string;
  zbd_fd : Z;
  zbd_info : zbc_device_info
}.

Definition set_zbd_type (dev : zbc_device) (t : zbc_dev_type) : zbc_device :=
  {| zbd_filename := zbd_filename dev;
     zbd_fd := zbd_fd dev;
     zbd_info :=
       {| zbd_type := t;
          zbd_model := zbd_model (zbd_info dev);
          zbd_logical_blocks := zbd_logical_blocks (zbd_info dev);
          zbd_logical_block_size := zbd_logical_block_size (zbd_info dev);
          zbd_physical_blocks := zbd_physical_blocks (zbd_info dev);
          zbd_physical_block_size := zbd_physical_block_size (zbd_info dev) |} |}.

Definition set_zbd_model (dev : zbc_device) (m : zbc_dev_model) : zbc_device :=
  {| zbd_filename := zbd_filename dev;
     zbd_fd := zbd_fd dev;
     zbd_info :=
       {| zbd_type := zbd_type (zbd_info dev);
          zbd_model := m;
          zbd_logical_blocks := zbd_logical_blocks (zbd_info dev);
          zbd_logical_block_size := zbd_logical_block_size (zbd_info dev);
          zbd_physical_blocks := zbd_physical_blocks (zbd_info dev);
          zbd_physical_block_size := zbd_physical_block_size (zbd_info dev) |} |}.

Record zbc_zone := {
  zbz_type : Z;
  zbz_condition : Z;
  zbz_length : Z;
  zbz_start : Z;
  zbz_write_pointer : Z;
  zbz_need_reset : bool;
  zbz_non_seq : bool
}.

(** The body of the [for] loop of [zbc_ata_report_zones]: the zone
    descriptor found at [buf_z]. *)
Definition parse_zone_descriptor (buf : list Z) (buf_z : Z) : zbc_zone :=
  {| zbz_type := Z.land (byte_at buf buf_z) 0x0f;
     zbz_condition := Z.land (Z.shiftr (byte_at buf (buf_z + 1)) 4) 0x0f;
     zbz_length := zbc_ata_get_qword buf (buf_z + 8);
     zbz_start := zbc_ata_get_qword buf (buf_z + 16);
     zbz_write_pointer := zbc_ata_get_qword buf (buf_z + 24);
     zbz_need_reset := negb (Z.land (byte_at buf (buf_z + 1)) 0x01 =? 0);
     zbz_non_seq := false |}.

(** *** The SG_IO command object *)

Inductive sg_dxfer := SG_DXFER_NONE | SG_DXFER_TO_DEV | SG_DXFER_FROM_DEV.
Inductive sg_cmd_type := ZBC_SG_ATA16 | ZBC_SG_READ_CAPACITY.

Record zbc_sg_cmd := {
  cdb : list Z;
  dxfer_direction : sg_dxfer;
  out_buf : list Z;
  out_bufsz : Z;
  sense_buf : list Z;
  resid : Z
}.

Definition fill_cmd (cmd : zbc_sg_cmd) (dir : sg_dxfer) (c : list Z)
  : zbc_sg_cmd :=
  {| cdb := c; dxfer_direction := dir; out_buf := out_buf cmd;
     out_bufsz := out_bufsz cmd; sense_buf := sense_buf cmd;
     resid := resid cmd |}.

Section Backend.

(** The world outside the library: kernel, transport and device. *)
Context {W : Type}.

(** [zbc_sg_cmd_init] and [zbc_sg_cmd_exec] are the transport shim
    ([zbc_sg.c], not part of the sources).  [zbc_sg_cmd_init] gets
    the caller's data buffer ([None] for [NULL]) and its size and
    gives a status and the prepared command, whose [out_buf] is the
    caller's buffer; [zbc_sg_cmd_exec] gives a status and the
    command after completion (data buffer and sense buffer filled
    in by the device). *)
Variable zbc_sg_cmd_init :
  W -> sg_cmd_type -> option (list Z) -> Z -> W * (Z * zbc_sg_cmd).
Variable zbc_sg_cmd_exec : W -> zbc_sg_cmd -> W * (Z * zbc_sg_cmd).

(** [posix_memalign] of the log buffer: a status and the (not
    initialised) memory obtained. *)
Variable posix_memalign : W -> Z -> W * (Z * list Z).

(** Contents of the not initialised [buf[512]] on the stack of
    [zbc_ata_report_zones_pages]. *)
Variable stack_buf : list Z.

(** The rest of [zbc_ata_get_info] after the model test (READ
    CAPACITY 16 and the geometry computation), which relies on
    helpers of [zbc_sg.c]. *)
Variable read_capacity : W -> zbc_device -> W * (Z * zbc_device).

(** The state threaded through the backend: the world and the CDBs
    handed to the transport so far, oldest first. *)
Definition St : Type := W * list (list Z).

Definition sg_init (s : St) (t : sg_cmd_type) (buf : option (list Z))
           (bufsz : Z) : St * (Z * zbc_sg_cmd) :=
  let '(w, r) := zbc_sg_cmd_init (fst s) t buf bufsz in
  ((w, snd s), r).

Definition sg_exec (s : St) (cmd : zbc_sg_cmd) : St * (Z * zbc_sg_cmd) :=
  let '(w, r) := zbc_sg_cmd_exec (fst s) cmd in
  ((w, snd s ++ [cdb cmd]), r).

(** [zbc_ata_read_log]: status and contents of [buf] afterwards. *)
Definition zbc_ata_read_log (s : St) (log page opt : Z) (buf : list Z)
           (bufsz : Z) : St * (Z * list Z) :=
  let '(s1, (ret, cmd)) := sg_init s ZBC_SG_ATA16 (Some buf) bufsz in
  if ret =? 0 then
    let cmd1 :=
      fill_cmd cmd SG_DXFER_FROM_DEV
               (zbc_ata_read_log_cdb (cdb cmd) log page opt bufsz) in
    let '(s2, (ret2, cmd2)) := sg_exec s1 cmd1 in
    (s2, (ret2, out_buf cmd2))
  else (s1, (ret, buf)).

(** [zbc_ata_report_zones_pages]. *)
Definition zbc_ata_report_zones_pages (s : St) : St * Z :=
  let '(s1, (ret, buf)) := zbc_ata_read_log s 0x00 0 0 stack_buf 512 in
  if ret =? 0 then
    (s1, zbc_ata_get_word buf (ZBC_ATA_REPORT_ZONES_LOG_PAGE * 2))
  else (s1, ret).

(** [zbc_ata_classify]: the handle afterwards and the status. *)
Definition zbc_ata_classify (s : St) (dev : zbc_device)
  : St * (zbc_device * Z) :=
  let '(s1, (ret, cmd)) := sg_init s ZBC_SG_ATA16 None 0 in
  if ret =? 0 then
    let cmd1 := fill_cmd cmd SG_DXFER_NONE (zbc_ata_classify_cdb (cdb cmd)) in
    let '(s2, (ret2, cmd2)) := sg_exec s1 cmd1 in
    if ret2 =? 0 then
      let dev1 := set_zbd_type dev ZBC_DT_ATA in
      let desc := 8 in
      let d9 := byte_at (sense_buf cmd2) (desc + 9) in
      let d11 := byte_at (sense_buf cmd2) (desc + 11) in
      if (d9 =? 0xCD) && (d11 =? 0xAB) then
        (s2, (set_zbd_model dev1 ZBC_DM_HOST_MANAGED, ret2))
      else if (d9 =? 0x00) && (d11 =? 0x00) then
        let '(s3, ret3) := zbc_ata_report_zones_pages s2 in
        if ret3 =? 0 then
          (s3, (set_zbd_model dev1 ZBC_DM_DRIVE_MANAGED, ret3))
        else if ret3 >? 0 then
          (s3, (set_zbd_model dev1 ZBC_DM_HOST_AWARE, ret3))
        else (s3, (dev1, ret3))
      else (s2, (dev1, - ENXIO))
    else (s2, (dev, ret2))
  else (s1, (dev, ret)).

(** [zbc_ata_get_info]. *)
Definition zbc_ata_get_info (s : St) (dev : zbc_device)
  : St * (zbc_device * Z) :=
  let '(s1, (dev1, ret)) := zbc_ata_classify s dev in
  if ret <? 0 then (s1, (dev1, ret))
  else if zbc_dev_model_eqb (zbd_model (zbd_info dev1)) ZBC_DM_DRIVE_MANAGED
  then (s1, (dev1, - ENXIO))
  else
    let '(w, (ret2, dev2)) := read_capacity (fst s1) dev1 in
    ((w, snd s1), (dev2, ret2)).

(** The [for] loop of [zbc_ata_report_zones]: [k] descriptors are
    read from [buf_z] on and stored from [zones[n]] on; gives the
    array, [n] and [buf_z] afterwards. *)
Fixpoint parse_descriptors (k : nat) (buf : list Z) (buf_z : Z)
         (zones : list zbc_zone) (n : Z) : list zbc_zone * Z * Z :=
  match k with
  | O => (zones, n, buf_z)
  | S k' =>
      parse_descriptors k' buf (buf_z + ZBC_ATA_ZONE_DESCRIPTOR_LENGTH)
        (<[Z.to_nat n := parse_zone_descriptor buf buf_z]> zones) (n + 1)
  end.

(** How the [while (nz)] loop of [zbc_ata_report_zones] was left:
    [pr_done] is false after a [goto out]. *)
Record pages_result := {
  pr_ret : Z;
  pr_done : bool;
  pr_n : Z;
  pr_zones : list zbc_zone
}.

(** The [while (nz)] loop; all its variables are C [int]s, whose
    overflow wraps. [None]: the iteration budget ran out. *)
Fixpoint report_zones_loop (fuel : nat) (s : St) (ro ret : Z)
         (buf : list Z) (buf_z buf_sz buf_nz page nz n : Z)
         (zones : list zbc_zone) : option (St * pages_result) :=
  match fuel with
  | O => None
  | S fuel' =>
      if nz =? 0 then
        Some (s, {| pr_ret := ret; pr_done := true; pr_n := n;
                    pr_zones := zones |})
      else
        let '(zones1, n1, _) :=
          parse_descriptors (Z.to_nat buf_nz) buf buf_z zones n in
        let nz1 := to_int (nz - buf_nz) in
        if nz1 =? 0 then
          Some (s, {| pr_ret := ret; pr_done := true; pr_n := n1;
                      pr_zones := zones1 |})
        else
          let page1 := to_int (page + Z.quot buf_sz 512) in
          let bs :=
            to_int (Z.quot nz1 (Z.quot 512 ZBC_ATA_ZONE_DESCRIPTOR_LENGTH)
                    * 512) in
          let buf_sz1 :=
            if bs =? 0 then 512
            else if bs >? ZBC_ATA_LOG_SIZE then ZBC_ATA_LOG_SIZE
            else bs in
          let '(s1, (ret1, buf1)) :=
            zbc_ata_read_log s ZBC_ATA_REPORT_ZONES_LOG_PAGE page1
                             (Z.land ro 0xf) buf (u64 buf_sz1) in
          if ret1 =? 0 then
            let b := Z.quot buf_sz1 ZBC_ATA_ZONE_DESCRIPTOR_LENGTH in
            let buf_nz1 := if b >? nz1 then nz1 else b in
            report_zones_loop fuel' s1 ro ret1 buf1 0 buf_sz1 buf_nz1
                              page1 nz1 n1 zones1
          else
            Some (s1, {| pr_ret := ret1; pr_done := false; pr_n := n1;
                         pr_zones := zones1 |})
  end.

(** What [zbc_ata_report_zones] leaves behind: its status, the value
    of [*nr_zones] and the caller's array ([None] for [NULL]). *)
Record rz_result := {
  rz_ret : Z;
  rz_nr_zones : Z;
  rz_zones : option (list zbc_zone)
}.

(** [zbc_ata_report_zones]. [start_lba] is not used by the source. *)
Definition zbc_ata_report_zones (fuel : nat) (s : St) (start_lba ro : Z)
           (zones : option (list zbc_zone)) (nr_zones : Z)
  : option (St * rz_result) :=
  let '(w, (r, buf)) := posix_memalign (fst s) ZBC_ATA_LOG_SIZE in
  let s0 : St := (w, snd s) in
  if r =? 0 then
    let buf_sz := 512 in
    let page := 0 in
    let '(s1, (ret, buf1)) :=
      zbc_ata_read_log s0 ZBC_ATA_REPORT_ZONES_LOG_PAGE page
                       (Z.land ro 0xf) buf buf_sz in
    if ret =? 0 then
      let nz := to_int (zbc_ata_get_dword buf1 0) in
      match zones with
      | Some zs =>
          if nz =? 0 then
            Some (s1, {| rz_ret := ret; rz_nr_zones := u32 nz;
                         rz_zones := zones |})
          else
            let nz1 := if u32 nz >? nr_zones then to_int nr_zones else nz in
            let buf_z := ZBC_ATA_ZONE_DESCRIPTOR_OFFSET in
            let b := Z.quot (buf_sz - ZBC_ATA_ZONE_DESCRIPTOR_OFFSET)
                            ZBC_ATA_ZONE_DESCRIPTOR_LENGTH in
            let buf_nz := if b >? nz1 then nz1 else b in
            match report_zones_loop fuel s1 ro ret buf1 buf_z buf_sz
                                    buf_nz page nz1 0 zs with
            | None => None
            | Some (s2, pr) =>
                Some (s2, {| rz_ret := pr_ret pr;
                             rz_nr_zones :=
                               if pr_done pr then u32 (pr_n pr)
                               else nr_zones;
                             rz_zones := Some (pr_zones pr) |})
            end
      | None =>
          Some (s1, {| rz_ret := ret; rz_nr_zones := u32 nz;
                       rz_zones := zones |})
      end
    else
      Some (s1, {| rz_ret := ret; rz_nr_zones := nr_zones;
                   rz_zones := zones |})
  else
    Some (s0, {| rz_ret := - ENOMEM; rz_nr_zones := nr_zones;
                 rz_zones := zones |}).


(** *** Reads, writes, flush and write pointer reset *)

(** Contents of the not initialised [ret] on the stack of
    [zbc_ata_pread] and of [zbc_ata_pwrite]. *)
Variable stack_ret : Z.

(** The common body of [zbc_ata_pread] and [zbc_ata_pwrite], which
    differ in the transfer direction and in the CDB: the status
    and the contents of [buf] afterwards.  [sz] is a [size_t],
    [lba] a [uint64_t]; the residual count is an [int], converted
    to [size_t] for the difference, and the quotient is stored in
    an [int].  [None]: the division by a logical block size of
    0. *)
Definition zbc_ata_rw (dir : sg_dxfer)
           (fill_cdb : list Z -> Z -> Z -> list Z)
           (s : St) (dev : zbc_device) (zone : zbc_zone) (buf : list Z)
           (lba_count lba_ofst : Z) : option (St * (Z * list Z)) :=
  let sz := u64 (lba_count * zbd_logical_block_size (zbd_info dev)) in
  let lba := u64 (zbz_start zone + lba_ofst) in
  if lba_count >? 65536 then Some (s, (stack_ret, buf))
  else
    let '(s1, (ret, cmd)) := sg_init s ZBC_SG_ATA16 (Some buf) sz in
    if ret =? 0 then
      let cmd1 := fill_cmd cmd dir (fill_cdb (cdb cmd) lba_count lba) in
      let '(s2, (ret2, cmd2)) := sg_exec s1 cmd1 in
      if ret2 =? 0 then
        if u64 (zbd_logical_block_size (zbd_info dev)) =? 0 then None
        else
          Some (s2, (to_int (u64 (sz - resid cmd2)
                             / u64 (zbd_logical_block_size (zbd_info dev))),
                     out_buf cmd2))
      else Some (s2, (ret2, out_buf cmd2))
    else Some (s1, (ret, buf)).

(** [zbc_ata_pread]. *)
Definition zbc_ata_pread :=
  zbc_ata_rw SG_DXFER_FROM_DEV zbc_ata_pread_cdb.

(** [zbc_ata_pwrite]; its buffer is [const]. *)
Definition zbc_ata_pwrite (s : St) (dev : zbc_device) (zone : zbc_zone)
           (buf : list Z) (lba_count lba_ofst : Z) : option (St * Z) :=
  option_map (fun r => (fst r, fst (snd r)))
             (zbc_ata_rw SG_DXFER_TO_DEV zbc_ata_pwrite_cdb
                         s dev zone buf lba_count lba_ofst).

(** CDB of [zbc_ata_flush] (FLUSH CACHE EXT). *)
Definition zbc_ata_flush_cdb (cdb : list Z) : list Z :=
  let c := set_byte cdb 0 ZBC_SG_ATA16_CDB_OPCODE in
  let c := set_byte c 1 (Z.lor (Z.shiftl 0x3 1) 0x01) in
  set_byte c 14 ZBC_ATA_FLUSH_CACHE_EXT.

(** [zbc_ata_flush]; the source reads none of [lba_ofst],
    [lba_count] and [immediate]. *)
Definition zbc_ata_flush (s : St) (lba_ofst lba_count immediate : Z)
  : St * Z :=
  let '(s1, (ret, cmd)) := sg_init s ZBC_SG_ATA16 None 0 in
  if ret =? 0 then
    let cmd1 := fill_cmd cmd SG_DXFER_NONE (zbc_ata_flush_cdb (cdb cmd)) in
    let '(s2, (ret2, _)) := sg_exec s1 cmd1 in
    (s2, ret2)
  else (s1, ret).

(** CDB of [zbc_ata_reset_write_pointer]; [start_lba] is a
    [uint64_t], and [(uint64_t)-1] stands for all zones. *)
Definition zbc_ata_reset_write_pointer_cdb (cdb : list Z) (start_lba : Z)
  : list Z :=
  let c := set_byte cdb 0 ZBC_SG_ATA16_CDB_OPCODE in
  let c := set_byte c 1 (Z.lor (Z.shiftl 0x3 1) 0x01) in
  let c :=
    if start_lba =? u64 (-1) then set_byte c 4 0x01
    else
      let c := set_byte c 8 (Z.land start_lba 0xff) in
      let c := set_byte c 10 (Z.land (Z.shiftr start_lba 8) 0xff) in
      let c := set_byte c 12 (Z.land (Z.shiftr start_lba 16) 0xff) in
      let c := set_byte c 7 (Z.land (Z.shiftr start_lba 24) 0xff) in
      let c := set_byte c 9 (Z.land (Z.shiftr start_lba 32) 0xff) in
      set_byte c 11 (Z.land (Z.shiftr start_lba 40) 0xff) in
  let c := set_byte c 13 (Z.shiftl 1 6) in
  set_byte c 14 ZBC_ATA_RESET_WRITE_POINTER_EXT.

(** [zbc_ata_reset_write_pointer]. *)
Definition zbc_ata_reset_write_pointer (s : St) (start_lba : Z) : St * Z :=
  let '(s1, (ret, cmd)) := sg_init s ZBC_SG_ATA16 None 0 in
  if ret =? 0 then
    let cmd1 :=
      fill_cmd cmd SG_DXFER_NONE
               (zbc_ata_reset_write_pointer_cdb (cdb cmd) start_lba) in
    let '(s2, (ret2, _)) := sg_exec s1 cmd1 in
    (s2, ret2)
  else (s1, ret).

(** *** Opening and closing the device file *)

(** [open], [fstat] and [close]: [open] gives the descriptor and
    the [errno] it set; [fstat] its return value, the [errno] it
    set, and whether the mode it found is that of a character or
    of a block device; [close] its return value and the [errno]
    it set. *)
Variable sys_open : W -> string -> Z -> W * (Z * Z).
Variable sys_fstat : W -> Z -> W * (Z * Z * bool).
Variable sys_close : W -> Z -> W * (Z * Z).

(** [calloc] of the handle, which gives the zeroed handle or
    null, and [strdup]. *)
Variable calloc_dev : W -> W * option zbc_device.
Variable strdup : W -> string -> W * option string.

Definition set_zbd_filename (dev : zbc_device) (name : string)
  : zbc_device :=
  {| zbd_filename := name; zbd_fd := zbd_fd dev;
     zbd_info := zbd_info dev |}.

Definition set_zbd_fd (dev : zbc_device) (fd : Z) : zbc_device :=
  {| zbd_filename := zbd_filename dev; zbd_fd := fd;
     zbd_info := zbd_info dev |}.

(** The state threaded through [zbc_ata_open] and
    [zbc_ata_close]: that of the backend, and the descriptors
    handed to [close] so far, oldest first. *)
Definition Fs : Type := St * list Z.

Definition close_fd (f : Fs) (fd : Z) : Fs * (Z * Z) :=
  let '(w, r) := sys_close (fst (fst f)) fd in
  (((w, snd (fst f)), snd f ++ [fd]), r).

(** What [zbc_ata_open] leaves behind: its status, [*pdev] if it
    was stored, and the descriptor that [open] gave. *)
Record open_result := {
  op_ret : Z;
  op_pdev : option zbc_device;
  op_fd : Z
}.

(** [zbc_ata_open]. *)
Definition zbc_ata_open (f : Fs) (filename : string) (flags : Z)
  : Fs * open_result :=
  let '(w1, (fd, errno1)) := sys_open (fst (fst f)) filename flags in
  let f1 : Fs := ((w1, snd (fst f)), snd f) in
  let out (f' : Fs) (ret : Z) : Fs * open_result :=
    (fst (close_fd f' fd),
     {| op_ret := ret; op_pdev := None; op_fd := fd |}) in
  if fd <? 0 then
    (f1, {| op_ret := - errno1; op_pdev := None; op_fd := fd |})
  else
    let '(w2, (r, errno2, is_dev)) := sys_fstat w1 fd in
    let f2 : Fs := ((w2, snd (fst f)), snd f) in
    if negb (r =? 0) then out f2 (- errno2)
    else if negb is_dev then out f2 (- ENXIO)
    else
      match calloc_dev w2 with
      | (w3, None) => out ((w3, snd (fst f)), snd f) (- ENOMEM)
      | (w3, Some dev0) =>
          match strdup w3 filename with
          | (w4, None) => out ((w4, snd (fst f)), snd f) (- ENOMEM)
          | (w4, Some name) =>
              let dev := set_zbd_fd (set_zbd_filename dev0 name) fd in
              let '(s5, (dev1, ret)) :=
                zbc_ata_get_info (w4, snd (fst f)) dev in
              if negb (ret =? 0) then out (s5, snd f) ret
              else
                ((s5, snd f),
                 {| op_ret := 0; op_pdev := Some dev1; op_fd := fd |})
          end
      end.

(** [zbc_ata_close]: its status, and whether the handle was
    freed. *)
Definition zbc_ata_close (f : Fs) (dev : zbc_device) : Fs * (Z * bool) :=
  let '(f1, (r, errno)) := close_fd f (zbd_fd dev) in
  if negb (r =? 0) then (f1, (- errno, false))
  else (f1, (0, true)).
(** *** Properties of the byte accessors *)

Lemma u8_idem x : u8 (u8 x) = u8 x.
Proof. apply u8_small, u8_range. Qed.

Lemma byte_at_range buf i : 0 <= byte_at buf i < 256.
Proof.
  unfold byte_at. destruct (buf !! Z.to_nat i); [apply u8_range | lia].
Qed.

Lemma length_set_byte buf i v : length (set_byte buf i v) = length buf.
Proof. apply length_insert. Qed.

Lemma byte_at_set_byte_eq buf (i : nat) v :
  (i < length buf)%nat -> byte_at (set_byte buf i v) (Z.of_nat i) = u8 v.
Proof.
  intros H. unfold byte_at, set_byte. rewrite Nat2Z.id.
  rewrite list_lookup_insert_eq by exact H. apply u8_idem.
Qed.

Lemma byte_at_set_byte_ne buf (i : nat) v j :
  0 <= j -> j <> Z.of_nat i ->
  byte_at (set_byte buf i v) j = byte_at buf j.
Proof.
  intros H0 H. unfold byte_at, set_byte.
  rewrite list_lookup_insert_ne by lia. reflexivity.
Qed.

(** A list of sixteen elements, element by element. *)
Lemma length_16_inv (l : list Z) :
  length l = 16%nat ->
  exists b0 b1 b2 b3 b4 b5 b6 b7 b8 b9 b10 b11 b12 b13 b14 b15,
    l = [b0; b1; b2; b3; b4; b5; b6; b7; b8; b9; b10; b11; b12; b13; b14; b15].
Proof.
  intros H.
  do 16 (destruct l as [|? l]; [discriminate H|]).
  destruct l; [|discriminate H].
  repeat eexists.
Qed.

(** The little-endian value that [zbc_ata_get_dword] assembles. *)
Lemma zbc_ata_get_dword_le buf off :
  zbc_ata_get_dword buf off =
  byte_at buf off + 2 ^ 8 * byte_at buf (off + 1)
  + 2 ^ 16 * byte_at buf (off + 2) + 2 ^ 24 * byte_at buf (off + 3).
Proof.
  unfold zbc_ata_get_dword.
  pose proof (byte_at_range buf off) as H0.
  pose proof (byte_at_range buf (off + 1)) as H1.
  pose proof (byte_at_range buf (off + 2)) as H2.
  pose proof (byte_at_range buf (off + 3)) as H3.
  rewrite (lor_shiftl_add (byte_at buf off)) by lia.
  rewrite (lor_shiftl_add (_ + _)) by lia.
  rewrite (lor_shiftl_add (_ + _)) by lia.
  apply u32_small. lia.
Qed.

(** *** The read and write CDBs *)

Lemma byte_at_set_byte buf (i : nat) v j :
  (i < length buf)%nat -> 0 <= j ->
  byte_at (set_byte buf i v) j
  = if j =? Z.of_nat i then u8 v else byte_at buf j.
Proof.
  intros Hi Hj. destruct (Z.eqb_spec j (Z.of_nat i)) as [->|Hne].
  - apply byte_at_set_byte_eq, Hi.
  - apply byte_at_set_byte_ne; assumption.
Qed.

(** Reads a byte of a CDB that a chain of assignments built. *)
Ltac cdb_byte :=
  repeat (rewrite byte_at_set_byte
            by (repeat rewrite length_set_byte; lia));
  repeat match goal with
         | |- context [?a =? Z.of_nat ?b] =>
             let v := eval vm_compute in (a =? Z.of_nat b) in
             change (a =? Z.of_nat b) with v
         end;
  cbv iota.

(** The six LBA bytes are interleaved as the layout table says, so the
    48-bit LBA is read back unchanged. *)
Lemma zbc_ata_rw_cdb_lba cdb0 byte2 command lba_count lba :
  length cdb0 = 16%nat -> 0 <= lba < 2 ^ 48 ->
  let c := zbc_ata_rw_cdb cdb0 byte2 command lba_count lba in
  byte_at c 7 = (lba / 2 ^ 24) mod 2 ^ 8 /\
  byte_at c 8 = lba mod 2 ^ 8 /\
  byte_at c 9 = (lba / 2 ^ 32) mod 2 ^ 8 /\
  byte_at c 10 = (lba / 2 ^ 8) mod 2 ^ 8 /\
  byte_at c 11 = (lba / 2 ^ 40) mod 2 ^ 8 /\
  byte_at c 12 = (lba / 2 ^ 16) mod 2 ^ 8 /\
  cdb_lba c = lba.
Proof.
  intros Hlen Hlba c.
  assert (Hb : forall k, 0 <= k ->
             u8 (Z.land (Z.shiftr lba k) 0xff) = (lba / 2 ^ k) mod 2 ^ 8).
  { intros k Hk. rewrite land_ff, Z.shiftr_div_pow2 by lia.
    apply u8_small, Z.mod_pos_bound. lia. }
  assert (H7 : byte_at c 7 = (lba / 2 ^ 24) mod 2 ^ 8).
  { unfold c, zbc_ata_rw_cdb. cdb_byte. apply Hb. lia. }
  assert (H8 : byte_at c 8 = lba mod 2 ^ 8).
  { unfold c, zbc_ata_rw_cdb. cdb_byte. rewrite land_ff.
    apply u8_small, Z.mod_pos_bound. lia. }
  assert (H9 : byte_at c 9 = (lba / 2 ^ 32) mod 2 ^ 8).
  { unfold c, zbc_ata_rw_cdb. cdb_byte. apply Hb. lia. }
  assert (H10 : byte_at c 10 = (lba / 2 ^ 8) mod 2 ^ 8).
  { unfold c, zbc_ata_rw_cdb. cdb_byte. apply Hb. lia. }
  assert (H11 : byte_at c 11 = (lba / 2 ^ 40) mod 2 ^ 8).
  { unfold c, zbc_ata_rw_cdb. cdb_byte. apply Hb. lia. }
  assert (H12 : byte_at c 12 = (lba / 2 ^ 16) mod 2 ^ 8).
  { unfold c, zbc_ata_rw_cdb. cdb_byte. apply Hb. lia. }
  repeat split; try assumption.
  unfold cdb_lba. rewrite H7, H8, H9, H10, H11, H12.
  clear c Hb H7 H8 H9 H10 H11 H12.
  assert (Hm : forall x, 0 <= x mod 2 ^ 8 < 2 ^ 8)
    by (intros x; apply Z.mod_pos_bound; lia).
  pose proof (Hm lba). pose proof (Hm (lba / 2 ^ 8)).
  pose proof (Hm (lba / 2 ^ 16)). pose proof (Hm (lba / 2 ^ 24)).
  pose proof (Hm (lba / 2 ^ 32)). pose proof (Hm (lba / 2 ^ 40)).
  rewrite (lor_shiftl_add (lba mod 2 ^ 8)) by lia.
  rewrite (lor_shiftl_add (_ + _)) by lia.
  rewrite (lor_shiftl_add (_ + _)) by lia.
  rewrite (lor_shiftl_add (_ + _)) by lia.
  rewrite (lor_shiftl_add (_ + _)) by lia.
  clear Hm.
  pose proof (Z.div_mod lba (2 ^ 8) ltac:(lia)).
  pose proof (Z.div_mod (lba / 2 ^ 8) (2 ^ 8) ltac:(lia)).
  pose proof (Z.div_mod (lba / 2 ^ 16) (2 ^ 8) ltac:(lia)).
  pose proof (Z.div_mod (lba / 2 ^ 24) (2 ^ 8) ltac:(lia)).
  pose proof (Z.div_mod (lba / 2 ^ 32) (2 ^ 8) ltac:(lia)).
  pose proof (Z.div_mod (lba / 2 ^ 40) (2 ^ 8) ltac:(lia)).
  assert (E16 : lba / 2 ^ 16 = lba / 2 ^ 8 / 2 ^ 8)
    by (rewrite Z.div_div by lia; reflexivity).
  assert (E24 : lba / 2 ^ 24 = lba / 2 ^ 16 / 2 ^ 8)
    by (rewrite Z.div_div by lia; reflexivity).
  assert (E32 : lba / 2 ^ 32 = lba / 2 ^ 24 / 2 ^ 8)
    by (rewrite Z.div_div by lia; reflexivity).
  assert (E40 : lba / 2 ^ 40 = lba / 2 ^ 32 / 2 ^ 8)
    by (rewrite Z.div_div by lia; reflexivity).
  assert (E48 : lba / 2 ^ 40 / 2 ^ 8 = 0).
  { rewrite Z.div_div by lia. apply Z.div_small. lia. }
  lia.
Qed.

(** The count bytes hold the count only below 255: byte 6 is the
    whole count modulo 255 and byte 5 its high byte modulo 255. *)
Lemma zbc_ata_rw_cdb_count cdb0 byte2 command lba_count lba :
  length cdb0 = 16%nat -> 0 <= lba_count < 2 ^ 16 ->
  let c := zbc_ata_rw_cdb cdb0 byte2 command lba_count lba in
  byte_at c 5 = (lba_count / 2 ^ 8) mod 255 /\
  byte_at c 6 = lba_count mod 255 /\
  (cdb_count c = lba_count <-> lba_count < 255).
Proof.
  intros Hlen Hc c.
  assert (H5 : byte_at c 5 = (lba_count / 2 ^ 8) mod 255).
  { unfold c, zbc_ata_rw_cdb. cdb_byte.
    rewrite Z.shiftr_div_pow2 by lia.
    rewrite Z.rem_mod_nonneg by (try apply Z.div_pos; lia).
    apply u8_small.
    pose proof (Z.mod_pos_bound (lba_count / 2 ^ 8) 255 ltac:(lia)). lia. }
  assert (H6 : byte_at c 6 = lba_count mod 255).
  { unfold c, zbc_ata_rw_cdb. cdb_byte.
    rewrite Z.rem_mod_nonneg by lia.
    apply u8_small.
    pose proof (Z.mod_pos_bound lba_count 255 ltac:(lia)). lia. }
  split; [exact H5|]. split; [exact H6|].
  unfold cdb_count. rewrite H5, H6.
  pose proof (Z.mod_pos_bound (lba_count / 2 ^ 8) 255 ltac:(lia)) as B5.
  pose proof (Z.mod_pos_bound lba_count 255 ltac:(lia)) as B6.
  rewrite Z.lor_comm, lor_shiftl_add by lia.
  clear H5 H6 c Hlen.
  pose proof (Z.div_mod lba_count (2 ^ 8) ltac:(lia)) as E1.
  pose proof (Z.mod_pos_bound lba_count (2 ^ 8) ltac:(lia)) as B1.
  pose proof (Z.div_mod lba_count 255 ltac:(lia)) as E2.
  pose proof (Z.div_mod (lba_count / 2 ^ 8) 255 ltac:(lia)) as E3.
  change (2 ^ 8) with 256 in *. change (2 ^ 16) with 65536 in *.
  set (q := lba_count / 256) in *. set (r := lba_count mod 256) in *.
  set (k := lba_count / 255) in *. set (m := lba_count mod 255) in *.
  set (k' := q / 255) in *. set (m' := q mod 255) in *.
  split; intros H; lia.
Qed.

(** C6 (the code at the failing input): for a count of 255 sectors and
    LBA 0, in range for both fields, byte 6 of the READ DMA EXT and of
    the WRITE DMA EXT CDB is 0, although bits 7:0 of the count are
    0xff, and for a count of 0xff00 byte 5 is 0 although bits 15:8 are
    0xff; reading the count back from either CDB gives 0.  The source
    takes the remainder by 0xff where the layout table asks for the
    mask with 0xff, so that only counts below 255 are encoded as the
    table says. *)
Theorem ata_rw_cdb_count_bytes_remainder :
  byte_at (zbc_ata_pread_cdb cdb_zero 255 0) 6 = 0 /\
  byte_at (zbc_ata_pwrite_cdb cdb_zero 255 0) 6 = 0 /\
  Z.land 255 0xff = 255 /\
  byte_at (zbc_ata_pread_cdb cdb_zero 0xff00 0) 5 = 0 /\
  byte_at (zbc_ata_pwrite_cdb cdb_zero 0xff00 0) 5 = 0 /\
  Z.land (Z.shiftr 0xff00 8) 0xff = 255 /\
  cdb_count (zbc_ata_pread_cdb cdb_zero 255 0) = 0 /\
  cdb_count (zbc_ata_pwrite_cdb cdb_zero 255 0) = 0.
Proof. vm_compute. repeat split. Qed.

(** *** The read-log CDB *)

(** What [zbc_ata_read_log] puts into the bytes of its CDB that do
    not depend on the features option. *)
Definition read_log_cdb_ok (log : Z) (c : list Z) : Prop :=
  byte_at c 0 = ZBC_SG_ATA16_CDB_OPCODE /\
  byte_at c 14 = ZBC_ATA_READ_LOG_DMA_EXT /\
  cdb_protocol c = 6 /\ cdb_ext c = 1 /\
  cdb_t_dir c = 1 /\ cdb_byt_blk c = 1 /\ cdb_t_length c = 2 /\
  cdb_ck_cond c = 0 /\ cdb_t_type c = 0 /\
  byte_at c 8 = u8 log.

Lemma zbc_ata_read_log_cdb_ok cdb0 log page opt bufsz :
  length cdb0 = 16%nat ->
  read_log_cdb_ok log (zbc_ata_read_log_cdb cdb0 log page opt bufsz).
Proof.
  intros Hlen.
  assert (H1 : byte_at (zbc_ata_read_log_cdb cdb0 log page opt bufsz) 1
               = 13).
  { unfold zbc_ata_read_log_cdb. destruct (u8 opt =? 0); cdb_byte;
      reflexivity. }
  assert (H2 : byte_at (zbc_ata_read_log_cdb cdb0 log page opt bufsz) 2
               = 14).
  { unfold zbc_ata_read_log_cdb. destruct (u8 opt =? 0); cdb_byte;
      reflexivity. }
  unfold read_log_cdb_ok, cdb_protocol, cdb_ext, cdb_t_dir, cdb_byt_blk,
    cdb_t_length, cdb_ck_cond, cdb_t_type.
  rewrite H1, H2.
  repeat split; try reflexivity;
    unfold zbc_ata_read_log_cdb; destruct (u8 opt =? 0); cdb_byte;
    reflexivity.
Qed.

(** C7 (counterexample): the command byte of the CDB that reads page 0
    of log 0x1A into a 512-byte buffer is not 0xEC. *)
Lemma ata_read_log_command_is_not_EC :
  byte_at (zbc_ata_read_log_cdb cdb_zero ZBC_ATA_REPORT_ZONES_LOG_PAGE
                                0 0 512) 14 <> 0xEC.
Proof. vm_compute. discriminate. Qed.

(** *** Signature classification *)


(** *** The Report Zones log *)

(** Every CDB that [zbc_sg_cmd_init] prepares has sixteen bytes. *)
Definition init_cdb16 : Prop :=
  forall w t b sz,
    length (cdb (snd (snd (zbc_sg_cmd_init w t b sz)))) = 16%nat.

Lemma zbc_ata_read_log_issued s log page opt buf bufsz :
  init_cdb16 ->
  exists issued,
    snd (fst (zbc_ata_read_log s log page opt buf bufsz))
    = snd s ++ issued /\
    Forall (read_log_cdb_ok log) issued.
Proof.
  intros Hlen. unfold zbc_ata_read_log, sg_init, sg_exec.
  specialize (Hlen (fst s) ZBC_SG_ATA16 (Some buf) bufsz).
  destruct (zbc_sg_cmd_init (fst s) ZBC_SG_ATA16 (Some buf) bufsz)
    as [w [ret cmd]].
  cbn [fst snd] in *.
  destruct (ret =? 0).
  - destruct (zbc_sg_cmd_exec w _) as [w2 [ret2 cmd2]].
    cbn. eexists [_]. split; [reflexivity|].
    constructor; [|constructor].
    apply zbc_ata_read_log_cdb_ok, Hlen.
  - exists []. cbn. rewrite app_nil_r. split; [reflexivity | constructor].
Qed.

Lemma report_zones_loop_issued fuel :
  forall s ro ret buf buf_z buf_sz buf_nz page nz n zones s' pr,
    init_cdb16 ->
    report_zones_loop fuel s ro ret buf buf_z buf_sz buf_nz page nz n
                      zones = Some (s', pr) ->
    exists issued,
      snd s' = snd s ++ issued /\
      Forall (read_log_cdb_ok ZBC_ATA_REPORT_ZONES_LOG_PAGE) issued.
Proof.
  induction fuel as [|fuel IH]; intros s ro ret buf buf_z buf_sz buf_nz
    page nz n zones s' pr Hlen Hrun; [discriminate|].
  cbn [report_zones_loop] in Hrun.
  destruct (nz =? 0).
  { inversion Hrun; subst. exists []. rewrite app_nil_r.
    split; [reflexivity | constructor]. }
  destruct (parse_descriptors _ _ _ _ _) as [[zones1 n1] bz].
  destruct (to_int (nz - buf_nz) =? 0).
  { inversion Hrun; subst. exists []. rewrite app_nil_r.
    split; [reflexivity | constructor]. }
  match type of Hrun with
  | context [zbc_ata_read_log ?a ?b ?c ?d ?e ?f] =>
      destruct (zbc_ata_read_log_issued a b c d e f Hlen)
        as (i1 & E1 & F1);
      destruct (zbc_ata_read_log a b c d e f) as [s1 [ret1 buf1]]
  end.
  cbn [fst snd] in E1.
  destruct (ret1 =? 0).
  - apply IH in Hrun; [|exact Hlen].
    destruct Hrun as (i2 & E2 & F2).
    exists (i1 ++ i2). split.
    + rewrite E2, E1, app_assoc. reflexivity.
    + apply Forall_app. split; assumption.
  - inversion Hrun; subst. exists i1. split; assumption.
Qed.

Lemma parse_descriptors_n k :
  forall buf buf_z zones n,
    snd (fst (parse_descriptors k buf buf_z zones n)) = n + Z.of_nat k.
Proof.
  induction k as [|k IH]; intros buf buf_z zones n.
  - cbn. lia.
  - cbn [parse_descriptors]. rewrite IH. lia.
Qed.

Lemma parse_descriptors_below k :
  forall buf buf_z zones n (j : nat),
    0 <= n -> (j < Z.to_nat n)%nat ->
    fst (fst (parse_descriptors k buf buf_z zones n)) !! j = zones !! j.
Proof.
  induction k as [|k IH]; intros buf buf_z zones n j Hn Hj.
  - reflexivity.
  - cbn [parse_descriptors]. rewrite IH by lia.
    apply list_lookup_insert_ne. lia.
Qed.

Lemma parse_descriptors_length k :
  forall buf buf_z zones n,
    length (fst (fst (parse_descriptors k buf buf_z zones n)))
    = length zones.
Proof.
  induction k as [|k IH]; intros buf buf_z zones n.
  - reflexivity.
  - cbn [parse_descriptors]. rewrite IH. apply length_insert.
Qed.

Lemma parse_descriptors_lookup k :
  forall buf buf_z zones n i,
    0 <= n -> (Z.to_nat n + k <= length zones)%nat ->
    0 <= i < Z.of_nat k ->
    fst (fst (parse_descriptors k buf buf_z zones n)) !! Z.to_nat (n + i)
    = Some (parse_zone_descriptor
              buf (buf_z + ZBC_ATA_ZONE_DESCRIPTOR_LENGTH * i)).
Proof.
  induction k as [|k IH]; intros buf buf_z zones n i Hn Hlen Hi; [lia|].
  cbn [parse_descriptors].
  destruct (Z.eq_dec i 0) as [->|Hne].
  - rewrite parse_descriptors_below by lia.
    rewrite Z.add_0_r, Z.mul_0_r, Z.add_0_r.
    apply list_lookup_insert_eq. lia.
  - replace (n + i) with ((n + 1) + (i - 1)) by lia.
    rewrite IH; [|lia| rewrite length_insert; lia | lia].
    f_equal. f_equal. lia.
Qed.

Lemma u32_to_int x : u32 (to_int x) = u32 x.
Proof.
  unfold to_int. pose proof (u32_range x) as Hr.
  destruct (Z.ltb_spec (u32 x) (2 ^ 31)).
  - apply u32_small. lia.
  - unfold u32 at 1.
    replace (u32 x - 2 ^ 32) with (u32 x + (-1) * 2 ^ 32) by lia.
    rewrite Z.mod_add by lia. apply Z.mod_small. lia.
Qed.


Lemma parse_descriptors_above k :
  forall buf buf_z zones n (j : nat),
    0 <= n -> (Z.to_nat n + k <= j)%nat ->
    fst (fst (parse_descriptors k buf buf_z zones n)) !! j = zones !! j.
Proof.
  induction k as [|k IH]; intros buf buf_z zones n j Hn Hj.
  - reflexivity.
  - cbn [parse_descriptors]. rewrite IH by lia.
    apply list_lookup_insert_ne. lia.
Qed.

(** *** What the parser takes from the log *)

(** [b] is what a read of [bufsz] bytes of the Report Zones log
    from page [page] on left in the buffer when it completed. *)
Definition log_read_answered (ro page bufsz : Z) (b : list Z) : Prop :=
  exists s buf,
    snd (zbc_ata_read_log s ZBC_ATA_REPORT_ZONES_LOG_PAGE page
                          (Z.land ro 0xf) buf bufsz) = (0, b).

(** [ret] is the status of a read of the Report Zones log that
    failed. *)
Definition log_read_failed (ro ret : Z) : Prop :=
  ret <> 0 /\
  exists s page buf bufsz,
    fst (snd (zbc_ata_read_log s ZBC_ATA_REPORT_ZONES_LOG_PAGE page
                               (Z.land ro 0xf) buf bufsz)) = ret.

(** Zone [i] is the descriptor of 64 bytes found 64 + 64 * [i]
    bytes into the log, after the header of 64 bytes: [z] was
    parsed at that place of a buffer that a read of the log
    returned, pages being 512 bytes long, and the first seven
    zones were parsed from [buf1], the buffer with the header. *)
Definition zone_in_log (ro : Z) (buf1 : list Z) (i : Z) (z : zbc_zone)
  : Prop :=
  (i < 7 ->
   z = parse_zone_descriptor
         buf1 (ZBC_ATA_ZONE_DESCRIPTOR_OFFSET
               + ZBC_ATA_ZONE_DESCRIPTOR_LENGTH * i)) /\
  exists page bufsz b,
    log_read_answered ro page bufsz b /\
    512 * page <= ZBC_ATA_ZONE_DESCRIPTOR_OFFSET
                  + ZBC_ATA_ZONE_DESCRIPTOR_LENGTH * i /\
    ZBC_ATA_ZONE_DESCRIPTOR_OFFSET
    + ZBC_ATA_ZONE_DESCRIPTOR_LENGTH * (i + 1) <= 512 * page + bufsz /\
    z = parse_zone_descriptor
          b (ZBC_ATA_ZONE_DESCRIPTOR_OFFSET
             + ZBC_ATA_ZONE_DESCRIPTOR_LENGTH * i - 512 * page).

(** The first [k] entries of [zs'] are the first [k] zones of
    the log. *)
Definition zones_of_log (ro : Z) (buf1 : list Z) (k : Z)
           (zs' : list zbc_zone) : Prop :=
  forall i, 0 <= i < k ->
            exists z, zs' !! Z.to_nat i = Some z /\ zone_in_log ro buf1 i z.

(** The loop of [zbc_ata_report_zones], whatever the transport
    and the device answer: it ends; it writes to none of the
    entries after those that were asked for; when it is left
    at its end it has stored the zones asked for from the
    buffers that the log reads returned, and when it is left by
    [goto out] a log read has failed. *)
Lemma report_zones_loop_filled ro buf1 fuel :
  forall s buf buf_z buf_sz buf_nz page nz n zones m,
    log_read_answered ro page buf_sz buf ->
    buf_sz = 512 * m -> 1 <= m <= 128 ->
    0 <= n -> 0 <= nz -> n + nz < 2 ^ 25 -> 0 <= page ->
    0 <= buf_z -> buf_z = 64 + 64 * n - 512 * page ->
    (0 < nz -> 1 <= buf_nz <= nz /\ buf_z + 64 * buf_nz <= buf_sz /\
               (buf_nz < nz -> buf_z + 64 * buf_nz = buf_sz)) ->
    (n < 7 -> buf = buf1 /\ page = 0) ->
    (Z.to_nat (n + nz) <= length zones)%nat ->
    zones_of_log ro buf1 n zones ->
    (Z.to_nat nz < fuel)%nat ->
    exists s' pr,
      report_zones_loop fuel s ro 0 buf buf_z buf_sz buf_nz page nz n
                        zones = Some (s', pr) /\
      length (pr_zones pr) = length zones /\
      (forall j : nat, (Z.to_nat (n + nz) <= j)%nat ->
                       pr_zones pr !! j = zones !! j) /\
      if pr_done pr
      then pr_ret pr = 0 /\ pr_n pr = n + nz /\
           zones_of_log ro buf1 (n + nz) (pr_zones pr)
      else log_read_failed ro (pr_ret pr).
Proof.
  induction fuel as [|fuel IH];
    intros s buf buf_z buf_sz buf_nz page nz n zones m
           Hans Hm Hm' Hn Hnz Hbound Hpage Hbz Hbz' Hbuf Hfirst Hlen
           Hprior Hfuel; [lia|].
  cbn [report_zones_loop].
  destruct (Z.eqb_spec nz 0) as [->|Hne].
  { do 2 eexists. split; [reflexivity|].
    cbn [pr_zones pr_done pr_ret pr_n].
    split; [reflexivity|]. split; [reflexivity|].
    split; [reflexivity|]. split; [lia|].
    rewrite Z.add_0_r. exact Hprior. }
  destruct (Hbuf ltac:(lia)) as (Hbn & Hfit & Hfull).
  pose proof (parse_descriptors_n (Z.to_nat buf_nz) buf buf_z zones n)
    as Hn1.
  pose proof (parse_descriptors_length (Z.to_nat buf_nz) buf buf_z zones n)
    as Hl1.
  pose proof (parse_descriptors_below (Z.to_nat buf_nz) buf buf_z zones n)
    as Hbelow.
  pose proof (parse_descriptors_above (Z.to_nat buf_nz) buf buf_z zones n)
    as Habove.
  pose proof (parse_descriptors_lookup (Z.to_nat buf_nz) buf buf_z zones n)
    as Hlook.
  destruct (parse_descriptors _ _ _ _ _) as [[zones1 n1] bz].
  cbn [fst snd] in Hn1, Hl1, Hbelow, Habove, Hlook.
  rewrite Z2Nat.id in Hn1 by lia. subst n1.
  assert (Hnew : zones_of_log ro buf1 (n + buf_nz) zones1).
  { intros i Hi. destruct (Z.lt_ge_cases i n) as [Hold|Hcur].
    - rewrite Hbelow by lia. apply Hprior. lia.
    - specialize (Hlook (i - n) Hn ltac:(lia) ltac:(lia)).
      replace (n + (i - n)) with i in Hlook by lia.
      eexists. split; [exact Hlook|].
      unfold zone_in_log, ZBC_ATA_ZONE_DESCRIPTOR_OFFSET,
        ZBC_ATA_ZONE_DESCRIPTOR_LENGTH.
      split.
      + intros Hi7. destruct (Hfirst ltac:(lia)) as [-> ->].
        f_equal. lia.
      + exists page, buf_sz, buf. split; [exact Hans|].
        split; [lia|]. split; [lia|]. f_equal. lia. }
  rewrite (to_int_small (nz - buf_nz)) by lia.
  destruct (Z.eqb_spec (nz - buf_nz) 0) as [Hz|Hnz1].
  { do 2 eexists. split; [reflexivity|].
    cbn [pr_zones pr_done pr_ret pr_n].
    split; [exact Hl1|]. split; [intros j Hj; apply Habove; lia|].
    split; [reflexivity|]. split; [lia|].
    replace (n + nz) with (n + buf_nz) by lia. exact Hnew. }
  specialize (Hfull ltac:(lia)).
  set (nz1 := nz - buf_nz) in *.
  subst buf_sz.
  rewrite (Z.quot_div_nonneg (512 * m) 512) by lia.
  rewrite (Z.mul_comm 512 m), Z.div_mul by lia.
  rewrite (to_int_small (page + m)) by lia.
  change (Z.quot 512 ZBC_ATA_ZONE_DESCRIPTOR_LENGTH) with 8.
  rewrite (Z.quot_div_nonneg nz1 8) by lia.
  pose proof (Z.div_mod nz1 8 ltac:(lia)) as Hdm.
  pose proof (Z.mod_pos_bound nz1 8 ltac:(lia)) as Hmod.
  set (q := nz1 / 8) in *.
  rewrite (to_int_small (q * 512)) by lia.
  set (buf_sz1 := if q * 512 =? 0 then 512
                  else if q * 512 >? ZBC_ATA_LOG_SIZE
                       then ZBC_ATA_LOG_SIZE else q * 512).
  assert (Hm1 : exists m1, buf_sz1 = 512 * m1 /\ 1 <= m1 <= 128 /\
                           (8 * m1 <= nz1 \/ nz1 < 8)).
  { unfold buf_sz1, ZBC_ATA_LOG_SIZE.
    destruct (Z.eqb_spec (q * 512) 0).
    - exists 1. lia.
    - destruct (Z.gtb_spec (q * 512) 65536).
      + exists 128. lia.
      + exists q. lia. }
  destruct Hm1 as (m1 & Hsz1 & Hm1 & Hq1).
  clearbody buf_sz1.
  rewrite (u64_small buf_sz1) by lia.
  destruct (zbc_ata_read_log s ZBC_ATA_REPORT_ZONES_LOG_PAGE (page + m)
                             (Z.land ro 0xf) buf buf_sz1)
    as [s1 [ret1 buf2]] eqn:Eread.
  destruct (Z.eqb_spec ret1 0) as [->|Hret].
  - assert (Hb : Z.quot buf_sz1 ZBC_ATA_ZONE_DESCRIPTOR_LENGTH = 8 * m1).
    { unfold ZBC_ATA_ZONE_DESCRIPTOR_LENGTH.
      rewrite Z.quot_div_nonneg by lia. subst buf_sz1.
      replace (512 * m1) with (8 * m1 * 64) by lia.
      apply Z.div_mul. lia. }
    rewrite Hb.
    set (buf_nz1 := if 8 * m1 >? nz1 then nz1 else 8 * m1).
    assert (Hbn1 : 1 <= buf_nz1 <= nz1 /\ 64 * buf_nz1 <= buf_sz1 /\
                   (buf_nz1 < nz1 -> 64 * buf_nz1 = buf_sz1)).
    { unfold buf_nz1. destruct (Z.gtb_spec (8 * m1) nz1); lia. }
    clearbody buf_nz1.
    destruct (IH s1 buf2 0 buf_sz1 buf_nz1 (page + m) nz1 (n + buf_nz)
                 zones1 m1)
      as (s' & pr & E & Hl & Hunt & Hres).
    + exists s, buf. rewrite Eread. reflexivity.
    + exact Hsz1.
    + exact Hm1.
    + lia.
    + unfold nz1. lia.
    + unfold nz1. lia.
    + lia.
    + lia.
    + lia.
    + intros _. lia.
    + intros Hlt. exfalso. lia.
    + rewrite Hl1. unfold nz1.
      replace (n + buf_nz + (nz - buf_nz)) with (n + nz) by lia.
      exact Hlen.
    + exact Hnew.
    + unfold nz1. lia.
    + exists s', pr. split; [exact E|].
      split; [rewrite Hl; exact Hl1|].
      assert (Esum : n + buf_nz + nz1 = n + nz) by (unfold nz1; lia).
      rewrite Esum in Hunt, Hres.
      split; [|exact Hres].
      intros j Hj. rewrite Hunt by exact Hj. apply Habove; lia.
  - do 2 eexists. split; [reflexivity|].
    cbn [pr_zones pr_done pr_ret pr_n].
    split; [exact Hl1|]. split; [intros j Hj; apply Habove; lia|].
    split; [exact Hret|].
    exists s, (page + m), buf, buf_sz1. rewrite Eread. reflexivity.
Qed.

(** The number of zones that a buffer with the header of the
    log declares: its first four bytes. *)
Lemma zbc_ata_get_dword_declared buf1 :
  let declared := zbc_ata_get_dword buf1 0 in
  0 <= declared < 2 ^ 32 /\ u32 (to_int declared) = declared.
Proof.
  intros declared.
  pose proof (u32_range
                (Z.lor (Z.lor (Z.lor (byte_at buf1 0)
                                      (Z.shiftl (byte_at buf1 (0 + 1)) 8))
                              (Z.shiftl (byte_at buf1 (0 + 2)) 16))
                       (Z.shiftl (byte_at buf1 (0 + 3)) 24))) as Hr.
  change (0 <= declared < 2 ^ 32) in Hr.
  split; [exact Hr|]. rewrite u32_to_int. apply u32_small. exact Hr.
Qed.

(** [zbc_ata_report_zones] with an array, once the buffer was
    obtained and the first page of the log read. *)
Lemma zbc_ata_report_zones_filled
      fuel s start_lba ro zs nr_zones w buf s1 buf1 :
  posix_memalign (fst s) ZBC_ATA_LOG_SIZE = (w, (0, buf)) ->
  zbc_ata_read_log (w, snd s) ZBC_ATA_REPORT_ZONES_LOG_PAGE 0
                   (Z.land ro 0xf) buf 512 = (s1, (0, buf1)) ->
  0 <= nr_zones < 2 ^ 25 ->
  (Z.to_nat nr_zones < fuel)%nat ->
  (Z.to_nat nr_zones <= length zs)%nat ->
  let k := Z.min (zbc_ata_get_dword buf1 0) nr_zones in
  exists s' res zs',
    zbc_ata_report_zones fuel s start_lba ro (Some zs) nr_zones
    = Some (s', res) /\
    (rz_ret res = 0 \/ log_read_failed ro (rz_ret res)) /\
    rz_zones res = Some zs' /\ length zs' = length zs /\
    (forall j : nat, (Z.to_nat k <= j)%nat -> zs' !! j = zs !! j) /\
    (rz_ret res = 0 ->
     rz_nr_zones res = k /\ zones_of_log ro buf1 k zs').
Proof.
  intros Hmem Hlog Hnr Hfuel Hlen k.
  destruct (zbc_ata_get_dword_declared buf1) as [Hr Hu].
  set (declared := zbc_ata_get_dword buf1 0) in *.
  unfold zbc_ata_report_zones.
  rewrite Hmem. cbn [Z.eqb]. rewrite Hlog. cbn [Z.eqb].
  fold declared. rewrite Hu.
  destruct (Z.eqb_spec (to_int declared) 0) as [Hz|Hnz].
  { assert (Hd0 : declared = 0).
    { rewrite <- Hu, Hz. reflexivity. }
    assert (Hk : k = 0) by (unfold k; lia).
    exists s1. eexists. exists zs. split; [reflexivity|].
    cbn [rz_ret rz_nr_zones rz_zones].
    split; [left; reflexivity|]. split; [reflexivity|].
    split; [reflexivity|]. split; [reflexivity|].
    intros _. rewrite Hd0, Hk. split; [reflexivity|].
    intros i Hi. lia. }
  set (nz1 := if declared >? nr_zones then to_int nr_zones
              else to_int declared).
  assert (Hnz1 : nz1 = k).
  { unfold nz1, k. destruct (Z.gtb_spec declared nr_zones).
    - rewrite to_int_small; lia.
    - rewrite to_int_small; lia. }
  clearbody nz1. subst nz1.
  change (Z.quot (512 - ZBC_ATA_ZONE_DESCRIPTOR_OFFSET)
                 ZBC_ATA_ZONE_DESCRIPTOR_LENGTH) with 7.
  change ZBC_ATA_ZONE_DESCRIPTOR_OFFSET with 64.
  assert (Hk : 0 <= k <= nr_zones) by (unfold k; lia).
  destruct (report_zones_loop_filled
              ro buf1 fuel s1 buf1 64 512 (if 7 >? k then k else 7)
              0 k 0 zs 1)
    as (s' & pr & E & Hl & Hunt & Hres).
  - exists (w, snd s), buf. rewrite Hlog. reflexivity.
  - reflexivity.
  - lia.
  - lia.
  - lia.
  - lia.
  - lia.
  - lia.
  - lia.
  - intros Hpos. destruct (Z.gtb_spec 7 k); lia.
  - intros _. split; reflexivity.
  - lia.
  - intros i Hi. lia.
  - lia.
  - rewrite E. exists s'. eexists. exists (pr_zones pr).
    split; [reflexivity|]. cbn [rz_ret rz_nr_zones rz_zones].
    rewrite Z.add_0_l in Hunt, Hres.
    destruct (pr_done pr).
    + destruct Hres as (Hret & Hn & Hz).
      split; [left; exact Hret|]. split; [reflexivity|].
      split; [exact Hl|]. split; [exact Hunt|].
      intros _. split; [|exact Hz].
      rewrite Hn. apply u32_small. lia.
    + split; [right; exact Hres|]. split; [reflexivity|].
      split; [exact Hl|]. split; [exact Hunt|].
      intros Hret. destruct Hres as [Hne _]. contradiction.
Qed.

(** C7 (amended): every CDB that [zbc_ata_report_zones] hands to the
    transport is an ATA pass-through CDB (opcode 0x85) for log 0x1A
    whose command byte 14 is 0x47 (READ LOG DMA EXT), whose byte 1
    holds protocol 6 (DMA) with ext = 1 and whose byte 2 holds
    t_dir = 1, byt_blk = 1 and t_length = 2 (binary 10).  Of the
    buffer read first, the four bytes at offset 0 are the number of
    zones, least significant byte first, and the descriptors are
    taken from offset 64 on, 64 bytes each.  That buffer is one
    page of 512 bytes and holds seven descriptors; for the zones
    after these further pages are read, whose buffers hold no
    header and are parsed from offset 0 on, 64 bytes each, so that
    zone [i] is taken 64 + 64 * [i] bytes into the log.  This is
    so for every request for fewer than 2 ^ 25 zones, for which the
    parser returns whatever the transport answers; it gives the
    count and the zones when the status is 0, and the status is 0
    unless a further log read fails. *)
Theorem ata_report_zones_log_layout s start_lba ro zones nr_zones :
  init_cdb16 ->
  (forall fuel s' res,
      zbc_ata_report_zones fuel s start_lba ro zones nr_zones
      = Some (s', res) ->
      exists issued,
        snd s' = snd s ++ issued /\
        Forall (read_log_cdb_ok ZBC_ATA_REPORT_ZONES_LOG_PAGE) issued) /\
  (forall w buf s1 buf1 fuel,
      posix_memalign (fst s) ZBC_ATA_LOG_SIZE = (w, (0, buf)) ->
      zbc_ata_read_log (w, snd s) ZBC_ATA_REPORT_ZONES_LOG_PAGE 0
                       (Z.land ro 0xf) buf 512 = (s1, (0, buf1)) ->
      let declared :=
        byte_at buf1 0 + 2 ^ 8 * byte_at buf1 1
        + 2 ^ 16 * byte_at buf1 2 + 2 ^ 24 * byte_at buf1 3 in
      (zones = None ->
       zbc_ata_report_zones fuel s start_lba ro zones nr_zones
       = Some (s1, {| rz_ret := 0; rz_nr_zones := declared;
                      rz_zones := None |})) /\
      (forall zs k,
          zones = Some zs -> k = Z.min declared nr_zones ->
          0 <= nr_zones < 2 ^ 25 ->
          (Z.to_nat nr_zones <= length zs)%nat ->
          (Z.to_nat nr_zones < fuel)%nat ->
          exists s' res zs',
            zbc_ata_report_zones fuel s start_lba ro zones nr_zones
            = Some (s', res) /\
            (rz_ret res = 0 \/ log_read_failed ro (rz_ret res)) /\
            rz_zones res = Some zs' /\ length zs' = length zs /\
            (rz_ret res = 0 ->
             rz_nr_zones res = k /\
             (forall i, 0 <= i < k -> i < 7 ->
                zs' !! Z.to_nat i
                = Some (parse_zone_descriptor
                          buf1 (ZBC_ATA_ZONE_DESCRIPTOR_OFFSET
                                + ZBC_ATA_ZONE_DESCRIPTOR_LENGTH * i))) /\
             zones_of_log ro buf1 k zs'))).
Proof.
  intros Hlen. split.
  - intros fuel s' res Hrun. unfold zbc_ata_report_zones in Hrun.
    destruct (posix_memalign (fst s) ZBC_ATA_LOG_SIZE) as [w [r buf]].
    destruct (r =? 0).
    2:{ inversion Hrun; subst. exists []. cbn. rewrite app_nil_r.
        split; [reflexivity | constructor]. }
    match type of Hrun with
    | context [zbc_ata_read_log ?a ?b ?c ?d ?e ?f] =>
        destruct (zbc_ata_read_log_issued a b c d e f Hlen)
          as (i1 & E1 & F1);
        destruct (zbc_ata_read_log a b c d e f) as [s1 [ret1 buf1]]
    end.
    cbn [fst snd] in E1.
    destruct (ret1 =? 0).
    2:{ inversion Hrun; subst. exists i1. split; assumption. }
    destruct zones as [zs|].
    2:{ inversion Hrun; subst. exists i1. split; assumption. }
    destruct (to_int (zbc_ata_get_dword buf1 0) =? 0).
    { inversion Hrun; subst. exists i1. split; assumption. }
    destruct (report_zones_loop _ _ _ _ _ _ _ _ _ _ _ _)
      as [[s2 pr]|] eqn:Hloop; [|discriminate].
    inversion Hrun; subst.
    apply report_zones_loop_issued in Hloop; [|exact Hlen].
    destruct Hloop as (i2 & E2 & F2).
    exists (i1 ++ i2). split.
    + rewrite E2, E1, app_assoc. reflexivity.
    + apply Forall_app. split; assumption.
  - intros w buf s1 buf1 fuel Hmem Hlog declared.
    assert (Hd : zbc_ata_get_dword buf1 0 = declared).
    { rewrite zbc_ata_get_dword_le. reflexivity. }
    destruct (zbc_ata_get_dword_declared buf1) as [Hr Hu].
    cbv zeta in Hr, Hu. rewrite Hd in Hr, Hu.
    split.
    + intros ->. unfold zbc_ata_report_zones.
      rewrite Hmem. cbn [Z.eqb]. rewrite Hlog. cbn [Z.eqb].
      rewrite Hd, Hu. reflexivity.
    + intros zs k -> Hk Hnr Hzs Hfuel.
      destruct (zbc_ata_report_zones_filled
                  fuel s start_lba ro zs nr_zones w buf s1 buf1
                  Hmem Hlog Hnr Hfuel Hzs)
        as (s' & res & zs' & E & Hst & Ez & Hl & _ & Hok).
      rewrite Hd, <- Hk in Hok.
      exists s', res, zs'. split; [exact E|]. split; [exact Hst|].
      split; [exact Ez|]. split; [exact Hl|].
      intros Hret. destruct (Hok Hret) as [Hn Hz].
      split; [exact Hn|]. split; [|exact Hz].
      intros i Hi Hi7. destruct (Hz i Hi) as (z & Ezi & Hfirst & _).
      rewrite Ezi, (Hfirst Hi7). reflexivity.
Qed.

(** C8 (amended): the parser does not look at the size of the
    payload or compare the declared count with it, and it has no
    I/O error of its own.  A count query ([zones] is [NULL]), and
    a request with an array for fewer than 2 ^ 25 zones, return
    whatever the transport and the device answer; the status is
    -ENOMEM when the buffer cannot be obtained, the status of a
    log read that failed, and otherwise 0, whatever the payload
    holds.  With status 0 the count query reports the declared
    count as it is, and the request with an array the smaller of
    the declared count and [*nr_zones], after storing that many
    descriptors taken from the buffers that the log reads
    returned (reading further pages of the log for those the
    first page does not hold); the entries of the array after
    these are left as they were. *)
Theorem ata_report_zones_no_payload_check
        s start_lba ro zones nr_zones fuel :
  (forall zs, zones = Some zs ->
              0 <= nr_zones < 2 ^ 25 /\
              (Z.to_nat nr_zones <= length zs)%nat /\
              (Z.to_nat nr_zones < fuel)%nat) ->
  (forall w r buf,
      posix_memalign (fst s) ZBC_ATA_LOG_SIZE = (w, (r, buf)) ->
      r <> 0 ->
      zbc_ata_report_zones fuel s start_lba ro zones nr_zones
      = Some ((w, snd s), {| rz_ret := - ENOMEM; rz_nr_zones := nr_zones;
                             rz_zones := zones |})) /\
  (forall w buf s1 ret buf1,
      posix_memalign (fst s) ZBC_ATA_LOG_SIZE = (w, (0, buf)) ->
      zbc_ata_read_log (w, snd s) ZBC_ATA_REPORT_ZONES_LOG_PAGE 0
                       (Z.land ro 0xf) buf 512 = (s1, (ret, buf1)) ->
      ret <> 0 ->
      zbc_ata_report_zones fuel s start_lba ro zones nr_zones
      = Some (s1, {| rz_ret := ret; rz_nr_zones := nr_zones;
                     rz_zones := zones |})) /\
  (forall w buf s1 buf1,
      posix_memalign (fst s) ZBC_ATA_LOG_SIZE = (w, (0, buf)) ->
      zbc_ata_read_log (w, snd s) ZBC_ATA_REPORT_ZONES_LOG_PAGE 0
                       (Z.land ro 0xf) buf 512 = (s1, (0, buf1)) ->
      let declared := zbc_ata_get_dword buf1 0 in
      exists s' res,
        zbc_ata_report_zones fuel s start_lba ro zones nr_zones
        = Some (s', res) /\
        (rz_ret res = 0 \/ log_read_failed ro (rz_ret res)) /\
        match zones with
        | None =>
            rz_ret res = 0 /\ rz_nr_zones res = declared /\
            rz_zones res = None
        | Some zs =>
            let k := Z.min declared nr_zones in
            exists zs',
              rz_zones res = Some zs' /\ length zs' = length zs /\
              (forall j : nat, (Z.to_nat k <= j)%nat ->
                               zs' !! j = zs !! j) /\
              (rz_ret res = 0 ->
               rz_nr_zones res = k /\ zones_of_log ro buf1 k zs')
        end).
Proof.
  intros Hzs. split; [|split].
  - intros w r buf Hmem Hr. unfold zbc_ata_report_zones.
    rewrite Hmem. destruct (Z.eqb_spec r 0); [contradiction|].
    reflexivity.
  - intros w buf s1 ret buf1 Hmem Hlog Hret.
    unfold zbc_ata_report_zones.
    rewrite Hmem. cbn [Z.eqb]. rewrite Hlog.
    destruct (Z.eqb_spec ret 0); [contradiction|]. reflexivity.
  - intros w buf s1 buf1 Hmem Hlog declared.
    destruct zones as [zs|].
    + destruct (Hzs zs eq_refl) as (Hnr & Hroom & Hfuel).
      destruct (zbc_ata_report_zones_filled
                  fuel s start_lba ro zs nr_zones w buf s1 buf1
                  Hmem Hlog Hnr Hfuel Hroom)
        as (s' & res & zs' & E & Hst & Ez & Hl & Hunt & Hok).
      exists s', res. split; [exact E|]. split; [exact Hst|].
      exists zs'. split; [exact Ez|]. split; [exact Hl|].
      split; [exact Hunt | exact Hok].
    + destruct (zbc_ata_get_dword_declared buf1) as [Hr Hu].
      fold declared in Hr, Hu.
      unfold zbc_ata_report_zones.
      rewrite Hmem. cbn [Z.eqb]. rewrite Hlog. cbn [Z.eqb].
      fold declared. rewrite Hu.
      do 2 eexists. split; [reflexivity|].
      cbn [rz_ret rz_nr_zones rz_zones].
      split; [left; reflexivity|]. repeat split.
Qed.

(** *** Little-endian fields *)

(** X1: [zbc_ata_get_word], [zbc_ata_get_dword] and
    [zbc_ata_get_qword] read two, four and eight bytes as a
    number, least significant byte first; no bit of the bytes
    is lost to the width of the result. *)
Theorem zbc_ata_get_little_endian buf off :
  zbc_ata_get_word buf off
  = byte_at buf off + 2 ^ 8 * byte_at buf (off + 1) /\
  zbc_ata_get_dword buf off
  = byte_at buf off + 2 ^ 8 * byte_at buf (off + 1)
    + 2 ^ 16 * byte_at buf (off + 2) + 2 ^ 24 * byte_at buf (off + 3) /\
  zbc_ata_get_qword buf off
  = byte_at buf off + 2 ^ 8 * byte_at buf (off + 1)
    + 2 ^ 16 * byte_at buf (off + 2) + 2 ^ 24 * byte_at buf (off + 3)
    + 2 ^ 32 * byte_at buf (off + 4) + 2 ^ 40 * byte_at buf (off + 5)
    + 2 ^ 48 * byte_at buf (off + 6) + 2 ^ 56 * byte_at buf (off + 7).
Proof.
  pose proof (byte_at_range buf off) as H0.
  pose proof (byte_at_range buf (off + 1)) as H1.
  pose proof (byte_at_range buf (off + 2)) as H2.
  pose proof (byte_at_range buf (off + 3)) as H3.
  pose proof (byte_at_range buf (off + 4)) as H4.
  pose proof (byte_at_range buf (off + 5)) as H5.
  pose proof (byte_at_range buf (off + 6)) as H6.
  pose proof (byte_at_range buf (off + 7)) as H7.
  split; [|split].
  - unfold zbc_ata_get_word.
    rewrite (lor_shiftl_add (byte_at buf off)) by lia.
    unfold u16. apply Z.mod_small. lia.
  - apply zbc_ata_get_dword_le.
  - unfold zbc_ata_get_qword.
    rewrite (lor_shiftl_add (byte_at buf off)) by lia.
    rewrite (lor_shiftl_add (_ + _)) by lia.
    rewrite (lor_shiftl_add (_ + _)) by lia.
    rewrite (lor_shiftl_add (_ + _)) by lia.
    rewrite (lor_shiftl_add (_ + _)) by lia.
    rewrite (lor_shiftl_add (_ + _)) by lia.
    rewrite (lor_shiftl_add (_ + _)) by lia.
    apply u64_small. lia.
Qed.

(** *** The LBA field of a CDB *)

(** The six bytes of bits 47:0 of a number make up the number
    modulo 2 ^ 48. *)
Lemma lba48_bytes lba :
  0 <= lba ->
  lba mod 2 ^ 8 + 2 ^ 8 * ((lba / 2 ^ 8) mod 2 ^ 8)
  + 2 ^ 16 * ((lba / 2 ^ 16) mod 2 ^ 8)
  + 2 ^ 24 * ((lba / 2 ^ 24) mod 2 ^ 8)
  + 2 ^ 32 * ((lba / 2 ^ 32) mod 2 ^ 8)
  + 2 ^ 40 * ((lba / 2 ^ 40) mod 2 ^ 8)
  = lba mod 2 ^ 48.
Proof.
  intros Hlba.
  pose proof (Z.div_mod lba (2 ^ 8) ltac:(lia)).
  pose proof (Z.div_mod (lba / 2 ^ 8) (2 ^ 8) ltac:(lia)).
  pose proof (Z.div_mod (lba / 2 ^ 16) (2 ^ 8) ltac:(lia)).
  pose proof (Z.div_mod (lba / 2 ^ 24) (2 ^ 8) ltac:(lia)).
  pose proof (Z.div_mod (lba / 2 ^ 32) (2 ^ 8) ltac:(lia)).
  pose proof (Z.div_mod (lba / 2 ^ 40) (2 ^ 8) ltac:(lia)).
  pose proof (Z.div_mod lba (2 ^ 48) ltac:(lia)).
  assert (E16 : lba / 2 ^ 16 = lba / 2 ^ 8 / 2 ^ 8)
    by (rewrite Z.div_div by lia; reflexivity).
  assert (E24 : lba / 2 ^ 24 = lba / 2 ^ 16 / 2 ^ 8)
    by (rewrite Z.div_div by lia; reflexivity).
  assert (E32 : lba / 2 ^ 32 = lba / 2 ^ 24 / 2 ^ 8)
    by (rewrite Z.div_div by lia; reflexivity).
  assert (E40 : lba / 2 ^ 40 = lba / 2 ^ 32 / 2 ^ 8)
    by (rewrite Z.div_div by lia; reflexivity).
  assert (E48 : lba / 2 ^ 48 = lba / 2 ^ 40 / 2 ^ 8)
    by (rewrite Z.div_div by lia; reflexivity).
  lia.
Qed.

(** The LBA read back from six bytes that hold bits 47:0 of a
    number. *)
Lemma cdb_lba_bytes c lba :
  0 <= lba ->
  byte_at c 7 = (lba / 2 ^ 24) mod 2 ^ 8 ->
  byte_at c 8 = lba mod 2 ^ 8 ->
  byte_at c 9 = (lba / 2 ^ 32) mod 2 ^ 8 ->
  byte_at c 10 = (lba / 2 ^ 8) mod 2 ^ 8 ->
  byte_at c 11 = (lba / 2 ^ 40) mod 2 ^ 8 ->
  byte_at c 12 = (lba / 2 ^ 16) mod 2 ^ 8 ->
  cdb_lba c = lba mod 2 ^ 48.
Proof.
  intros Hlba H7 H8 H9 H10 H11 H12.
  unfold cdb_lba. rewrite H7, H8, H9, H10, H11, H12.
  assert (Hm : forall x, 0 <= x mod 2 ^ 8 < 2 ^ 8)
    by (intros x; apply Z.mod_pos_bound; lia).
  pose proof (Hm lba). pose proof (Hm (lba / 2 ^ 8)).
  pose proof (Hm (lba / 2 ^ 16)). pose proof (Hm (lba / 2 ^ 24)).
  pose proof (Hm (lba / 2 ^ 32)). pose proof (Hm (lba / 2 ^ 40)).
  rewrite (lor_shiftl_add (lba mod 2 ^ 8)) by lia.
  rewrite (lor_shiftl_add (_ + _)) by lia.
  rewrite (lor_shiftl_add (_ + _)) by lia.
  rewrite (lor_shiftl_add (_ + _)) by lia.
  rewrite (lor_shiftl_add (_ + _)) by lia.
  apply lba48_bytes, Hlba.
Qed.

Lemma u8_land_shiftr lba k :
  0 <= k -> u8 (Z.land (Z.shiftr lba k) 0xff) = (lba / 2 ^ k) mod 2 ^ 8.
Proof.
  intros Hk. rewrite land_ff, Z.shiftr_div_pow2 by lia.
  apply u8_small, Z.mod_pos_bound. lia.
Qed.

Lemma u8_land lba : u8 (Z.land lba 0xff) = lba mod 2 ^ 8.
Proof. rewrite land_ff. apply u8_small, Z.mod_pos_bound. lia. Qed.

Lemma zbc_ata_rw_cdb_lba48 cdb0 byte2 command lba_count lba :
  length cdb0 = 16%nat -> 0 <= lba ->
  cdb_lba (zbc_ata_rw_cdb cdb0 byte2 command lba_count lba)
  = lba mod 2 ^ 48.
Proof.
  intros Hlen Hlba.
  apply cdb_lba_bytes; [exact Hlba|..];
    unfold zbc_ata_rw_cdb; cdb_byte;
    (apply u8_land_shiftr; lia) || apply u8_land.
Qed.

(** The bytes of a read or write CDB that hold neither the
    count nor the LBA. *)
Lemma zbc_ata_rw_cdb_fixed cdb0 byte2 command lba_count lba :
  length cdb0 = 16%nat ->
  let c := zbc_ata_rw_cdb cdb0 byte2 command lba_count lba in
  byte_at c 0 = ZBC_SG_ATA16_CDB_OPCODE /\ byte_at c 1 = 13 /\
  byte_at c 2 = u8 byte2 /\ byte_at c 13 = 0x40 /\
  byte_at c 14 = u8 command /\
  byte_at c 3 = byte_at cdb0 3 /\ byte_at c 4 = byte_at cdb0 4 /\
  byte_at c 15 = byte_at cdb0 15.
Proof.
  intros Hlen c. unfold c, zbc_ata_rw_cdb.
  repeat split; cdb_byte; reflexivity.
Qed.

(** X2: the CDBs of [zbc_ata_pread] and [zbc_ata_pwrite] are ATA
    pass-through CDBs (opcode 0x85) for READ DMA EXT (0x25)
    and WRITE DMA EXT (0x35) with the DMA protocol, ext = 1,
    t_type = 1, byt_blk = 1, t_length = 2 and the LBA bit of
    the device byte; t_dir is 1 in the read and 0 in the write
    CDB, and but for that bit and the command byte the two are
    the same.  The LBA read back from either is the LBA given
    modulo 2 ^ 48: bits 63:48 of the LBA are dropped. *)
Theorem zbc_ata_rw_cdb_fields cdb0 lba_count lba :
  length cdb0 = 16%nat -> 0 <= lba ->
  let r := zbc_ata_pread_cdb cdb0 lba_count lba in
  let w := zbc_ata_pwrite_cdb cdb0 lba_count lba in
  (byte_at r 0 = 0x85 /\ byte_at w 0 = 0x85) /\
  (byte_at r 14 = 0x25 /\ byte_at w 14 = 0x35) /\
  (cdb_protocol r = 6 /\ cdb_protocol w = 6) /\
  (cdb_ext r = 1 /\ cdb_ext w = 1) /\
  (cdb_t_dir r = 1 /\ cdb_t_dir w = 0) /\
  (cdb_t_type r = 1 /\ cdb_t_type w = 1) /\
  (cdb_byt_blk r = 1 /\ cdb_byt_blk w = 1) /\
  (cdb_t_length r = 2 /\ cdb_t_length w = 2) /\
  (cdb_ck_cond r = 0 /\ cdb_ck_cond w = 0) /\
  (byte_at r 13 = 0x40 /\ byte_at w 13 = 0x40) /\
  (cdb_lba r = lba mod 2 ^ 48 /\ cdb_lba w = lba mod 2 ^ 48) /\
  (forall j, 0 <= j -> j <> 2 -> j <> 14 -> byte_at r j = byte_at w j).
Proof.
  intros Hlen Hlba r w.
  destruct (zbc_ata_rw_cdb_fixed cdb0 0x1e ZBC_ATA_READ_DMA_EXT
              lba_count lba Hlen)
    as (R0 & R1 & R2 & R13 & R14 & _).
  destruct (zbc_ata_rw_cdb_fixed cdb0 0x16 ZBC_ATA_WRITE_DMA_EXT
              lba_count lba Hlen)
    as (W0 & W1 & W2 & W13 & W14 & _).
  fold (zbc_ata_pread_cdb cdb0 lba_count lba) in R0, R1, R2, R13, R14.
  fold (zbc_ata_pwrite_cdb cdb0 lba_count lba) in W0, W1, W2, W13, W14.
  fold r in R0, R1, R2, R13, R14. fold w in W0, W1, W2, W13, W14.
  unfold cdb_protocol, cdb_ext, cdb_t_dir, cdb_t_type, cdb_byt_blk,
    cdb_t_length, cdb_ck_cond.
  rewrite R0, R1, R2, R13, R14, W0, W1, W2, W13, W14.
  do 10 (split; [split; reflexivity|]).
  split.
  - split; apply zbc_ata_rw_cdb_lba48; assumption.
  - intros j Hj H2 H14. unfold r, w, zbc_ata_pread_cdb,
      zbc_ata_pwrite_cdb, zbc_ata_rw_cdb.
    repeat (rewrite byte_at_set_byte
              by (repeat rewrite length_set_byte; lia)).
    destruct (Z.eqb_spec j (Z.of_nat 14)); [lia|].
    destruct (Z.eqb_spec j (Z.of_nat 2)); [lia|].
    reflexivity.
Qed.

(** X3: the CDB of [zbc_ata_reset_write_pointer] is an ATA
    pass-through CDB (opcode 0x85) for RESET WRITE POINTER EXT
    (0x9F) with the non-data protocol, ext = 1 and the LBA bit
    of the device byte.  For [(uint64_t)-1] it sets byte 4 to 1
    (all zones) and leaves the LBA bytes as they were; for
    every other start LBA it leaves byte 4 as it was and the
    LBA read back is the start LBA modulo 2 ^ 48, so that a
    start LBA of 2 ^ 48 or more, which no CDB can hold, is not
    turned down but stands for the zone at the LBA of its
    lower 48 bits. *)
Theorem zbc_ata_reset_write_pointer_cdb_target cdb0 start_lba :
  length cdb0 = 16%nat -> 0 <= start_lba < 2 ^ 64 ->
  let c := zbc_ata_reset_write_pointer_cdb cdb0 start_lba in
  byte_at c 0 = 0x85 /\ byte_at c 14 = 0x9F /\
  cdb_protocol c = 3 /\ cdb_ext c = 1 /\ byte_at c 13 = 0x40 /\
  (start_lba = 2 ^ 64 - 1 ->
   byte_at c 4 = 1 /\
   forall j, 7 <= j <= 12 -> byte_at c j = byte_at cdb0 j) /\
  (start_lba <> 2 ^ 64 - 1 ->
   byte_at c 4 = byte_at cdb0 4 /\
   cdb_lba c = start_lba mod 2 ^ 48).
Proof.
  intros Hlen Hlba c.
  assert (H1 : byte_at c 1 = 7).
  { unfold c, zbc_ata_reset_write_pointer_cdb.
    destruct (start_lba =? u64 (-1)); cdb_byte; reflexivity. }
  unfold cdb_protocol, cdb_ext. rewrite H1.
  split; [|split; [|split; [reflexivity|split; [reflexivity|split]]]].
  - unfold c, zbc_ata_reset_write_pointer_cdb.
    destruct (start_lba =? u64 (-1)); cdb_byte; reflexivity.
  - unfold c, zbc_ata_reset_write_pointer_cdb.
    destruct (start_lba =? u64 (-1)); cdb_byte; reflexivity.
  - unfold c, zbc_ata_reset_write_pointer_cdb.
    destruct (start_lba =? u64 (-1)); cdb_byte; reflexivity.
  - split.
    + intros ->. split.
      * unfold c, zbc_ata_reset_write_pointer_cdb.
        change (2 ^ 64 - 1 =? u64 (-1)) with true. cbv iota.
        cdb_byte. reflexivity.
      * intros j Hj. unfold c, zbc_ata_reset_write_pointer_cdb.
        change (2 ^ 64 - 1 =? u64 (-1)) with true. cbv iota.
        repeat (rewrite byte_at_set_byte
                  by (repeat rewrite length_set_byte; lia)).
        repeat match goal with
               | |- context [j =? Z.of_nat ?b] =>
                   destruct (Z.eqb_spec j (Z.of_nat b)); [lia|]
               end.
        reflexivity.
    + intros Hne.
      assert (E : (start_lba =? u64 (-1)) = false).
      { apply Z.eqb_neq. change (u64 (-1)) with (2 ^ 64 - 1). exact Hne. }
      split.
      * unfold c, zbc_ata_reset_write_pointer_cdb. rewrite E.
        cdb_byte. reflexivity.
      * apply cdb_lba_bytes; [lia|..];
          unfold c, zbc_ata_reset_write_pointer_cdb; rewrite E;
          cdb_byte; (apply u8_land_shiftr; lia) || apply u8_land.
Qed.

(** *** The status of a read or write *)

Lemma zbc_ata_rw_done dir fill_cdb s dev zone buf lba_count lba_ofst
      s1 cmd s2 cmd2 :
  let lbs := zbd_logical_block_size (zbd_info dev) in
  let lba := u64 (zbz_start zone + lba_ofst) in
  0 <= lba_count <= 65536 -> 0 < lbs < 2 ^ 32 ->
  sg_init s ZBC_SG_ATA16 (Some buf) (lba_count * lbs) = (s1, (0, cmd)) ->
  sg_exec s1 (fill_cmd cmd dir (fill_cdb (cdb cmd) lba_count lba))
  = (s2, (0, cmd2)) ->
  0 <= resid cmd2 <= lba_count * lbs ->
  exists n,
    zbc_ata_rw dir fill_cdb s dev zone buf lba_count lba_ofst
    = Some (s2, (n, out_buf cmd2)) /\
    n = (lba_count * lbs - resid cmd2) / lbs /\
    0 <= n <= lba_count /\
    (n = lba_count <-> resid cmd2 = 0) /\
    snd s2 = snd s ++ [fill_cdb (cdb cmd) lba_count lba].
Proof.
  intros lbs lba Hcount Hlbs Hinit Hexec Hres.
  unfold zbc_ata_rw. fold lbs. fold lba.
  destruct (Z.gtb_spec lba_count 65536) as [|_]; [lia|].
  rewrite (u64_small (lba_count * lbs)) by nia.
  rewrite Hinit. cbn [Z.eqb]. rewrite Hexec. cbn [Z.eqb].
  rewrite (u64_small lbs) by lia.
  destruct (Z.eqb_spec lbs 0) as [|_]; [lia|].
  rewrite (u64_small (lba_count * lbs - resid cmd2)) by nia.
  set (n := (lba_count * lbs - resid cmd2) / lbs).
  pose proof (Z.div_mod (lba_count * lbs - resid cmd2) lbs ltac:(lia))
    as Hdm.
  pose proof (Z.mod_pos_bound (lba_count * lbs - resid cmd2) lbs
                ltac:(lia)) as Hr.
  fold n in Hdm.
  assert (Hn : 0 <= n <= lba_count) by nia.
  rewrite (to_int_small n) by lia.
  exists n. split; [reflexivity|]. split; [reflexivity|].
  split; [exact Hn|]. split.
  - split; intros H; nia.
  - unfold sg_exec in Hexec. unfold sg_init in Hinit.
    destruct (zbc_sg_cmd_init (fst s) ZBC_SG_ATA16 (Some buf)
                              (lba_count * lbs)) as [w1 r1].
    inversion Hinit; subst s1 r1. cbn [fst snd] in Hexec.
    destruct (zbc_sg_cmd_exec w1 _) as [w2 r2].
    inversion Hexec; subst. reflexivity.
Qed.

(** X4: [zbc_ata_pread] and [zbc_ata_pwrite] of more than 65536
    blocks hand no command to the transport, and their status is
    what the variable [ret], which has not been given a value,
    holds: the source sets no error code there.  For up to
    65536 blocks, once the command has completed with a
    residual count of no more than the bytes asked for, the
    status is the number of whole blocks that were transferred,
    (bytes asked for less residual count) / block size: at most
    the number asked for, and that number when nothing is left
    over and at no other time; one CDB has been handed to the
    transport, for the LBA zone start + offset. *)
Theorem zbc_ata_rw_status s dev zone buf lba_count lba_ofst :
  let lbs := zbd_logical_block_size (zbd_info dev) in
  let lba := u64 (zbz_start zone + lba_ofst) in
  (65536 < lba_count ->
   zbc_ata_pread s dev zone buf lba_count lba_ofst
   = Some (s, (stack_ret, buf)) /\
   zbc_ata_pwrite s dev zone buf lba_count lba_ofst
   = Some (s, stack_ret)) /\
  (0 <= lba_count <= 65536 -> 0 < lbs < 2 ^ 32 ->
   forall s1 cmd,
     sg_init s ZBC_SG_ATA16 (Some buf) (lba_count * lbs)
     = (s1, (0, cmd)) ->
     (forall s2 cmd2,
         sg_exec s1 (fill_cmd cmd SG_DXFER_FROM_DEV
                              (zbc_ata_pread_cdb (cdb cmd) lba_count lba))
         = (s2, (0, cmd2)) ->
         0 <= resid cmd2 <= lba_count * lbs ->
         exists n,
           zbc_ata_pread s dev zone buf lba_count lba_ofst
           = Some (s2, (n, out_buf cmd2)) /\
           n = (lba_count * lbs - resid cmd2) / lbs /\
           0 <= n <= lba_count /\
           (n = lba_count <-> resid cmd2 = 0) /\
           snd s2 = snd s ++ [zbc_ata_pread_cdb (cdb cmd) lba_count lba])
     /\
     (forall s2 cmd2,
         sg_exec s1 (fill_cmd cmd SG_DXFER_TO_DEV
                              (zbc_ata_pwrite_cdb (cdb cmd) lba_count lba))
         = (s2, (0, cmd2)) ->
         0 <= resid cmd2 <= lba_count * lbs ->
         exists n,
           zbc_ata_pwrite s dev zone buf lba_count lba_ofst
           = Some (s2, n) /\
           n = (lba_count * lbs - resid cmd2) / lbs /\
           0 <= n <= lba_count /\
           (n = lba_count <-> resid cmd2 = 0) /\
           snd s2
           = snd s ++ [zbc_ata_pwrite_cdb (cdb cmd) lba_count lba])).
Proof.
  intros lbs lba. split.
  - intros Hbig. unfold zbc_ata_pread, zbc_ata_pwrite, zbc_ata_rw.
    destruct (Z.gtb_spec lba_count 65536) as [_|]; [|lia].
    split; reflexivity.
  - intros Hcount Hlbs s1 cmd Hinit. split.
    + intros s2 cmd2 Hexec Hres.
      apply (zbc_ata_rw_done SG_DXFER_FROM_DEV zbc_ata_pread_cdb
               s dev zone buf lba_count lba_ofst s1 cmd s2 cmd2);
        assumption.
    + intros s2 cmd2 Hexec Hres.
      destruct (zbc_ata_rw_done SG_DXFER_TO_DEV zbc_ata_pwrite_cdb
                  s dev zone buf lba_count lba_ofst s1 cmd s2 cmd2
                  Hcount Hlbs Hinit Hexec Hres)
        as (n & E & Hn).
      exists n. split; [|exact Hn].
      unfold zbc_ata_pwrite. rewrite E. reflexivity.
Qed.

(** *** The descriptor of the device file *)


(** *** The pages of the Report Zones log *)

(** The log page of a READ LOG DMA EXT CDB, in bytes 9 (15:8)
    and 10 (7:0). *)
Definition cdb_page (c : list Z) : Z :=
  Z.lor (Z.shiftl (byte_at c 9) 8) (byte_at c 10).

(** CDBs that read a log from page [p] on without a gap or an
    overlap: each one asks for 1 to 128 pages of 512 bytes,
    from the page after the last one of the CDB before, and
    for no page that the 16 bits of the page field cannot
    number. *)
Fixpoint pages_from (p : Z) (cs : list (list Z)) : Prop :=
  match cs with
  | [] => True
  | c :: rest =>
      cdb_page c = p /\ 1 <= cdb_count c <= 128 /\
      p + cdb_count c <= 2 ^ 16 /\
      pages_from (p + cdb_count c) rest
  end.

Lemma word_bytes x :
  0 <= x ->
  Z.lor (Z.shiftl ((x / 2 ^ 8) mod 2 ^ 8) 8) (x mod 2 ^ 8) = x mod 2 ^ 16.
Proof.
  intros Hx.
  pose proof (Z.mod_pos_bound x (2 ^ 8) ltac:(lia)).
  pose proof (Z.mod_pos_bound (x / 2 ^ 8) (2 ^ 8) ltac:(lia)).
  rewrite Z.lor_comm, lor_shiftl_add by lia.
  pose proof (Z.div_mod x (2 ^ 8) ltac:(lia)).
  pose proof (Z.div_mod (x / 2 ^ 8) (2 ^ 8) ltac:(lia)).
  pose proof (Z.div_mod x (2 ^ 16) ltac:(lia)).
  assert (E16 : x / 2 ^ 16 = x / 2 ^ 8 / 2 ^ 8)
    by (rewrite Z.div_div by lia; reflexivity).
  lia.
Qed.

Lemma zbc_ata_read_log_cdb_page cdb0 log page opt bufsz :
  length cdb0 = 16%nat -> 0 <= page -> 0 <= bufsz ->
  let c := zbc_ata_read_log_cdb cdb0 log page opt bufsz in
  cdb_page c = page mod 2 ^ 16 /\
  cdb_count c = (bufsz / 512) mod 2 ^ 16.
Proof.
  intros Hlen Hpage Hsz c.
  assert (H9 : byte_at c 9 = (page / 2 ^ 8) mod 2 ^ 8).
  { unfold c, zbc_ata_read_log_cdb. destruct (u8 opt =? 0); cdb_byte;
      apply u8_land_shiftr; lia. }
  assert (H10 : byte_at c 10 = page mod 2 ^ 8).
  { unfold c, zbc_ata_read_log_cdb. destruct (u8 opt =? 0); cdb_byte;
      apply u8_land. }
  assert (H5 : byte_at c 5 = (bufsz / 512 / 2 ^ 8) mod 2 ^ 8).
  { unfold c, zbc_ata_read_log_cdb. destruct (u8 opt =? 0); cdb_byte;
      apply u8_land_shiftr; lia. }
  assert (H6 : byte_at c 6 = (bufsz / 512) mod 2 ^ 8).
  { unfold c, zbc_ata_read_log_cdb. destruct (u8 opt =? 0); cdb_byte;
      apply u8_land. }
  unfold cdb_page, cdb_count. rewrite H9, H10, H5, H6.
  split; apply word_bytes; [lia|].
  apply Z.div_pos; lia.
Qed.

(** A log read hands one CDB to the transport, for the page and
    the size it was given, unless the command could not be
    prepared; then it fails. *)
Lemma zbc_ata_read_log_page s log page opt buf bufsz :
  init_cdb16 -> 0 <= page < 2 ^ 16 -> 512 <= bufsz <= 65536 ->
  exists issued,
    snd (fst (zbc_ata_read_log s log page opt buf bufsz))
    = snd s ++ issued /\
    (issued = [] \/
     exists c, issued = [c] /\ cdb_page c = page /\
               cdb_count c = bufsz / 512) /\
    (fst (snd (zbc_ata_read_log s log page opt buf bufsz)) = 0 ->
     issued <> []).
Proof.
  intros Hlen Hpage Hsz. unfold zbc_ata_read_log, sg_init, sg_exec.
  specialize (Hlen (fst s) ZBC_SG_ATA16 (Some buf) bufsz).
  destruct (zbc_sg_cmd_init (fst s) ZBC_SG_ATA16 (Some buf) bufsz)
    as [w [ret cmd]].
  cbn [fst snd] in *.
  destruct (Z.eqb_spec ret 0) as [->|Hne].
  - destruct (zbc_sg_cmd_exec w _) as [w2 [ret2 cmd2]].
    cbn [fst snd cdb fill_cmd]. eexists [_].
    split; [reflexivity|]. split; [|discriminate].
    right. eexists. split; [reflexivity|].
    destruct (zbc_ata_read_log_cdb_page (cdb cmd) log page opt bufsz
                Hlen ltac:(lia) ltac:(lia)) as [Hp Hc].
    split; [rewrite Hp; apply Z.mod_small; lia|].
    rewrite Hc. apply Z.mod_small.
    split; [apply Z.div_pos; lia|].
    apply Z.div_lt_upper_bound; lia.
  - exists []. cbn [fst snd]. rewrite app_nil_r.
    split; [reflexivity|]. split; [left; reflexivity|].
    intros; contradiction.
Qed.

Lemma pages_from_app p cs1 cs2 :
  pages_from p cs1 ->
  pages_from (p + fold_right (fun c acc => cdb_count c + acc) 0 cs1) cs2 ->
  pages_from p (cs1 ++ cs2).
Proof.
  revert p. induction cs1 as [|c cs1 IH]; intros p H1 H2.
  - cbn in *. rewrite Z.add_0_r in H2. exact H2.
  - cbn [pages_from app fold_right] in *.
    destruct H1 as (Hp & Hc & Hb & Hrest).
    split; [exact Hp|]. split; [exact Hc|]. split; [exact Hb|].
    apply IH; [exact Hrest|].
    rewrite <- Z.add_assoc. exact H2.
Qed.

Lemma report_zones_loop_pages fuel :
  forall s ro ret buf buf_z buf_sz buf_nz page nz n zones m,
    init_cdb16 ->
    buf_sz = 512 * m -> 1 <= m <= 128 ->
    0 <= page -> 0 <= nz ->
    (0 < nz -> 1 <= buf_nz <= nz) ->
    (buf_nz < nz -> 8 * (page + m) + (nz - buf_nz) <= 2 ^ 19) ->
    (Z.to_nat nz < fuel)%nat ->
    exists s' pr issued,
      report_zones_loop fuel s ro ret buf buf_z buf_sz buf_nz page nz n
                        zones = Some (s', pr) /\
      snd s' = snd s ++ issued /\
      pages_from (page + m) issued.
Proof.
  induction fuel as [|fuel IH];
    intros s ro ret buf buf_z buf_sz buf_nz page nz n zones m
           Hlen Hsz Hm Hpage Hnz Hbuf Hbound Hfuel; [lia|].
  cbn [report_zones_loop].
  destruct (Z.eqb_spec nz 0) as [->|Hne].
  { do 2 eexists. exists []. rewrite app_nil_r.
    split; [reflexivity|]. split; [reflexivity | exact I]. }
  specialize (Hbuf ltac:(lia)).
  destruct (parse_descriptors _ _ _ _ _) as [[zones1 n1] bz].
  rewrite (to_int_small (nz - buf_nz)) by lia.
  destruct (Z.eqb_spec (nz - buf_nz) 0) as [Hz|Hnz1].
  { do 2 eexists. exists []. rewrite app_nil_r.
    split; [reflexivity|]. split; [reflexivity | exact I]. }
  specialize (Hbound ltac:(lia)).
  set (nz1 := nz - buf_nz) in *.
  subst buf_sz.
  rewrite (Z.quot_div_nonneg (512 * m) 512) by lia.
  rewrite (Z.mul_comm 512 m), Z.div_mul by lia.
  rewrite (to_int_small (page + m)) by lia.
  set (page1 := page + m) in *.
  change (Z.quot 512 ZBC_ATA_ZONE_DESCRIPTOR_LENGTH) with 8.
  rewrite (Z.quot_div_nonneg nz1 8) by lia.
  pose proof (Z.div_mod nz1 8 ltac:(lia)) as Hdm.
  pose proof (Z.mod_pos_bound nz1 8 ltac:(lia)) as Hmod.
  set (q := nz1 / 8) in *.
  rewrite (to_int_small (q * 512)) by lia.
  set (buf_sz1 := if q * 512 =? 0 then 512
                  else if q * 512 >? ZBC_ATA_LOG_SIZE
                       then ZBC_ATA_LOG_SIZE else q * 512).
  assert (Hm1 : exists m1, buf_sz1 = 512 * m1 /\ 1 <= m1 <= 128 /\
                           (8 * m1 <= nz1 \/ m1 = 1)).
  { unfold buf_sz1, ZBC_ATA_LOG_SIZE.
    destruct (Z.eqb_spec (q * 512) 0).
    - exists 1. lia.
    - destruct (Z.gtb_spec (q * 512) 65536).
      + exists 128. lia.
      + exists q. lia. }
  destruct Hm1 as (m1 & Hsz1 & Hm1 & Hq1).
  clearbody buf_sz1.
  rewrite (u64_small buf_sz1) by lia.
  assert (Hpages : buf_sz1 / 512 = m1).
  { subst buf_sz1. rewrite Z.mul_comm. apply Z.div_mul. lia. }
  destruct (zbc_ata_read_log_page
              s ZBC_ATA_REPORT_ZONES_LOG_PAGE page1 (Z.land ro 0xf)
              buf buf_sz1 Hlen ltac:(unfold page1; lia) ltac:(lia))
    as (i1 & E1 & Hi1 & Hok).
  destruct (zbc_ata_read_log s ZBC_ATA_REPORT_ZONES_LOG_PAGE page1
                             (Z.land ro 0xf) buf buf_sz1)
    as [s1 [ret1 buf1]].
  cbn [fst snd] in E1, Hok.
  assert (Hp1 : pages_from page1 i1).
  { destruct Hi1 as [->|(c & -> & Hc1 & Hc2)]; [exact I|].
    cbn [pages_from]. split; [exact Hc1|]. rewrite Hc2, Hpages.
    unfold page1 in *. repeat split; lia. }
  destruct (Z.eqb_spec ret1 0) as [->|Hret].
  - assert (Hb : Z.quot buf_sz1 ZBC_ATA_ZONE_DESCRIPTOR_LENGTH = 8 * m1).
    { unfold ZBC_ATA_ZONE_DESCRIPTOR_LENGTH.
      rewrite Z.quot_div_nonneg by lia. subst buf_sz1.
      replace (512 * m1) with (8 * m1 * 64) by lia.
      apply Z.div_mul. lia. }
    rewrite Hb.
    set (buf_nz1 := if 8 * m1 >? nz1 then nz1 else 8 * m1).
    assert (Hbn1 : 1 <= buf_nz1 <= nz1 /\
                   (buf_nz1 < nz1 -> buf_nz1 = 8 * m1)).
    { unfold buf_nz1. destruct (Z.gtb_spec (8 * m1) nz1); lia. }
    clearbody buf_nz1.
    destruct (IH s1 ro 0 buf1 0 buf_sz1 buf_nz1 page1 nz1 n1 zones1 m1
                 Hlen Hsz1 Hm1)
      as (s' & pr & i2 & E & E2 & Hp2).
    + unfold page1. lia.
    + unfold nz1. lia.
    + intros _. lia.
    + intros Hlt. unfold page1, nz1 in *. lia.
    + unfold nz1. lia.
    + exists s', pr, (i1 ++ i2). split; [exact E|].
      split; [rewrite E2, E1, app_assoc; reflexivity|].
      apply pages_from_app; [exact Hp1|].
      destruct Hi1 as [->|(c & -> & Hc1 & Hc2)].
      * exfalso. apply (Hok eq_refl). reflexivity.
      * cbn [fold_right]. rewrite Hc2, Hpages, Z.add_0_r. exact Hp2.
  - do 2 eexists. exists i1. split; [reflexivity|].
    split; [exact E1 | exact Hp1].
Qed.

(** X6: whatever the transport and the device answer,
    [zbc_ata_report_zones] with room for fewer than 2 ^ 19
    zones returns, and the CDBs that it hands to the transport
    read the log without a gap or an overlap: the first one
    asks for page 0, every one asks for 1 to 128 pages (at most
    the 65536 bytes of the buffer), and each one starts at the
    page after the last one that the CDB before asked for.  No
    page is asked for twice: the zones of such a request lie in
    the first 2 ^ 16 pages of the log, which the 16 bits of the
    page field of the CDB number without wrapping around. *)
Theorem ata_report_zones_pages_contiguous
        fuel s start_lba ro zones nr_zones :
  init_cdb16 -> 0 <= nr_zones < 2 ^ 19 ->
  (Z.to_nat nr_zones < fuel)%nat ->
  exists s' r issued,
    zbc_ata_report_zones fuel s start_lba ro zones nr_zones
    = Some (s', r) /\
    snd s' = snd s ++ issued /\
    pages_from 0 issued.
Proof.
  intros Hlen Hnr Hfuel. unfold zbc_ata_report_zones.
  destruct (posix_memalign (fst s) ZBC_ATA_LOG_SIZE) as [w [r buf]].
  destruct (r =? 0).
  2:{ do 2 eexists. exists []. cbn [snd]. rewrite app_nil_r.
      split; [reflexivity|]. split; [reflexivity | exact I]. }
  destruct (zbc_ata_read_log_page
              (w, snd s) ZBC_ATA_REPORT_ZONES_LOG_PAGE 0 (Z.land ro 0xf)
              buf 512 Hlen ltac:(lia) ltac:(lia))
    as (i1 & E1 & Hi1 & Hok).
  destruct (zbc_ata_read_log (w, snd s) ZBC_ATA_REPORT_ZONES_LOG_PAGE 0
                             (Z.land ro 0xf) buf 512)
    as [s1 [ret1 buf1]].
  cbn [fst snd] in E1, Hok.
  assert (Hp1 : pages_from 0 i1).
  { destruct Hi1 as [->|(c & -> & Hc1 & Hc2)]; [exact I|].
    cbn [pages_from]. split; [exact Hc1|]. rewrite Hc2.
    change (512 / 512) with 1. repeat split; lia. }
  destruct (Z.eqb_spec ret1 0) as [->|Hret].
  2:{ do 2 eexists. exists i1.
      split; [reflexivity|]. split; [exact E1 | exact Hp1]. }
  destruct zones as [zs|].
  2:{ do 2 eexists. exists i1.
      split; [reflexivity|]. split; [exact E1 | exact Hp1]. }
  set (nz := to_int (zbc_ata_get_dword buf1 0)).
  destruct (Z.eqb_spec nz 0) as [Hz|Hnz].
  { do 2 eexists. exists i1.
    split; [reflexivity|]. split; [exact E1 | exact Hp1]. }
  set (nz1 := if u32 nz >? nr_zones then to_int nr_zones else nz).
  assert (Hnz1 : 0 <= nz1 <= nr_zones).
  { unfold nz1. destruct (Z.gtb_spec (u32 nz) nr_zones) as [Hgt|Hle].
    - rewrite to_int_small by lia. lia.
    - pose proof (u32_range nz) as Hr.
      assert (E : u32 nz = nz).
      { unfold nz. rewrite u32_to_int.
        unfold nz in Hle. rewrite u32_to_int in Hle.
        unfold to_int.
        destruct (Z.ltb_spec (u32 (zbc_ata_get_dword buf1 0)) (2 ^ 31));
          [reflexivity | lia]. }
      lia. }
  set (b := Z.quot (512 - ZBC_ATA_ZONE_DESCRIPTOR_OFFSET)
                   ZBC_ATA_ZONE_DESCRIPTOR_LENGTH).
  assert (Hb : b = 7) by reflexivity.
  destruct (report_zones_loop_pages
              fuel s1 ro 0 buf1 ZBC_ATA_ZONE_DESCRIPTOR_OFFSET 512
              (if b >? nz1 then nz1 else b) 0 nz1 0 zs 1 Hlen)
    as (s' & pr & i2 & E & E2 & Hp2); try lia.
  { intros Hpos. rewrite Hb. destruct (Z.gtb_spec 7 nz1); lia. }
  { rewrite Hb. destruct (Z.gtb_spec 7 nz1); lia. }
  rewrite E. do 2 eexists. exists (i1 ++ i2).
  split; [reflexivity|].
  split; [rewrite E2, E1, app_assoc; reflexivity|].
  apply pages_from_app; [exact Hp1|].
  destruct Hi1 as [->|(c & -> & Hc1 & Hc2)].
  - exfalso. apply (Hok eq_refl). reflexivity.
  - cbn [fold_right]. rewrite Hc2, Z.add_0_r.
    exact Hp2.
Qed.

End Backend.

(** *** A small transport to run the backend on

    The world is the number of commands completed so far.  Every
    command is prepared with a zeroed CDB and completes with status
    0; the device answers every data-in command with [payload] and
    every command with the sense data [sense]. *)

Definition ex_cmd (buf : option (list Z)) (sz : Z) : zbc_sg_cmd :=
  {| cdb := cdb_zero; dxfer_direction := SG_DXFER_NONE;
     out_buf := match buf with Some b => b | None => [] end;
     out_bufsz := sz; sense_buf := []; resid := 0 |}.

Definition ex_init (w : nat) (t : sg_cmd_type) (buf : option (list Z))
           (sz : Z) : nat * (Z * zbc_sg_cmd) :=
  (w, (0, ex_cmd buf sz)).

Definition ex_exec (payload sense : list Z) (w : nat) (c : zbc_sg_cmd)
  : nat * (Z * zbc_sg_cmd) :=
  (S w, (0, {| cdb := cdb c; dxfer_direction := dxfer_direction c;
               out_buf := payload; out_bufsz := out_bufsz c;
               sense_buf := sense; resid := 0 |})).

Definition ex_memalign (w : nat) (sz : Z) : nat * (Z * list Z) :=
  (w, (0, [])).

Definition ex_read_capacity (w : nat) (dev : zbc_device)
  : nat * (Z * zbc_device) :=
  (w, (0, dev)).

Definition ex_dev : zbc_device :=
  {| zbd_filename := "/dev/sg0"; zbd_fd := 3;
     zbd_info := {| zbd_type := ZBC_DT_UNKNOWN;
                    zbd_model := ZBC_DM_DRIVE_UNKNOWN;
                    zbd_logical_blocks := 0;
                    zbd_logical_block_size := 0;
                    zbd_physical_blocks := 0;
                    zbd_physical_block_size := 0 |} |}.

Definition ex_zone : zbc_zone :=
  {| zbz_type := 0; zbz_condition := 0; zbz_length := 0; zbz_start := 0;
     zbz_write_pointer := 0; zbz_need_reset := false;
     zbz_non_seq := false |}.

(** Sense data with the host-managed signature in descriptor bytes 9
    and 11. *)
Definition ex_sense_hm : list Z :=
  replicate 17 0 ++ [0xCD; 0; 0xAB].

(** A 512-byte payload that declares 1000 zones, and one cut after
    its first four bytes. *)
Definition ex_payload_1000 : list Z := [0xE8; 0x03; 0; 0] ++ replicate 508 0.
Definition ex_payload_short : list Z := [0xE8; 0x03; 0; 0].

Lemma ex_init_cdb16 : init_cdb16 ex_init.
Proof. intros w t b sz. reflexivity. Qed.

(** Sense data with the standard signature, and a log directory that
    gives log 0x1A five pages. *)
Definition ex_sense_std : list Z := replicate 20 0.

Definition ex_directory (pages : Z) : list Z :=
  replicate 52 0 ++ [pages; 0].

(** The classifier, run. *)

Example ex_classify_host_managed :
  snd (zbc_ata_get_info ex_init (ex_exec [] ex_sense_hm) []
                        ex_read_capacity (O, []) ex_dev)
  = ({| zbd_filename := "/dev/sg0"; zbd_fd := 3;
        zbd_info := {| zbd_type := ZBC_DT_ATA;
                       zbd_model := ZBC_DM_HOST_MANAGED;
                       zbd_logical_blocks := 0;
                       zbd_logical_block_size := 0;
                       zbd_physical_blocks := 0;
                       zbd_physical_block_size := 0 |} |}, 0).
Proof. vm_compute. reflexivity. Qed.

Example ex_classify_host_aware :
  let r := snd (zbc_ata_classify ex_init
                                 (ex_exec (ex_directory 5) ex_sense_std)
                                 [] (O, []) ex_dev) in
  (zbd_model (zbd_info (fst r)), snd r) = (ZBC_DM_HOST_AWARE, 5).
Proof. vm_compute. reflexivity. Qed.

Example ex_classify_drive_managed :
  let r := snd (zbc_ata_get_info ex_init
                                 (ex_exec (ex_directory 0) ex_sense_std)
                                 [] ex_read_capacity (O, []) ex_dev) in
  (zbd_model (zbd_info (fst r)), snd r) = (ZBC_DM_DRIVE_MANAGED, - ENXIO).
Proof. vm_compute. reflexivity. Qed.

Example ex_classify_other_signature :
  snd (snd (zbc_ata_get_info ex_init (ex_exec [] (replicate 17 0 ++ [1]))
                             [] ex_read_capacity (O, []) ex_dev))
  = - ENXIO.
Proof. vm_compute. reflexivity. Qed.

(** A first page that declares two zones and holds their descriptors. *)
Definition ex_descriptor (type cond start : Z) : list Z :=
  [type; cond * 16] ++ replicate 6 0
    ++ [100; 0; 0; 0; 0; 0; 0; 0]
    ++ [start; 0; 0; 0; 0; 0; 0; 0]
    ++ [start; 0; 0; 0; 0; 0; 0; 0]
    ++ replicate 32 0.

Definition ex_log_page : list Z :=
  [2; 0; 0; 0] ++ replicate 60 0
    ++ ex_descriptor 1 0 0 ++ ex_descriptor 2 1 100.

Example ex_report_two_zones :
  option_map (fun r => (rz_ret (snd r), rz_nr_zones (snd r),
                        rz_zones (snd r)))
             (zbc_ata_report_zones ex_init (ex_exec ex_log_page [])
                                   ex_memalign 3 (O, []) 0 0
                                   (Some (replicate 4 ex_zone)) 4)
  = Some (0, 2,
          Some [{| zbz_type := 1; zbz_condition := 0; zbz_length := 100;
                   zbz_start := 0; zbz_write_pointer := 0;
                   zbz_need_reset := false; zbz_non_seq := false |};
                {| zbz_type := 2; zbz_condition := 1; zbz_length := 100;
                   zbz_start := 100; zbz_write_pointer := 100;
                   zbz_need_reset := false; zbz_non_seq := false |};
                ex_zone; ex_zone]).
Proof. vm_compute. reflexivity. Qed.


(** A device that answers a log read with the pages of [log] that
    the CDB asks for. *)
Definition ex_exec_log (log : list Z) (w : nat) (c : zbc_sg_cmd)
  : nat * (Z * zbc_sg_cmd) :=
  (S w, (0, {| cdb := cdb c; dxfer_direction := dxfer_direction c;
               out_buf := take (Z.to_nat (512 * cdb_count (cdb c)))
                               (drop (Z.to_nat (512 * cdb_page (cdb c))) log);
               out_bufsz := out_bufsz c; sense_buf := []; resid := 0 |})).

(** A log of nine zones: the header, seven descriptors in the first
    page and two in the second. *)
Definition ex_log_9 : list Z :=
  [9; 0; 0; 0] ++ replicate 60 0
    ++ concat (map (fun i => ex_descriptor 1 0 (10 * i)) (seqZ 0 9)).

(** Nine zones asked of the log of nine zones: the array query,
    through the theorem. *)
Lemma ata_report_zones_log_layout_witness :
  exists s' res zs',
    zbc_ata_report_zones ex_init (ex_exec_log ex_log_9) ex_memalign
                         10 (O, []) 0 0 (Some (replicate 9 ex_zone)) 9
    = Some (s', res) /\
    (rz_ret res = 0
     \/ log_read_failed ex_init (ex_exec_log ex_log_9) 0 (rz_ret res)) /\
    rz_zones res = Some zs' /\ length zs' = 9%nat /\
    (rz_ret res = 0 ->
     rz_nr_zones res = 9 /\
     (forall i, 0 <= i < 9 -> i < 7 ->
        zs' !! Z.to_nat i
        = Some (parse_zone_descriptor
                  (take 512 ex_log_9)
                  (ZBC_ATA_ZONE_DESCRIPTOR_OFFSET
                   + ZBC_ATA_ZONE_DESCRIPTOR_LENGTH * i))) /\
     zones_of_log ex_init (ex_exec_log ex_log_9) 0 (take 512 ex_log_9)
                  9 zs').
Proof.
  refine (proj2 (proj2 (ata_report_zones_log_layout
                          ex_init (ex_exec_log ex_log_9) ex_memalign
                          (O, []) 0 0 (Some (replicate 9 ex_zone)) 9
                          ex_init_cdb16)
                       O [] _ (take 512 ex_log_9) 10%nat eq_refl eq_refl)
                (replicate 9 ex_zone) 9 eq_refl eq_refl _ _ _).
  - lia.
  - cbn. lia.
  - lia.
Defined.

Example ex_report_nine_zones :
  option_map (fun r => (rz_ret (snd r), rz_nr_zones (snd r),
                        option_map (map zbz_start) (rz_zones (snd r)),
                        map (fun c => (cdb_page c, cdb_count c))
                            (snd (fst r))))
             (zbc_ata_report_zones ex_init (ex_exec_log ex_log_9)
                                   ex_memalign 10 (O, []) 0 0
                                   (Some (replicate 9 ex_zone)) 9)
  = Some (0, 9, Some [0; 10; 20; 30; 40; 50; 60; 70; 80],
          [(0, 1); (1, 1)]).
Proof. vm_compute. reflexivity. Qed.

(** With 2 ^ 25 zones left to read, the size that the loop computes
    for the next read, [(nz / (512 / 64)) * 512] in an [int], is no
    longer a size. *)
Example ex_read_size_overflows :
  to_int (Z.quot (2 ^ 25) (Z.quot 512 ZBC_ATA_ZONE_DESCRIPTOR_LENGTH) * 512)
  = - 2 ^ 31.
Proof. reflexivity. Qed.

(** C8 (counterexample): a payload of 512 bytes that declares 1000
    zones, whose descriptors would take 64000 bytes, and a payload of
    four bytes, shorter than the 64-byte header.  On the first the
    count query returns 0 and reports 1000 zones, and the query with
    an array of eight zones returns 0 and reports eight zones; on the
    second the count query returns 0 and reports 1000 zones.  None
    returns a negative status. *)
Lemma ata_report_zones_accepts_malformed_payload :
  (1000 * ZBC_ATA_ZONE_DESCRIPTOR_LENGTH
   > Z.of_nat (length ex_payload_1000)) /\
  (exists s',
      zbc_ata_report_zones ex_init (ex_exec ex_payload_1000 []) ex_memalign
                           1 (O, []) 0 0 None 0
      = Some (s', {| rz_ret := 0; rz_nr_zones := 1000;
                     rz_zones := None |})) /\
  (exists s' zs,
      zbc_ata_report_zones ex_init (ex_exec ex_payload_1000 []) ex_memalign
                           9 (O, []) 0 0 (Some (replicate 8 ex_zone)) 8
      = Some (s', {| rz_ret := 0; rz_nr_zones := 8;
                     rz_zones := Some zs |})) /\
  (Z.of_nat (length ex_payload_short) < ZBC_ATA_ZONE_DESCRIPTOR_OFFSET) /\
  (exists s',
      zbc_ata_report_zones ex_init (ex_exec ex_payload_short []) ex_memalign
                           1 (O, []) 0 0 None 0
      = Some (s', {| rz_ret := 0; rz_nr_zones := 1000;
                     rz_zones := None |})).
Proof.
  split; [vm_compute; reflexivity|]. split.
  { eexists. vm_compute. reflexivity. }
  split.
  { do 2 eexists. vm_compute. reflexivity. }
  split; [vm_compute; reflexivity|].
  eexists. vm_compute. reflexivity.
Qed.

(** The array query of the counterexample, through the theorem. *)
Lemma ata_report_zones_no_payload_check_witness :
  exists s' res,
    zbc_ata_report_zones ex_init (ex_exec ex_payload_1000 []) ex_memalign
                         9 (O, []) 0 0 (Some (replicate 8 ex_zone)) 8
    = Some (s', res) /\
    (rz_ret res = 0
     \/ log_read_failed ex_init (ex_exec ex_payload_1000 []) 0
                        (rz_ret res)) /\
    exists zs',
      rz_zones res = Some zs' /\ length zs' = 8%nat /\
      (forall j : nat, (8 <= j)%nat -> zs' !! j = replicate 8 ex_zone !! j) /\
      (rz_ret res = 0 ->
       rz_nr_zones res = 8 /\
       zones_of_log ex_init (ex_exec ex_payload_1000 []) 0 ex_payload_1000
                    8 zs').
Proof.
  refine (proj2 (proj2 (ata_report_zones_no_payload_check
                          ex_init (ex_exec ex_payload_1000 []) ex_memalign
                          (O, []) 0 0 (Some (replicate 8 ex_zone)) 8 9%nat
                          _))
                O [] _ ex_payload_1000 eq_refl eq_refl).
  intros zs E. injection E as <-. cbn. lia.
Defined.
(** *** Reads, writes and the device file on the small transport *)

(** A device with 512-byte logical blocks, and a transport that
    leaves [left] bytes of every transfer undone. *)
Definition ex_dev_512 : zbc_device :=
  {| zbd_filename := "/dev/sg0"; zbd_fd := 3;
     zbd_info := {| zbd_type := ZBC_DT_ATA;
                    zbd_model := ZBC_DM_HOST_MANAGED;
                    zbd_logical_blocks := 1000;
                    zbd_logical_block_size := 512;
                    zbd_physical_blocks := 125;
                    zbd_physical_block_size := 4096 |} |}.

Definition ex_exec_short (left : Z) (w : nat) (c : zbc_sg_cmd)
  : nat * (Z * zbc_sg_cmd) :=
  (S w, (0, {| cdb := cdb c; dxfer_direction := dxfer_direction c;
               out_buf := out_buf c; out_bufsz := out_bufsz c;
               sense_buf := []; resid := left |})).

(** A zone that starts at LBA 2 ^ 48. *)
Definition ex_zone_far : zbc_zone :=
  {| zbz_type := 2; zbz_condition := 1; zbz_length := 100;
     zbz_start := 2 ^ 48; zbz_write_pointer := 2 ^ 48;
     zbz_need_reset := false; zbz_non_seq := false |}.

(** The read and write CDBs for 8 blocks at LBA 2 ^ 48 + 5: the
    LBA read back is 5. *)
Lemma zbc_ata_rw_cdb_fields_witness :
  cdb_lba (zbc_ata_pread_cdb cdb_zero 8 (2 ^ 48 + 5)) = 5 /\
  cdb_lba (zbc_ata_pwrite_cdb cdb_zero 8 (2 ^ 48 + 5)) = 5.
Proof.
  refine (proj1 (proj2 (proj2 (proj2 (proj2 (proj2 (proj2 (proj2 (proj2
            (proj2 (proj2 (zbc_ata_rw_cdb_fields
                             cdb_zero 8 (2 ^ 48 + 5) eq_refl _)))))))))))).
  lia.
Defined.

(** The write pointer reset for the start LBA 2 ^ 48 goes to LBA
    0. *)
Lemma zbc_ata_reset_write_pointer_cdb_target_witness :
  byte_at (zbc_ata_reset_write_pointer_cdb cdb_zero (2 ^ 48)) 4 = 0 /\
  cdb_lba (zbc_ata_reset_write_pointer_cdb cdb_zero (2 ^ 48)) = 0.
Proof.
  refine (proj2 (proj2 (proj2 (proj2 (proj2 (proj2
            (zbc_ata_reset_write_pointer_cdb_target
               cdb_zero (2 ^ 48) eq_refl _))))))
            _).
  - lia.
  - lia.
Defined.

(** A read of 8 blocks of which 700 bytes are left undone returns
    6. *)
Lemma zbc_ata_rw_status_witness :
  exists n,
    zbc_ata_pread ex_init (ex_exec_short 700) 77 (O, []) ex_dev_512
                  ex_zone [] 8 5
    = Some ((1%nat, [zbc_ata_pread_cdb cdb_zero 8 5]), (n, [])) /\
    n = (8 * 512 - 700) / 512 /\ 0 <= n <= 8 /\
    (n = 8 <-> 700 = 0) /\
    [zbc_ata_pread_cdb cdb_zero 8 5]
    = [] ++ [zbc_ata_pread_cdb cdb_zero 8 5].
Proof.
  refine (proj1 (proj2 (zbc_ata_rw_status
                          ex_init (ex_exec_short 700) 77 (O, []) ex_dev_512
                          ex_zone [] 8 5)
                       _ _ (O, []) (ex_cmd (Some []) (8 * 512)) eq_refl)
                (1%nat, [zbc_ata_pread_cdb cdb_zero 8 5])
                {| cdb := zbc_ata_pread_cdb cdb_zero 8 5;
                   dxfer_direction := SG_DXFER_FROM_DEV;
                   out_buf := []; out_bufsz := 8 * 512;
                   sense_buf := []; resid := 700 |}
                eq_refl _).
  - lia.
  - cbn. lia.
  - cbn. lia.
Defined.

(** A file system in which [open] gives descriptor 3 and [fstat]
    finds a regular file. *)
Definition ex_sys_open (w : nat) (name : string) (flags : Z)
  : nat * (Z * Z) := (w, (3, 0)).
Definition ex_sys_fstat (w : nat) (fd : Z) : nat * (Z * Z * bool) :=
  (w, (0, 0, false)).
Definition ex_sys_close (w : nat) (fd : Z) : nat * (Z * Z) := (w, (0, 0)).
Definition ex_calloc_dev (w : nat) : nat * option zbc_device :=
  (w, Some ex_dev).
Definition ex_strdup (w : nat) (name : string) : nat * option string :=
  (w, Some name).


Example ex_open_regular_file :
  let r := zbc_ata_open ex_init (ex_exec [] ex_sense_hm) []
                        ex_read_capacity ex_sys_open ex_sys_fstat
                        ex_sys_close ex_calloc_dev ex_strdup
                        ((O, []), []) "/tmp/file" 0 in
  (snd (fst r), op_ret (snd r), op_pdev (snd r)) = ([3], - ENXIO, None).
Proof. vm_compute. reflexivity. Qed.

(** A device that declares 30 zones, asked for 30: the first page
    holds 7 descriptors, a read of two pages 16 and a read of one
    page the last 7. *)
Lemma ata_report_zones_pages_contiguous_witness :
  exists s' r issued,
    zbc_ata_report_zones ex_init (ex_exec ([30; 0; 0; 0]) []) ex_memalign
                         31 (O, []) 0 0 (Some (replicate 30 ex_zone)) 30
    = Some (s', r) /\
    snd s' = [] ++ issued /\ pages_from 0 issued.
Proof.
  refine (ata_report_zones_pages_contiguous
            ex_init (ex_exec ([30; 0; 0; 0]) []) ex_memalign
            31 (O, []) 0 0 (Some (replicate 30 ex_zone)) 30
            ex_init_cdb16 _ _).
  - lia.
  - lia.
Defined.

Example ex_report_pages :
  option_map (fun r => map (fun c => (cdb_page c, cdb_count c))
                           (snd (fst r)))
             (zbc_ata_report_zones ex_init (ex_exec ([30; 0; 0; 0]) [])
                                   ex_memalign 31 (O, []) 0 0
                                   (Some (replicate 30 ex_zone)) 30)
  = Some [(0, 1); (1, 2); (3, 1)].
Proof. vm_compute. reflexivity. Qed.

(** A read of more blocks than a CDB can count. *)
Example ex_read_too_large :
  zbc_ata_pread ex_init (ex_exec_short 0) 77 (O, []) ex_dev_512 ex_zone []
                65537 0
  = Some ((O, []), (77, [])).
Proof. reflexivity. Qed.

(** A field read least significant byte first. *)
Example ex_get_qword :
  zbc_ata_get_qword [0x01; 0x02; 0; 0; 0; 0; 0; 0x80] 0
  = 0x8000000000000201.
Proof. reflexivity. Qed.

End ZbcAta.

(** ** The device-independent layer ([lib/zbc.c]) *)

Module Zbc.

(** *** Data model *)

(** Modelled from the spec: the zone descriptor, declared in a header
    that is not part of the sources.  [zbc.c] itself reads only
    [zbz_start] and [zbz_length], both [uint64_t] sector counts. *)
Record zbc_zone := {
  zbz_type : Z;
  zbz_condition : Z;
  zbz_start : Z;
  zbz_length : Z;
  zbz_write_pointer : Z;
  zbz_need_reset : bool;
  zbz_non_seq : bool
}.

(** The drivers of the [zbc_drv] array, as the addresses stored in it. *)
Inductive drv_id := zbc_block_drv | zbc_scsi_drv | zbc_ata_drv | zbc_fake_drv.

(** [static struct zbc_drv *zbc_drv[]], without its [NULL] end mark. *)
Definition zbc_drv : list drv_id :=
  [zbc_block_drv; zbc_scsi_drv; zbc_ata_drv; zbc_fake_drv].

Definition drv_id_eqb (a b : drv_id) : bool :=
  match a, b with
  | zbc_block_drv, zbc_block_drv | zbc_scsi_drv, zbc_scsi_drv
  | zbc_ata_drv, zbc_ata_drv | zbc_fake_drv, zbc_fake_drv => true
  | _, _ => false
  end.

(** The fields of [struct zbc_device_info] that [zbc.c] computes with. *)
Record zbc_device_info := {
  zbd_sectors : Z;
  zbd_lblock_size : Z;
  zbd_pblock_size : Z;
  zbd_max_rw_sectors : Z
}.

Record zbc_device := {
  zbd_filename : string;
  zbd_fd : Z;
  zbd_o_flags : Z;
  zbd_info : zbc_device_info;
  zbd_drv : option drv_id
}.

Definition set_zbd_drv (dev : zbc_device) (d : drv_id) : zbc_device :=
  {| zbd_filename := zbd_filename dev; zbd_fd := zbd_fd dev;
     zbd_o_flags := zbd_o_flags dev; zbd_info := zbd_info dev;
     zbd_drv := Some d |}.

(** [struct iovec]; [zbc.c] counts [iov_len] in 512-byte sectors on
    the caller's side and in bytes on the backend's side. *)
Record iovec := { iov_base : Z; iov_len : Z }.

(** Modelled from the spec: [zbc_iov_count], an inline helper of the
    absent header: the sum of the lengths of the first [iovcnt]
    entries, accumulated in a [size_t]. *)
Definition zbc_iov_count (iov : list iovec) (iovcnt : Z) : Z :=
  fold_left (fun count e => u64 (count + iov_len e))
            (take (Z.to_nat iovcnt) iov) 0.

(** [zbc_iov_convert]: the entries written to [_iov]; its return value
    [j] is their number.  [size], [offset], [length] and [count] are
    [size_t] byte counts. *)
Fixpoint zbc_iov_convert_loop (iov : list iovec) (size offset count : Z)
  : list iovec :=
  match iov with
  | [] => []
  | e :: rest =>
      if count <? size then
        let length := u64 (Z.shiftl (iov_len e) 9) in
        if offset >=? length then
          zbc_iov_convert_loop rest size (u64 (offset - length)) count
        else
          let base := iov_base e + offset in
          let length1 := u64 (length - offset) in
          let length2 :=
            if u64 (count + length1) >? size then u64 (size - count)
            else length1 in
          {| iov_base := base; iov_len := length2 |}
            :: zbc_iov_convert_loop rest size 0 (u64 (count + length2))
      else []
  end.

Definition zbc_iov_convert (iov : list iovec) (iovcnt : Z)
           (sector_offset sectors : Z) : list iovec :=
  zbc_iov_convert_loop (take (Z.to_nat iovcnt) iov)
                       (u64 (Z.shiftl sectors 9))
                       (u64 (Z.shiftl sector_offset 9)) 0.

(** The sum of the lengths of a vector: sectors in a caller's vector,
    bytes in a vector made for a backend. *)
Definition iov_total (iov : list iovec) : Z :=
  fold_right (fun e acc => iov_len e + acc) 0 iov.

(** What a backend's [zbd_report_zones] hands back: its status, the
    value it leaves in [*nr_zones], and the descriptors it stored at
    the start of the array it was given. *)
Record rz_reply := {
  rr_ret : Z;
  rr_n : Z;
  rr_zones : list zbc_zone
}.

(** [&zones[nz]] after the backend stored [zs] there. *)
Definition store_zones (zones : list zbc_zone) (nz : Z) (zs : list zbc_zone)
  : list zbc_zone :=
  take (Z.to_nat nz) zones ++ zs
       ++ drop (Z.to_nat nz + length zs) zones.

Section Layer.

(** The world outside the library: kernel, backends and devices. *)
Context {W : Type}.

(** A driver object.  [zbd_open] gives its status and the handle it
    stored in [*pdev], if it stored one; [zbd_report_zones] is told
    whether [zones] is an array ([true]) or [NULL]; the vectors that
    [zbd_preadv] and [zbd_pwritev] get are in bytes. *)
Record zbc_drv_ops := {
  flag : Z;
  zbd_open : W -> option string -> Z -> W * (Z * option zbc_device);
  zbd_report_zones : W -> zbc_device -> Z -> Z -> bool -> Z -> W * rz_reply;
  zbd_preadv : W -> zbc_device -> list iovec -> Z -> W * Z;
  zbd_pwritev : W -> zbc_device -> list iovec -> Z -> W * Z
}.

(** The driver objects, defined in the backend files. *)
Variable drv : drv_id -> zbc_drv_ops.

(** Macros and constants of the absent headers. *)
Variable zbc_test_mode : zbc_device -> bool.
Variable zbc_dev_sect_laligned : zbc_device -> Z -> bool.
Variable zbc_dev_sect_paligned : zbc_device -> Z -> bool.
Variable zbc_ro_mask : Z -> Z.
Variable ZBC_RO_PARTIAL : Z.
Variable ZBC_O_DRV_MASK : Z.
Variable ZBC_O_DRV_BLOCK : Z.

(** Whether the build defines [HAVE_LINUX_BLKZONED_H]. *)
Variable HAVE_LINUX_BLKZONED_H : bool.

(** [realpath(filename, NULL)]: the path, or the [errno] it set. *)
Variable realpath : W -> string -> W * (string + Z).

(** [calloc]: whether the array was obtained. *)
Variable calloc : W -> Z -> W * bool.

(** *** Opening a device *)

Definition zbc_realpath (w : W) (filename : string)
  : W * (Z * option string) :=
  match realpath w filename with
  | (w1, inl p) => (w1, (0, Some p))
  | (w1, inr e) => (w1, (- e, None))
  end.

Definition allowed_drv (flags : Z) : Z :=
  let a := Z.land flags ZBC_O_DRV_MASK in
  let a := if a =? 0 then ZBC_O_DRV_MASK else a in
  if HAVE_LINUX_BLKZONED_H then a
  else Z.land a (Z.lnot ZBC_O_DRV_BLOCK).

(** What [zbc_open] leaves behind: its status, [*pdev] if it was
    stored, and the drivers whose [zbd_open] ran, in order, each
    with the status it gave. *)
Record open_result := {
  op_world : W;
  op_ret : Z;
  op_pdev : option zbc_device;
  op_probed : list (drv_id * Z)
}.

Definition add_probe (p : drv_id * Z) (r : open_result) : open_result :=
  {| op_world := op_world r; op_ret := op_ret r; op_pdev := op_pdev r;
     op_probed := p :: op_probed r |}.

(** The [for] loop of [zbc_open] from [zbc_drv[i]] on; [dev] and
    [ret] are the local variables.  [None]: a driver returned 0 and
    left [dev] null, so that [dev->zbd_drv] has no meaning. *)
Fixpoint zbc_open_loop (drvs : list drv_id) (w : W) (path : option string)
         (flags allowed : Z) (dev : option zbc_device) (ret : Z)
  : option open_result :=
  match drvs with
  | [] =>
      Some {| op_world := w; op_ret := ret; op_pdev := None;
              op_probed := [] |}
  | d :: rest =>
      if Z.land (flag (drv d)) allowed =? 0 then
        zbc_open_loop rest w path flags allowed dev ret
      else
        let '(w1, (ret1, stored)) := zbd_open (drv d) w path flags in
        let dev1 := match stored with Some x => Some x | None => dev end in
        if ret1 =? 0 then
          match dev1 with
          | Some x =>
              Some {| op_world := w1; op_ret := ret1;
                      op_pdev := Some (set_zbd_drv x d);
                      op_probed := [(d, ret1)] |}
          | None => None
          end
        else if ret1 =? - ENXIO then
          option_map (add_probe (d, ret1))
                     (zbc_open_loop rest w1 path flags allowed dev1 ret1)
        else
          Some {| op_world := w1; op_ret := ret1; op_pdev := None;
                  op_probed := [(d, ret1)] |}
  end.

Definition zbc_open (w : W) (filename : string) (flags : Z)
  : option open_result :=
  let '(w1, (ret, path)) := zbc_realpath w filename in
  if ret =? 0 then
    zbc_open_loop zbc_drv w1 path flags (allowed_drv flags) None (- ENODEV)
  else
    Some {| op_world := w1; op_ret := ret; op_pdev := None;
            op_probed := [] |}.

(** *** Testing whether a device is zoned *)

(** The methods of [struct zbc_drv] that [zbc_open] and the
    report and transfer functions do not call.  [zbd_set_zones]
    and [zbd_set_wp] are null in a driver that has no such
    method. *)
Record zbc_drv_methods := {
  zbd_close : W -> zbc_device -> W * Z;
  zbd_flush : W -> zbc_device -> W * Z;
  zbd_zone_op : W -> zbc_device -> Z -> Z -> Z -> W * Z;
  zbd_set_zones : option (W -> zbc_device -> Z -> Z -> W * Z);
  zbd_set_wp : option (W -> zbc_device -> Z -> Z -> W * Z)
}.

(** The rest of the driver objects. *)
Variable drv_methods : drv_id -> zbc_drv_methods.

(** [O_RDONLY] of [<fcntl.h>]. *)
Variable O_RDONLY : Z.

(** How the [for] loop of [zbc_device_is_zoned] was left: the
    local variables [dev] and [ret], whether it was left by
    [goto out], and the drivers whose [zbd_open] ran, in order,
    each with the status it gave. *)
Record iz_probe := {
  ip_world : W;
  ip_dev : option zbc_device;
  ip_ret : Z;
  ip_out : bool;
  ip_probed : list (drv_id * Z)
}.

Definition add_iz_probe (p : drv_id * Z) (r : iz_probe) : iz_probe :=
  {| ip_world := ip_world r; ip_dev := ip_dev r; ip_ret := ip_ret r;
     ip_out := ip_out r; ip_probed := p :: ip_probed r |}.

(** The [for] loop of [zbc_device_is_zoned] from [zbc_drv[i]] on.
    [None]: a driver returned 0 and left [dev] null, so that
    [dev->zbd_drv] has no meaning. *)
Fixpoint zbc_device_is_zoned_loop (drvs : list drv_id) (w : W)
         (filename : string) (dev : option zbc_device) (ret : Z)
  : option iz_probe :=
  match drvs with
  | [] =>
      Some {| ip_world := w; ip_dev := dev; ip_ret := ret;
              ip_out := false; ip_probed := [] |}
  | d :: rest =>
      let '(w1, (ret1, stored)) :=
        zbd_open (drv d) w (Some filename) O_RDONLY in
      let dev1 := match stored with Some x => Some x | None => dev end in
      if ret1 =? 0 then
        match dev1 with
        | Some x =>
            Some {| ip_world := w1; ip_dev := Some (set_zbd_drv x d);
                    ip_ret := ret1; ip_out := false;
                    ip_probed := [(d, ret1)] |}
        | None => None
        end
      else if negb (ret1 =? - ENXIO) then
        Some {| ip_world := w1; ip_dev := dev1; ip_ret := ret1;
                ip_out := true; ip_probed := [(d, ret1)] |}
      else
        option_map (add_iz_probe (d, ret1))
                   (zbc_device_is_zoned_loop rest w1 filename dev1 ret1)
  end.

(** What [zbc_device_is_zoned] leaves behind: its status, the
    contents of [*info] ([None] for a null [info]), the probes it
    made, and the handle it closed with the driver whose
    [zbd_close] it called, if it closed one. *)
Record iz_result := {
  iz_world : W;
  iz_ret : Z;
  iz_info : option zbc_device_info;
  iz_probed : list (drv_id * Z);
  iz_closed : option (drv_id * zbc_device)
}.

(** [zbc_device_is_zoned]. *)
Definition zbc_device_is_zoned (w : W) (filename : string) (fake : bool)
           (info : option zbc_device_info) : option iz_result :=
  let '(w1, (ret, path)) := zbc_realpath w filename in
  if negb (ret =? 0) then
    Some {| iz_world := w1; iz_ret := ret; iz_info := info;
            iz_probed := []; iz_closed := None |}
  else
    match zbc_device_is_zoned_loop zbc_drv w1 filename None ret with
    | None => None
    | Some p =>
        let none_accepted :=
          Some {| iz_world := ip_world p;
                  iz_ret := if negb (ip_ret p =? - EPERM)
                               && negb (ip_ret p =? - EACCES)
                            then 0 else ip_ret p;
                  iz_info := info; iz_probed := ip_probed p;
                  iz_closed := None |} in
        if ip_out p then
          Some {| iz_world := ip_world p; iz_ret := ip_ret p;
                  iz_info := info; iz_probed := ip_probed p;
                  iz_closed := None |}
        else
          match ip_dev p with
          | Some x =>
              match zbd_drv x with
              | Some d =>
                  let w2 := fst (zbd_close (drv_methods d) (ip_world p) x) in
                  if drv_id_eqb d zbc_fake_drv && negb fake then
                    Some {| iz_world := w2; iz_ret := 0;
                            iz_info := info; iz_probed := ip_probed p;
                            iz_closed := Some (d, x) |}
                  else
                    Some {| iz_world := w2; iz_ret := 1;
                            iz_info :=
                              match info with
                              | Some _ => Some (zbd_info x)
                              | None => None
                              end;
                            iz_probed := ip_probed p;
                            iz_closed := Some (d, x) |}
              | None => none_accepted
              end
          | None => none_accepted
          end
    end.

(** *** Reporting zones *)

(** One round of the loop of [zbc_report_zones]: what the backend
    was asked and what it answered. *)
Record rz_round := {
  rd_sector : Z;
  rd_ro : Z;
  rd_n : Z;
  rd_reply : rz_reply
}.

(** What [zbc_report_zones] leaves behind: its status, [*nr_zones],
    the caller's array ([None] for [NULL]), and the backend calls it
    made, in order. *)
Record rz_result := {
  rz_world : W;
  rz_ret : Z;
  rz_nr_zones : Z;
  rz_zones : option (list zbc_zone);
  rz_rounds : list rz_round
}.

Definition add_round (rd : rz_round) (r : rz_result) : rz_result :=
  {| rz_world := rz_world r; rz_ret := rz_ret r;
     rz_nr_zones := rz_nr_zones r; rz_zones := rz_zones r;
     rz_rounds := rd :: rz_rounds r |}.

Section Device.

(** The driver object [dev->zbd_drv] points to. *)
Variable ops : zbc_drv_ops.
Variable dev : zbc_device.

(** The [while (nz < *nr_zones)] loop of [zbc_report_zones];
    [nr_zones] is the value of [*nr_zones] on entry, [nz] and [n]
    are [unsigned int], [sector] and [last_sector] are [uint64_t].
    [None]: the iteration budget ran out, or [zones[nz - 1]] lies
    outside the array. *)
Fixpoint zbc_report_zones_loop (fuel : nat) (w : W) (sector ro : Z)
         (zones : list zbc_zone) (nr_zones nz : Z)
  : option rz_result :=
  match fuel with
  | O => None
  | S fuel' =>
      if nz <? nr_zones then
        let n := u32 (nr_zones - nz) in
        let ro1 := Z.lor (zbc_ro_mask ro) ZBC_RO_PARTIAL in
        let '(w1, reply) :=
          zbd_report_zones ops w dev sector ro1 true n in
        let zones1 := store_zones zones nz (rr_zones reply) in
        let rd := {| rd_sector := sector; rd_ro := ro1; rd_n := n;
                     rd_reply := reply |} in
        if rr_ret reply =? 0 then
          if u32 (rr_n reply) =? 0 then
            Some {| rz_world := w1; rz_ret := 0; rz_nr_zones := nz;
                    rz_zones := Some zones1; rz_rounds := [rd] |}
          else
            let nz1 := u32 (nz + u32 (rr_n reply)) in
            match zones1 !! Z.to_nat (u32 (nz1 - 1)) with
            | Some z =>
                let last_sector := u64 (zbz_start z + zbz_length z) in
                if last_sector >=? zbd_sectors (zbd_info dev) then
                  Some {| rz_world := w1; rz_ret := 0;
                          rz_nr_zones := nz1; rz_zones := Some zones1;
                          rz_rounds := [rd] |}
                else
                  option_map (add_round rd)
                             (zbc_report_zones_loop
                                fuel' w1 last_sector ro zones1
                                nr_zones nz1)
            | None => None
            end
        else
          Some {| rz_world := w1; rz_ret := rr_ret reply;
                  rz_nr_zones := nr_zones; rz_zones := Some zones1;
                  rz_rounds := [rd] |}
      else
        Some {| rz_world := w; rz_ret := 0; rz_nr_zones := nz;
                rz_zones := Some zones; rz_rounds := [] |}
  end.

(** [zbc_report_zones]. *)
Definition zbc_report_zones (fuel : nat) (w : W) (sector ro : Z)
           (zones : option (list zbc_zone)) (nr_zones : Z)
  : option rz_result :=
  if negb (zbc_test_mode dev)
     && (sector >=? zbd_sectors (zbd_info dev)) then
    Some {| rz_world := w; rz_ret := 0; rz_nr_zones := 0;
            rz_zones := zones; rz_rounds := [] |}
  else
    match zones with
    | None =>
        let ro1 := zbc_ro_mask ro in
        let '(w1, reply) :=
          zbd_report_zones ops w dev sector ro1 false 0 in
        Some {| rz_world := w1; rz_ret := rr_ret reply;
                rz_nr_zones := u32 (rr_n reply); rz_zones := None;
                rz_rounds := [{| rd_sector := sector; rd_ro := ro1;
                                 rd_n := 0; rd_reply := reply |}] |}
    | Some zs => zbc_report_zones_loop fuel w sector ro zs nr_zones 0
    end.

(** Modelled from the spec: [zbc_report_nr_zones], an inline
    helper of the absent public header: the count query, that is
    [zbc_report_zones] with a null array. *)
Definition zbc_report_nr_zones (w : W) (sector ro : Z)
  : option rz_result :=
  zbc_report_zones O w sector ro None 0.

(** What [zbc_list_zones] leaves behind: its status, and [*pzones]
    and [*pnr_zones] if it stored them; then the result of the
    count query and of the report it made. *)
Record lz_result := {
  lz_world : W;
  lz_ret : Z;
  lz_out : option (option (list zbc_zone) * Z);
  lz_count : rz_result;
  lz_report : option rz_result
}.

Definition zero_zone : zbc_zone :=
  {| zbz_type := 0; zbz_condition := 0; zbz_start := 0;
     zbz_length := 0; zbz_write_pointer := 0;
     zbz_need_reset := false; zbz_non_seq := false |}.

(** [zbc_list_zones]. *)
Definition zbc_list_zones (fuel : nat) (w : W) (sector ro : Z)
  : option lz_result :=
  match zbc_report_nr_zones w sector (zbc_ro_mask ro) with
  | None => None
  | Some c =>
      let ret := rz_ret c in
      let nr_zones := rz_nr_zones c in
      if ret <? 0 then
        Some {| lz_world := rz_world c; lz_ret := ret; lz_out := None;
                lz_count := c; lz_report := None |}
      else if nr_zones =? 0 then
        Some {| lz_world := rz_world c; lz_ret := 0;
                lz_out := Some (None, nr_zones);
                lz_count := c; lz_report := None |}
      else
        let '(w1, ok) := calloc (rz_world c) nr_zones in
        if ok then
          let zones := replicate (Z.to_nat nr_zones) zero_zone in
          match zbc_report_zones fuel w1 sector (zbc_ro_mask ro)
                                 (Some zones) nr_zones with
          | None => None
          | Some r =>
              if rz_ret r =? 0 then
                Some {| lz_world := rz_world r; lz_ret := 0;
                        lz_out := Some (rz_zones r, rz_nr_zones r);
                        lz_count := c; lz_report := Some r |}
              else
                Some {| lz_world := rz_world r; lz_ret := rz_ret r;
                        lz_out := None;
                        lz_count := c; lz_report := Some r |}
          end
        else
          Some {| lz_world := w1; lz_ret := - ENOMEM; lz_out := None;
                  lz_count := c; lz_report := None |}
  end.

(** *** Vectored reads and writes *)

(** One backend call of the splitter: the window it covers, the
    vector and the sector handed over, and the backend's answer. *)
Record io_call := {
  io_iov_offset : Z;
  io_iov_count : Z;
  io_iov : list iovec;
  io_sector : Z;
  io_ret : Z
}.

Record io_result := {
  io_world : W;
  io_status : Z;
  io_calls : list io_call
}.

Definition add_call (c : io_call) (r : io_result) : io_result :=
  {| io_world := io_world r; io_status := io_status r;
     io_calls := c :: io_calls r |}.

(** The [while (rd_iov_offset < count)] loop of [zbc_do_preadv],
    which is also the loop of [zbc_do_pwritev] with the backend's
    [zbd_pwritev] for [rw].  [None]: the iteration budget ran
    out. *)
Fixpoint zbc_do_rw_loop (rw : W -> zbc_device -> list iovec -> Z -> W * Z)
         (fuel : nat) (w : W) (iov : list iovec) (iovcnt : Z)
         (max_count count offset iov_offset : Z) : option io_result :=
  match fuel with
  | O => None
  | S fuel' =>
      if iov_offset <? count then
        let c0 := u64 (count - iov_offset) in
        let iov_count := if c0 >? max_count then max_count else c0 in
        let v := zbc_iov_convert iov iovcnt iov_offset iov_count in
        let '(w1, ret) := rw w dev v offset in
        let call := {| io_iov_offset := iov_offset;
                       io_iov_count := iov_count; io_iov := v;
                       io_sector := offset; io_ret := ret |} in
        if ret <=? 0 then
          Some {| io_world := w1;
                  io_status := if ret =? 0 then - EIO else ret;
                  io_calls := [call] |}
        else
          option_map (add_call call)
                     (zbc_do_rw_loop rw fuel' w1 iov iovcnt max_count
                                     count (u64 (offset + ret))
                                     (u64 (iov_offset + ret)))
      else
        Some {| io_world := w; io_status := count; io_calls := [] |}
  end.

(** The common body of [zbc_do_preadv] and [zbc_do_pwritev], which
    differ in the alignment macro and in the backend method they
    call.  The zero-length call under [zbc_test_mode(dev) && count
    == 0] hands the backend the entries of the scratch vector that
    were converted. *)
Definition zbc_do_rw (aligned : zbc_device -> Z -> bool)
           (rw : W -> zbc_device -> list iovec -> Z -> W * Z)
           (fuel : nat) (w : W) (iov : list iovec) (iovcnt : Z)
           (offset : Z) : option io_result :=
  let max_count := zbd_max_rw_sectors (zbd_info dev) in
  let count := zbc_iov_count iov iovcnt in
  let fail e := Some {| io_world := w; io_status := e;
                        io_calls := [] |} in
  let run count :=
    if zbc_test_mode dev && (count =? 0) then
      let v := zbc_iov_convert iov iovcnt 0 count in
      let '(w1, ret) := rw w dev v offset in
      Some {| io_world := w1; io_status := ret;
              io_calls := [{| io_iov_offset := 0; io_iov_count := count;
                              io_iov := v; io_sector := offset;
                              io_ret := ret |}] |}
    else zbc_do_rw_loop rw fuel w iov iovcnt max_count count offset 0 in
  if u64 (Z.shiftl count 9) >? SSIZE_MAX then fail (- EINVAL)
  else if zbc_test_mode dev then
    if count =? 0 then fail (- EINVAL) else run count
  else if negb (aligned dev count) || negb (aligned dev offset) then
    fail (- EINVAL)
  else
    let count1 :=
      if u64 (offset + count) >? zbd_sectors (zbd_info dev)
      then u64 (zbd_sectors (zbd_info dev) - offset) else count in
    if (count1 =? 0) || (offset >=? zbd_sectors (zbd_info dev)) then
      fail 0
    else run count1.

Definition zbc_do_preadv := zbc_do_rw zbc_dev_sect_laligned (zbd_preadv ops).
Definition zbc_do_pwritev := zbc_do_rw zbc_dev_sect_paligned (zbd_pwritev ops).

(** [zbc_pread] and [zbc_pwrite]: one vector made of [buf] and
    [count]. *)
Definition zbc_pread (fuel : nat) (w : W) (buf count offset : Z)
  : option io_result :=
  zbc_do_preadv fuel w [{| iov_base := buf; iov_len := count |}] 1 offset.

Definition zbc_pwrite (fuel : nat) (w : W) (buf count offset : Z)
  : option io_result :=
  zbc_do_pwritev fuel w [{| iov_base := buf; iov_len := count |}] 1 offset.

(** [zbc_preadv] and [zbc_pwritev]; [iov] is [None] for [NULL]. *)
Definition zbc_preadv (fuel : nat) (w : W) (iov : option (list iovec))
           (iovcnt offset : Z) : option io_result :=
  match iov with
  | Some v =>
      if iovcnt <=? 0 then
        Some {| io_world := w; io_status := - EINVAL; io_calls := [] |}
      else zbc_do_preadv fuel w v iovcnt offset
  | None =>
      Some {| io_world := w; io_status := - EINVAL; io_calls := [] |}
  end.

Definition zbc_pwritev (fuel : nat) (w : W) (iov : option (list iovec))
           (iovcnt offset : Z) : option io_result :=
  match iov with
  | Some v =>
      if iovcnt <=? 0 then
        Some {| io_world := w; io_status := - EINVAL; io_calls := [] |}
      else zbc_do_pwritev fuel w v iovcnt offset
  | None =>
      Some {| io_world := w; io_status := - EINVAL; io_calls := [] |}
  end.

(** *** Mapping a buffer to a vector *)

(** The [while (sectors)] loop of [zbc_map_iov]: the array and
    [i] afterwards.  [sectors], [iovlen] and [len] are [size_t],
    [i] is an [int], [buf] is an address.  [None]: the
    iteration budget ran out, or [iov[i]] lies outside the
    array. *)
Fixpoint zbc_map_iov_loop (fuel : nat) (buf sectors : Z)
         (iov : list iovec) (iovlen i : Z)
  : option (Z * list iovec) :=
  match fuel with
  | O => None
  | S fuel' =>
      if sectors =? 0 then Some (i, iov)
      else
        let len := if sectors >? iovlen then iovlen else sectors in
        if (0 <=? i) && (i <? Z.of_nat (length iov)) then
          zbc_map_iov_loop
            fuel' (buf + u64 (Z.shiftl len 9)) (u64 (sectors - len))
            (<[Z.to_nat i := {| iov_base := buf; iov_len := len |}]> iov)
            iovlen (to_int (i + 1))
        else None
  end.

(** [zbc_map_iov]: its status and the array afterwards; [buf]
    is 0 and [iov] is [None] for a null pointer.  [iovcnt] is
    an [int], converted to [size_t] for the product with
    [iovlen]. *)
Definition zbc_map_iov (fuel : nat) (buf sectors : Z)
           (iov : option (list iovec)) (iovcnt iovlen : Z)
  : option (Z * option (list iovec)) :=
  match iov with
  | None => Some (- EINVAL, None)
  | Some v =>
      if (buf =? 0) || (sectors =? 0) || (iovcnt <=? 0)
         || (sectors >? u64 (u64 iovcnt * iovlen))
      then Some (- EINVAL, iov)
      else
        match zbc_map_iov_loop fuel buf sectors v iovlen 0 with
        | Some (i, v') => Some (i, Some v')
        | None => None
        end
  end.

(** *** Operations handed to the driver *)

(** The rest of the driver object [dev->zbd_drv] points to. *)
Variable methods : zbc_drv_methods.

(** [ZBC_OP_ALL_ZONES] of the absent header. *)
Variable ZBC_OP_ALL_ZONES : Z.

(** What an operation leaves behind: its status and the
    arguments the driver's method was called with, if it was
    called. *)
Record op_result := {
  or_world : W;
  or_ret : Z;
  or_call : option (list Z)
}.

(** [zbc_close], [zbc_flush] and [zbc_get_device_info]. *)
Definition zbc_close (w : W) : W * Z := zbd_close methods w dev.

Definition zbc_flush (w : W) : W * Z := zbd_flush methods w dev.

Definition zbc_get_device_info : zbc_device_info := zbd_info dev.

(** [zbc_zone_operation]. *)
Definition zbc_zone_operation (w : W) (sector op flags : Z)
  : op_result :=
  if negb (zbc_test_mode dev)
     && (Z.land flags ZBC_OP_ALL_ZONES =? 0)
     && negb (zbc_dev_sect_laligned dev sector)
  then {| or_world := w; or_ret := - EINVAL; or_call := None |}
  else
    let '(w1, ret) := zbd_zone_op methods w dev sector op flags in
    {| or_world := w1; or_ret := ret;
       or_call := Some [sector; op; flags] |}.

(** The common body of [zbc_set_zones] and
    [zbc_set_write_pointer], which differ in the method they
    call. *)
Definition zbc_set (method : option (W -> zbc_device -> Z -> Z -> W * Z))
           (w : W) (a b : Z) : op_result :=
  match method with
  | None => {| or_world := w; or_ret := - ENXIO; or_call := None |}
  | Some m =>
      if negb (zbc_dev_sect_paligned dev a)
         || negb (zbc_dev_sect_paligned dev b)
      then {| or_world := w; or_ret := - EINVAL; or_call := None |}
      else
        let '(w1, ret) := m w dev a b in
        {| or_world := w1; or_ret := ret; or_call := Some [a; b] |}
  end.

Definition zbc_set_zones (w : W) (conv_sz zone_sz : Z)
  : op_result :=
  zbc_set (zbd_set_zones methods) w conv_sz zone_sz.

Definition zbc_set_write_pointer (w : W) (sector wp_sector : Z)
  : op_result :=
  zbc_set (zbd_set_wp methods) w sector wp_sector.

(** *** Requests turned down before any backend call *)

(** C10: off test mode, a start sector at or past the capacity
    makes [zbc_report_zones] store 0 in [*nr_zones] and return 0
    without any backend call, with an array as with [NULL]. *)
Theorem zbc_report_zones_beyond_capacity
        fuel w sector ro zones nr_zones :
  zbc_test_mode dev = false ->
  zbd_sectors (zbd_info dev) <= sector ->
  zbc_report_zones fuel w sector ro zones nr_zones
  = Some {| rz_world := w; rz_ret := 0; rz_nr_zones := 0;
            rz_zones := zones; rz_rounds := [] |}.
Proof.
  intros Htest Hcap. unfold zbc_report_zones. rewrite Htest.
  destruct (Z.geb_spec sector (zbd_sectors (zbd_info dev))); [|lia].
  reflexivity.
Qed.

Lemma zbc_do_rw_unaligned aligned rw fuel w iov iovcnt offset :
  zbc_test_mode dev = false ->
  aligned dev (zbc_iov_count iov iovcnt) = false
  \/ aligned dev offset = false ->
  zbc_do_rw aligned rw fuel w iov iovcnt offset
  = Some {| io_world := w; io_status := - EINVAL; io_calls := [] |}.
Proof.
  intros Htest Hal. unfold zbc_do_rw. rewrite Htest.
  destruct (u64 (Z.shiftl (zbc_iov_count iov iovcnt) 9) >? SSIZE_MAX);
    [reflexivity|].
  destruct Hal as [-> | ->]; [reflexivity|].
  rewrite orb_true_r. reflexivity.
Qed.

Lemma zbc_iov_count_single buf count :
  zbc_iov_count [{| iov_base := buf; iov_len := count |}] 1 = u64 count.
Proof. reflexivity. Qed.

(** C3: off test mode, a read whose sector count or sector offset
    is not aligned on the logical block, and a write whose sector
    count or sector offset is not aligned on the physical block,
    returns -EINVAL and no backend method is called.  The count
    of [zbc_pread] and [zbc_pwrite] is their [size_t] argument,
    that of [zbc_preadv] and [zbc_pwritev] the sum over the
    vector. *)
Theorem zbc_rw_unaligned_rejected fuel w offset :
  zbc_test_mode dev = false ->
  let rejected :=
    Some {| io_world := w; io_status := - EINVAL; io_calls := [] |} in
  (forall buf count,
      zbc_dev_sect_laligned dev (u64 count) = false
      \/ zbc_dev_sect_laligned dev offset = false ->
      zbc_pread fuel w buf count offset = rejected) /\
  (forall iov iovcnt,
      zbc_dev_sect_laligned dev (zbc_iov_count iov iovcnt) = false
      \/ zbc_dev_sect_laligned dev offset = false ->
      zbc_preadv fuel w (Some iov) iovcnt offset = rejected) /\
  (forall buf count,
      zbc_dev_sect_paligned dev (u64 count) = false
      \/ zbc_dev_sect_paligned dev offset = false ->
      zbc_pwrite fuel w buf count offset = rejected) /\
  (forall iov iovcnt,
      zbc_dev_sect_paligned dev (zbc_iov_count iov iovcnt) = false
      \/ zbc_dev_sect_paligned dev offset = false ->
      zbc_pwritev fuel w (Some iov) iovcnt offset = rejected).
Proof.
  intros Htest rejected. repeat split.
  - intros buf count Hal. unfold zbc_pread, zbc_do_preadv.
    apply zbc_do_rw_unaligned; [exact Htest|].
    rewrite zbc_iov_count_single. exact Hal.
  - intros iov iovcnt Hal. unfold zbc_preadv, zbc_do_preadv.
    destruct (iovcnt <=? 0); [reflexivity|].
    apply zbc_do_rw_unaligned; assumption.
  - intros buf count Hal. unfold zbc_pwrite, zbc_do_pwritev.
    apply zbc_do_rw_unaligned; [exact Htest|].
    rewrite zbc_iov_count_single. exact Hal.
  - intros iov iovcnt Hal. unfold zbc_pwritev, zbc_do_pwritev.
    destruct (iovcnt <=? 0); [reflexivity|].
    apply zbc_do_rw_unaligned; assumption.
Qed.

(** *** The rounds of [zbc_report_zones] *)

(** One past the last sector of a zone, as the loop computes it. *)
Definition zone_end (z : zbc_zone) : Z :=
  u64 (zbz_start z + zbz_length z).

(** What a round asks the backend when [nz] zones are in the array
    already: the masked options with the partial bit, and room
    for what is left of [nr_zones]. *)
Definition asked (ro nr_zones : Z) (rd : rz_round) (sector nz : Z)
  : Prop :=
  rd_sector rd = sector /\
  rd_ro rd = Z.lor (zbc_ro_mask ro) ZBC_RO_PARTIAL /\
  rd_n rd = nr_zones - nz.

(** The rounds of a report from [sector] on with [nz] zones
    gathered, their status and the number of zones reported, in
    the words of the interface description. *)
Inductive rounds (ro nr_zones : Z)
  : Z -> Z -> list rz_round -> Z -> Z -> Prop :=
| rounds_full sector nz :
    nr_zones <= nz ->
    rounds ro nr_zones sector nz [] 0 nz
| rounds_error sector nz rd :
    nz < nr_zones -> asked ro nr_zones rd sector nz ->
    rr_ret (rd_reply rd) <> 0 ->
    rounds ro nr_zones sector nz [rd] (rr_ret (rd_reply rd)) nr_zones
| rounds_empty sector nz rd :
    nz < nr_zones -> asked ro nr_zones rd sector nz ->
    rr_ret (rd_reply rd) = 0 -> rr_n (rd_reply rd) = 0 ->
    rounds ro nr_zones sector nz [rd] 0 nz
| rounds_capacity sector nz rd z :
    nz < nr_zones -> asked ro nr_zones rd sector nz ->
    rr_ret (rd_reply rd) = 0 -> 0 < rr_n (rd_reply rd) ->
    last (rr_zones (rd_reply rd)) = Some z ->
    zbd_sectors (zbd_info dev) <= zone_end z ->
    rounds ro nr_zones sector nz [rd] 0 (nz + rr_n (rd_reply rd))
| rounds_next sector nz rd z rest ret out :
    nz < nr_zones -> asked ro nr_zones rd sector nz ->
    rr_ret (rd_reply rd) = 0 -> 0 < rr_n (rd_reply rd) ->
    last (rr_zones (rd_reply rd)) = Some z ->
    zone_end z < zbd_sectors (zbd_info dev) ->
    rounds ro nr_zones (zone_end z) (nz + rr_n (rd_reply rd))
           rest ret out ->
    rounds ro nr_zones sector nz (rd :: rest) ret out.

(** The reply of a round is what the backend answered to what the
    round asked, with an array. *)
Definition round_answered (rd : rz_round) : Prop :=
  exists w0,
    snd (zbd_report_zones ops w0 dev (rd_sector rd) (rd_ro rd) true
                          (rd_n rd))
    = rd_reply rd.

(** A backend that succeeds stores as many descriptors as it says,
    and no more than it was given room for. *)
Definition backend_fills_array : Prop :=
  forall w sector ro n,
    let reply := snd (zbd_report_zones ops w dev sector ro true n) in
    0 <= n -> rr_ret reply = 0 ->
    0 <= rr_n reply <= n /\
    length (rr_zones reply) = Z.to_nat (rr_n reply).

Lemma store_zones_length zones nz zs :
  0 <= nz -> (Z.to_nat nz + length zs <= length zones)%nat ->
  length (store_zones zones nz zs) = length zones.
Proof.
  intros Hnz Hlen. unfold store_zones.
  rewrite !length_app, length_take, length_drop. lia.
Qed.

Lemma store_zones_last zones nz zs :
  0 <= nz -> (Z.to_nat nz <= length zones)%nat -> zs <> [] ->
  store_zones zones nz zs !! Z.to_nat (nz + Z.of_nat (length zs) - 1)
  = last zs.
Proof.
  intros Hnz Hlen Hne. unfold store_zones.
  assert (Hpos : (0 < length zs)%nat).
  { destruct zs; [contradiction | cbn; lia]. }
  rewrite lookup_app_r by (rewrite length_take; lia).
  rewrite length_take.
  replace (Z.to_nat (nz + Z.of_nat (length zs) - 1)
           - Z.to_nat nz `min` length zones)%nat
    with (pred (length zs)) by lia.
  rewrite lookup_app_l by lia.
  symmetry. apply last_lookup.
Qed.

Lemma zbc_report_zones_loop_rounds ro nr_zones fuel :
  forall w sector zones nz,
    backend_fills_array ->
    0 <= nz -> nr_zones < 2 ^ 32 ->
    (Z.to_nat nr_zones <= length zones)%nat ->
    (Z.to_nat (nr_zones - nz) < fuel)%nat ->
    exists r,
      zbc_report_zones_loop fuel w sector ro zones nr_zones nz = Some r /\
      rounds ro nr_zones sector nz
             (rz_rounds r) (rz_ret r) (rz_nr_zones r) /\
      Forall round_answered (rz_rounds r).
Proof.
  induction fuel as [|fuel IH];
    intros w sector zones nz Hfill Hnz Hnr Hlen Hfuel; [lia|].
  cbn [zbc_report_zones_loop].
  destruct (Z.ltb_spec nz nr_zones) as [Hlt|Hge].
  2:{ eexists. split; [reflexivity|]. cbn.
      split; [constructor; lia | constructor]. }
  rewrite (u32_small (nr_zones - nz)) by lia.
  pose proof (Hfill w sector (Z.lor (zbc_ro_mask ro) ZBC_RO_PARTIAL)
                    (nr_zones - nz)) as Hf.
  destruct (zbd_report_zones ops w dev sector _ true (nr_zones - nz))
    as [w1 reply] eqn:Ecall.
  cbn [snd] in Hf. cbv zeta in Hf.
  set (rd := {| rd_sector := sector;
                rd_ro := Z.lor (zbc_ro_mask ro) ZBC_RO_PARTIAL;
                rd_n := nr_zones - nz; rd_reply := reply |}).
  assert (Hans : round_answered rd).
  { exists w. cbn. rewrite Ecall. reflexivity. }
  assert (Hask : asked ro nr_zones rd sector nz) by (repeat split).
  destruct (Z.eqb_spec (rr_ret reply) 0) as [Hret|Hret].
  2:{ eexists. split; [reflexivity|]. cbn.
      split; [|repeat constructor; exact Hans].
      apply (rounds_error ro nr_zones sector nz rd);
        [lia | exact Hask | exact Hret]. }
  destruct (Hf ltac:(lia) Hret) as [Hn Hzs].
  rewrite (u32_small (rr_n reply)) by lia.
  destruct (Z.eqb_spec (rr_n reply) 0) as [Hn0|Hn0].
  { eexists. split; [reflexivity|]. cbn.
    split; [|repeat constructor; exact Hans].
    apply (rounds_empty ro nr_zones sector nz rd);
      [lia | exact Hask | exact Hret | exact Hn0]. }
  rewrite (u32_small (nz + rr_n reply)) by lia.
  rewrite (u32_small (nz + rr_n reply - 1)) by lia.
  assert (Hne : rr_zones reply <> []).
  { intros E. rewrite E in Hzs. cbn in Hzs. lia. }
  assert (Hlast : store_zones zones nz (rr_zones reply)
                  !! Z.to_nat (nz + rr_n reply - 1)
                  = last (rr_zones reply)).
  { rewrite <- (store_zones_last zones nz (rr_zones reply))
      by (assumption || lia).
    f_equal. lia. }
  rewrite Hlast.
  destruct (last (rr_zones reply)) as [z|] eqn:Ez.
  2:{ apply last_None in Ez. contradiction. }
  fold (zone_end z).
  destruct (Z.geb_spec (zone_end z) (zbd_sectors (zbd_info dev)))
    as [Hcap|Hcap].
  { eexists. split; [reflexivity|]. cbn.
    split; [|repeat constructor; exact Hans].
    apply (rounds_capacity ro nr_zones sector nz rd z);
      [lia | exact Hask | exact Hret | cbn; lia | exact Ez | lia]. }
  destruct (IH w1 (zone_end z) (store_zones zones nz (rr_zones reply))
               (nz + rr_n reply) Hfill)
    as (r & Er & Hr & Ha); [lia | lia | | lia |].
  { rewrite store_zones_length; lia. }
  rewrite Er. eexists. split; [reflexivity|]. cbn.
  split; [|constructor; assumption].
  apply (rounds_next ro nr_zones sector nz rd z);
    [lia | exact Hask | exact Hret | cbn; lia | exact Ez | lia
     | exact Hr].
Qed.

(** *** The array that [zbc_report_zones] fills *)

(** The descriptors that the backend stored in the rounds of a
    report, in order. *)
Definition gathered (rds : list rz_round) : list zbc_zone :=
  concat (map (fun rd => rr_zones (rd_reply rd)) rds).

Lemma store_zones_take zones nz zs :
  0 <= nz -> (Z.to_nat nz <= length zones)%nat ->
  take (Z.to_nat nz + length zs) (store_zones zones nz zs)
  = take (Z.to_nat nz) zones ++ zs.
Proof.
  intros Hnz Hlen. unfold store_zones. rewrite app_assoc.
  apply take_app_length'.
  rewrite length_app, length_take. lia.
Qed.

Lemma store_zones_drop zones nz zs k :
  0 <= nz -> (Z.to_nat nz <= length zones)%nat ->
  (Z.to_nat nz + length zs <= k)%nat ->
  drop k (store_zones zones nz zs) = drop k zones.
Proof.
  intros Hnz Hlen Hk. unfold store_zones. rewrite app_assoc.
  rewrite drop_app_ge by (rewrite length_app, length_take; lia).
  rewrite length_app, length_take, drop_drop. f_equal. lia.
Qed.

Lemma zbc_report_zones_loop_gathered ro nr_zones fuel :
  forall w sector zones nz,
    backend_fills_array ->
    0 <= nz <= nr_zones -> nr_zones < 2 ^ 32 ->
    (Z.to_nat nr_zones <= length zones)%nat ->
    (Z.to_nat (nr_zones - nz) < fuel)%nat ->
    exists r,
      zbc_report_zones_loop fuel w sector ro zones nr_zones nz
      = Some r /\
      rz_nr_zones r <= nr_zones /\
      (rz_ret r = 0 ->
       rz_nr_zones r = nz + Z.of_nat (length (gathered (rz_rounds r)))
       /\ rz_zones r
          = Some (take (Z.to_nat nz) zones ++ gathered (rz_rounds r)
                  ++ drop (Z.to_nat (rz_nr_zones r)) zones)).
Proof.
  induction fuel as [|fuel IH];
    intros w sector zones nz Hfill Hnz Hnr Hlen Hfuel; [lia|].
  cbn [zbc_report_zones_loop].
  destruct (Z.ltb_spec nz nr_zones) as [Hlt|Hge].
  2:{ eexists. split; [reflexivity|]. cbn.
      split; [lia|]. intros _. split; [lia|].
      rewrite take_drop. reflexivity. }
  rewrite (u32_small (nr_zones - nz)) by lia.
  pose proof (Hfill w sector (Z.lor (zbc_ro_mask ro) ZBC_RO_PARTIAL)
                    (nr_zones - nz)) as Hf.
  destruct (zbd_report_zones ops w dev sector _ true (nr_zones - nz))
    as [w1 reply] eqn:Ecall.
  cbn [snd] in Hf. cbv zeta in Hf.
  destruct (Z.eqb_spec (rr_ret reply) 0) as [Hret|Hret].
  2:{ eexists. split; [reflexivity|]. cbn.
      split; [lia|]. intros; contradiction. }
  destruct (Hf ltac:(lia) Hret) as [Hn Hzs].
  rewrite (u32_small (rr_n reply)) by lia.
  assert (Hone : gathered [{| rd_sector := sector;
                              rd_ro := Z.lor (zbc_ro_mask ro)
                                             ZBC_RO_PARTIAL;
                              rd_n := nr_zones - nz;
                              rd_reply := reply |}]
                 = rr_zones reply).
  { unfold gathered. cbn [map concat rd_reply]. apply app_nil_r. }
  destruct (Z.eqb_spec (rr_n reply) 0) as [Hn0|Hn0].
  { eexists. split; [reflexivity|].
    cbn [rz_nr_zones rz_ret rz_zones rz_rounds].
    split; [lia|]. intros _. rewrite Hone.
    split; [rewrite Hzs; lia|].
    unfold store_zones.
    replace (Z.to_nat nz + length (rr_zones reply))%nat
      with (Z.to_nat nz) by (rewrite Hzs; lia).
    reflexivity. }
  rewrite (u32_small (nz + rr_n reply)) by lia.
  rewrite (u32_small (nz + rr_n reply - 1)) by lia.
  assert (Hne : rr_zones reply <> []).
  { intros E. rewrite E in Hzs. cbn in Hzs. lia. }
  assert (Hlast : store_zones zones nz (rr_zones reply)
                  !! Z.to_nat (nz + rr_n reply - 1)
                  = last (rr_zones reply)).
  { rewrite <- (store_zones_last zones nz (rr_zones reply))
      by (assumption || lia).
    f_equal. lia. }
  rewrite Hlast.
  destruct (last (rr_zones reply)) as [z|] eqn:Ez.
  2:{ apply last_None in Ez. contradiction. }
  destruct (u64 (zbz_start z + zbz_length z)
            >=? zbd_sectors (zbd_info dev)).
  { eexists. split; [reflexivity|].
    cbn [rz_nr_zones rz_ret rz_zones rz_rounds].
    split; [lia|]. intros _. rewrite Hone.
    split; [rewrite Hzs; lia|].
    unfold store_zones.
    replace (Z.to_nat (nz + rr_n reply))
      with (Z.to_nat nz + length (rr_zones reply))%nat
      by (rewrite Hzs; lia).
    reflexivity. }
  destruct (IH w1 (u64 (zbz_start z + zbz_length z))
               (store_zones zones nz (rr_zones reply))
               (nz + rr_n reply) Hfill)
    as (r & Er & Hb & Hr); [lia | lia | | lia |].
  { rewrite store_zones_length; lia. }
  rewrite Er. eexists. split; [reflexivity|]. cbn.
  split; [exact Hb|]. intros Hok.
  destruct (Hr Hok) as [Hcount Harr].
  unfold gathered in *. cbn [map concat rd_reply].
  rewrite length_app. split; [lia|].
  rewrite Harr. f_equal.
  replace (Z.to_nat (nz + rr_n reply))
    with (Z.to_nat nz + length (rr_zones reply))%nat by lia.
  rewrite store_zones_take by lia.
  rewrite store_zones_drop by lia.
  rewrite <- !app_assoc. reflexivity.
Qed.

Lemma zbc_report_zones_gathered fuel w sector ro zs nr_zones :
  backend_fills_array ->
  0 <= nr_zones < 2 ^ 32 ->
  (Z.to_nat nr_zones <= length zs)%nat ->
  (Z.to_nat nr_zones < fuel)%nat ->
  exists r,
    zbc_report_zones fuel w sector ro (Some zs) nr_zones = Some r /\
    rz_nr_zones r <= nr_zones /\
    (rz_ret r = 0 ->
     rz_nr_zones r = Z.of_nat (length (gathered (rz_rounds r))) /\
     rz_zones r
     = Some (gathered (rz_rounds r)
             ++ drop (Z.to_nat (rz_nr_zones r)) zs)).
Proof.
  intros Hfill Hnr Hlen Hfuel. unfold zbc_report_zones.
  destruct (negb (zbc_test_mode dev)
            && (sector >=? zbd_sectors (zbd_info dev))).
  - eexists. split; [reflexivity|]. cbn.
    split; [lia|]. intros _. split; reflexivity.
  - destruct (zbc_report_zones_loop_gathered
                ro nr_zones fuel w sector zs 0 Hfill)
      as (r & Er & Hb & Hr); try lia.
    exists r. split; [exact Er|]. split; [exact Hb|].
    intros Hok. destruct (Hr Hok) as [Hc Ha].
    split; [lia | exact Ha].
Qed.

(** C1: with an array for [nr_zones] zones and a backend that
    fills what it is given, [zbc_report_zones] returns.  Past the
    capacity test it gathers the zones in rounds: every round asks
    the backend with the partial bit OR-ed into the masked options
    and with room for [nr_zones] less the zones gathered; the next
    round starts at start + length of the last zone of the round
    before; the rounds end when a round brings no zone, when
    [nr_zones] zones are gathered, or when that next start is at
    or past the capacity, and then [*nr_zones] is the number of
    zones gathered and the status 0; a backend error ends them
    with that error as status.  The zones are gathered in the
    caller's array: when the status is 0 the array starts with
    the descriptors that the rounds brought, in the order of the
    rounds, [*nr_zones] is their number, and the entries after
    them are as they were. *)
Theorem zbc_report_zones_rounds fuel w sector ro zs nr_zones :
  backend_fills_array ->
  0 <= nr_zones < 2 ^ 32 ->
  (Z.to_nat nr_zones <= length zs)%nat ->
  (Z.to_nat nr_zones < fuel)%nat ->
  exists r,
    zbc_report_zones fuel w sector ro (Some zs) nr_zones = Some r /\
    (if negb (zbc_test_mode dev)
        && (sector >=? zbd_sectors (zbd_info dev))
     then rz_rounds r = [] /\ rz_ret r = 0 /\ rz_nr_zones r = 0
     else rounds ro nr_zones sector 0
                 (rz_rounds r) (rz_ret r) (rz_nr_zones r) /\
          Forall round_answered (rz_rounds r)) /\
    (rz_ret r = 0 ->
     rz_nr_zones r = Z.of_nat (length (gathered (rz_rounds r))) /\
     rz_zones r
     = Some (gathered (rz_rounds r)
             ++ drop (length (gathered (rz_rounds r))) zs)).
Proof.
  intros Hfill Hnr Hlen Hfuel.
  destruct (zbc_report_zones_gathered fuel w sector ro zs nr_zones
              Hfill Hnr Hlen Hfuel) as (r & Er & _ & Harr).
  exists r. split; [exact Er|]. split.
  - revert Er. unfold zbc_report_zones.
    destruct (negb (zbc_test_mode dev)
              && (sector >=? zbd_sectors (zbd_info dev))).
    + intros Er. injection Er as <-. cbn. auto.
    + intros Er.
      destruct (zbc_report_zones_loop_rounds
                  ro nr_zones fuel w sector zs 0 Hfill)
        as (r' & Er' & Hr & Ha); try lia.
      rewrite Er in Er'. injection Er' as <-.
      split; assumption.
  - intros Hok. destruct (Harr Hok) as [Hc Ha].
    split; [exact Hc|]. rewrite Ha, Hc, Nat2Z.id. reflexivity.
Qed.

(** *** Listing the zones of a device *)

(** Modelled from the spec: what a backend's [zbd_report_zones]
    does, none of the backends that work with this layer being
    part of the sources.  The device has the zones [zl]; the
    zones reported from [sector] on are those that end after
    [sector] and that the options select ([matches]).  The count
    query gives their number; with an array the backend stores
    the first of them, as many as the array and its own buffer
    ([room]) hold, and gives their number. *)
Definition zones_from (zl : list zbc_zone) (sector : Z)
  : list zbc_zone :=
  List.filter (fun z => sector <? zone_end z) zl.

Definition device_report_zones (zl : list zbc_zone)
           (matches : Z -> zbc_zone -> bool) (room : Z)
           (w : W) (d : zbc_device) (sector ro : Z) (array : bool)
           (n : Z) : W * rz_reply :=
  let m := List.filter (matches ro) (zones_from zl sector) in
  if array then
    let k := Z.min (Z.min n room) (Z.of_nat (length m)) in
    (w, {| rr_ret := 0; rr_n := k; rr_zones := take (Z.to_nat k) m |})
  else
    (w, {| rr_ret := 0; rr_n := Z.of_nat (length m); rr_zones := [] |}).

(** The zones [zl] lie one after the other from [first] up to
    [cap], none of them empty. *)
Fixpoint zones_partition (zl : list zbc_zone) (first cap : Z) : bool :=
  match zl with
  | [] => first =? cap
  | z :: rest =>
      (zbz_start z =? first) && (0 <? zbz_length z)
      && zones_partition rest (first + zbz_length z) cap
  end.

Definition ends_increase (x y : zbc_zone) : Prop :=
  zone_end x < zone_end y.

Lemma zones_partition_le zl :
  forall first cap, zones_partition zl first cap = true -> first <= cap.
Proof.
  induction zl as [|z rest IH]; intros first cap H; cbn in H.
  - apply Z.eqb_eq in H. lia.
  - apply andb_prop in H as [H Hrest]. apply andb_prop in H as [_ Hlen].
    apply Z.ltb_lt in Hlen. apply IH in Hrest. lia.
Qed.

Lemma zones_partition_sorted zl :
  forall first cap,
    zones_partition zl first cap = true -> 0 <= first -> cap < 2 ^ 64 ->
    StronglySorted ends_increase zl /\
    Forall (fun z => first < zone_end z <= cap) zl.
Proof.
  induction zl as [|z rest IH]; intros first cap H Hfirst Hcap.
  - split; constructor.
  - cbn in H.
    apply andb_prop in H as [H Hrest]. apply andb_prop in H as [Hs Hlen].
    apply Z.eqb_eq in Hs. apply Z.ltb_lt in Hlen.
    pose proof (zones_partition_le _ _ _ Hrest) as Hle.
    assert (Hz : zone_end z = first + zbz_length z).
    { unfold zone_end. rewrite Hs. apply u64_small. lia. }
    destruct (IH _ _ Hrest ltac:(lia) Hcap) as [Hsorted Hall].
    split.
    + constructor; [exact Hsorted|].
      eapply Forall_impl; [exact Hall|].
      intros x Hx. unfold ends_increase. cbn in Hx. lia.
    + constructor; [lia|].
      eapply Forall_impl; [exact Hall|].
      intros x Hx. cbn in Hx. lia.
Qed.

Lemma filter_all (A : Type) (f : A -> bool) (l : list A) :
  Forall (fun x => f x = true) l -> List.filter f l = l.
Proof.
  induction 1 as [|x l Hx _ IH]; cbn; [reflexivity|].
  rewrite Hx, IH. reflexivity.
Qed.

Lemma filter_none (A : Type) (f : A -> bool) (l : list A) :
  Forall (fun x => f x = false) l -> List.filter f l = [].
Proof.
  induction 1 as [|x l Hx _ IH]; cbn; [reflexivity|].
  rewrite Hx, IH. reflexivity.
Qed.

Lemma filter_comm (A : Type) (f g : A -> bool) (l : list A) :
  List.filter f (List.filter g l) = List.filter g (List.filter f l).
Proof.
  induction l as [|x l IH]; cbn; [reflexivity|].
  destruct (f x) eqn:Ef, (g x) eqn:Eg; cbn;
    rewrite ?Ef, ?Eg, IH; reflexivity.
Qed.

Lemma filter_implied (A : Type) (f g : A -> bool) (l : list A) :
  (forall x, f x = true -> g x = true) ->
  List.filter f (List.filter g l) = List.filter f l.
Proof.
  intros Himp. induction l as [|x l IH]; cbn; [reflexivity|].
  destruct (g x) eqn:Eg; cbn.
  - rewrite IH. reflexivity.
  - destruct (f x) eqn:Ef; [|exact IH].
    apply Himp in Ef. congruence.
Qed.

Lemma filter_ext_eq (A : Type) (f g : A -> bool) (l : list A) :
  (forall x, f x = g x) -> List.filter f l = List.filter g l.
Proof.
  intros Hfg. induction l as [|x l IH]; cbn; [reflexivity|].
  rewrite Hfg, IH. reflexivity.
Qed.

Lemma Forall_list_filter (A : Type) (P : A -> Prop) (f : A -> bool)
      (l : list A) :
  Forall P l -> Forall P (List.filter f l).
Proof.
  induction 1 as [|x l Hx _ IH]; cbn; [constructor|].
  destruct (f x); [constructor|]; assumption.
Qed.

Lemma StronglySorted_list_filter (A : Type) (R : A -> A -> Prop)
      (f : A -> bool) (l : list A) :
  StronglySorted R l -> StronglySorted R (List.filter f l).
Proof.
  induction 1 as [|x l Hs IH Hx]; cbn; [constructor|].
  destruct (f x); [|exact IH].
  constructor; [exact IH|]. apply Forall_list_filter, Hx.
Qed.

(** In a list of zones with increasing ends, the zones that end
    after the zone at index [i] are those after index [i]. *)
Lemma filter_after_sorted (m : list zbc_zone) :
  StronglySorted ends_increase m ->
  forall i z,
    m !! i = Some z ->
    List.filter (fun x => zone_end z <? zone_end x) m = drop (S i) m.
Proof.
  induction 1 as [|a m Hs IH Ha]; intros i z Hi; [discriminate|].
  destruct i as [|i]; cbn in Hi.
  - inversion Hi; subst a. cbn.
    rewrite Z.ltb_irrefl. rewrite drop_0. apply filter_all.
    eapply Forall_impl; [exact Ha|].
    intros x Hx. apply Z.ltb_lt. exact Hx.
  - cbn [List.filter].
    assert (Haz : zone_end a < zone_end z).
    { rewrite Forall_forall in Ha. apply Ha.
      eapply list_elem_of_lookup_2. exact Hi. }
    destruct (Z.ltb_spec (zone_end z) (zone_end a)); [lia|].
    cbn [drop]. apply IH. exact Hi.
Qed.

Lemma store_zones_nat zones (j : nat) zs :
  store_zones zones (Z.of_nat j) zs
  = take j zones ++ zs ++ drop (j + length zs) zones.
Proof. unfold store_zones. rewrite Nat2Z.id. reflexivity. Qed.

Lemma list_filter_length_le (A : Type) (f : A -> bool) (l : list A) :
  (length (List.filter f l) <= length l)%nat.
Proof.
  induction l as [|x l IH]; cbn; [lia|].
  destruct (f x); cbn; lia.
Qed.

(** The loop of [zbc_report_zones] over the modelled backend, in an
    array made for the zones [m0] to report, of which the first
    [j] are stored and the others are those the backend reports
    from [sector] on: it stores them all. *)
Lemma zbc_report_zones_loop_complete zl matches room ro m0 fuel :
  zbd_report_zones ops = device_report_zones zl matches room ->
  1 <= room ->
  (forall i z,
      m0 !! i = Some z ->
      List.filter (matches (Z.lor (zbc_ro_mask ro) ZBC_RO_PARTIAL))
                  (zones_from zl (zone_end z))
      = drop (S i) m0) ->
  (forall i z,
      m0 !! i = Some z -> zbd_sectors (zbd_info dev) <= zone_end z ->
      S i = length m0) ->
  Z.of_nat (length m0) < 2 ^ 32 ->
  forall w sector zones (j : nat),
    List.filter (matches (Z.lor (zbc_ro_mask ro) ZBC_RO_PARTIAL))
                (zones_from zl sector)
    = drop j m0 ->
    take j zones = take j m0 -> length zones = length m0 ->
    (j <= length m0)%nat -> (length m0 - j < fuel)%nat ->
    exists r,
      zbc_report_zones_loop fuel w sector ro zones
                            (Z.of_nat (length m0)) (Z.of_nat j)
      = Some r /\
      rz_world r = w /\ rz_ret r = 0 /\
      rz_nr_zones r = Z.of_nat (length m0) /\ rz_zones r = Some m0.
Proof.
  intros Hops Hroom HG HE Hsmall.
  induction fuel as [|fuel IH];
    intros w sector zones j Hrest Htake Hlen Hj Hfuel; [lia|].
  cbn [zbc_report_zones_loop].
  destruct (Z.ltb_spec (Z.of_nat j) (Z.of_nat (length m0))) as [Hlt|Hge].
  2:{ eexists. split; [reflexivity|]. cbn.
      repeat split; [lia|].
      rewrite (take_ge zones), (take_ge m0) in Htake by lia.
      congruence. }
  rewrite (u32_small (Z.of_nat (length m0) - Z.of_nat j)) by lia.
  rewrite Hops. unfold device_report_zones. rewrite Hrest.
  rewrite length_drop.
  set (k := Z.min (Z.min (Z.of_nat (length m0) - Z.of_nat j) room)
                  (Z.of_nat (length m0 - j))).
  assert (Hk : 1 <= k <= Z.of_nat (length m0) - Z.of_nat j)
    by (unfold k; lia).
  cbn [rr_ret rr_n rr_zones Z.eqb].
  rewrite (u32_small k) by lia.
  destruct (Z.eqb_spec k 0) as [|_]; [lia|].
  rewrite (u32_small (Z.of_nat j + k)) by lia.
  rewrite (u32_small (Z.of_nat j + k - 1)) by lia.
  set (zs := take (Z.to_nat k) (drop j m0)).
  assert (Hzs : length zs = Z.to_nat k).
  { unfold zs. rewrite length_take, length_drop. lia. }
  assert (Hne : zs <> []).
  { intros E. rewrite E in Hzs. cbn in Hzs. lia. }
  assert (Hlast : store_zones zones (Z.of_nat j) zs
                  !! Z.to_nat (Z.of_nat j + k - 1)
                  = m0 !! (j + Z.to_nat k - 1)%nat).
  { replace (Z.of_nat j + k - 1)
      with (Z.of_nat j + Z.of_nat (length zs) - 1) by lia.
    rewrite store_zones_last by (assumption || lia).
    rewrite last_lookup, Hzs. unfold zs.
    rewrite lookup_take_lt by lia. rewrite lookup_drop.
    f_equal. lia. }
  rewrite Hlast.
  destruct (lookup_lt_is_Some_2 m0 (j + Z.to_nat k - 1)%nat ltac:(lia))
    as [z Ez].
  rewrite Ez. fold (zone_end z).
  assert (Hstore : take (j + Z.to_nat k)
                        (store_zones zones (Z.of_nat j) zs)
                   = take (j + Z.to_nat k) m0).
  { rewrite store_zones_nat, app_assoc.
    rewrite take_app_length'
      by (rewrite length_app, length_take, Hzs; lia).
    rewrite Htake. unfold zs. apply take_take_drop. }
  assert (Hslen : length (store_zones zones (Z.of_nat j) zs)
                  = length m0).
  { rewrite store_zones_length; lia. }
  destruct (Z.geb_spec (zone_end z) (zbd_sectors (zbd_info dev)))
    as [Hcap|Hcap].
  - pose proof (HE _ _ Ez Hcap) as Hend.
    eexists. split; [reflexivity|]. cbn.
    repeat split; [lia|].
    rewrite (take_ge (store_zones _ _ _)), (take_ge m0)
      in Hstore by lia.
    congruence.
  - pose proof (HG _ _ Ez) as Hnext.
    replace (S (j + Z.to_nat k - 1)) with (j + Z.to_nat k)%nat
      in Hnext by lia.
    destruct (IH w (zone_end z) (store_zones zones (Z.of_nat j) zs)
                 (j + Z.to_nat k)%nat Hnext Hstore Hslen
                 ltac:(lia) ltac:(lia))
      as (r & Er & Hw & Hret & Hnr & Hz).
    replace (Z.of_nat j + k) with (Z.of_nat (j + Z.to_nat k)) by lia.
    rewrite Er. eexists. split; [reflexivity|]. cbn. auto.
Qed.

(** The modelled backend keeps the contract of the report loop. *)
Lemma device_fills_array zl matches room :
  zbd_report_zones ops = device_report_zones zl matches room ->
  0 <= room -> backend_fills_array.
Proof.
  intros Hops Hroom w sector ro n reply Hn _. subst reply.
  rewrite Hops. unfold device_report_zones. cbn.
  split; [lia|]. rewrite length_take. lia.
Qed.

(** C9: over a device whose zones lie one after the other up to
    the capacity, [zbc_list_zones] makes the count query (the
    report with a null array), obtains an array of exactly that
    many descriptors, has [zbc_report_zones] fill it, and hands
    the array over with the number of zones in it, which is the
    count the null-array query returned: the array holds the
    zones the options select from [sector] on, all of them.  A
    count of zero gives a null array.  This holds from any start
    sector and for any selection by the options, so from sector 0
    with all the zones selected too. *)
Theorem zbc_list_zones_complete zl matches room fuel w sector ro :
  zbd_report_zones ops = device_report_zones zl matches room ->
  zones_partition zl 0 (zbd_sectors (zbd_info dev)) = true ->
  zbd_sectors (zbd_info dev) < 2 ^ 64 ->
  1 <= room ->
  (forall z,
      matches (Z.lor (zbc_ro_mask (zbc_ro_mask ro)) ZBC_RO_PARTIAL) z
      = matches (zbc_ro_mask (zbc_ro_mask ro)) z) ->
  (forall w' n, snd (calloc w' n) = true) ->
  Z.of_nat (length zl) < 2 ^ 32 ->
  (length zl < fuel)%nat ->
  exists c r zones,
    zbc_report_nr_zones w sector (zbc_ro_mask ro) = Some c /\
    zbc_list_zones fuel w sector ro = Some r /\
    lz_count r = c /\ rz_ret c = 0 /\ lz_ret r = 0 /\
    lz_out r = Some (zones, rz_nr_zones c) /\
    match zones with
    | None => rz_nr_zones c = 0
    | Some a =>
        Z.of_nat (length a) = rz_nr_zones c /\
        a = List.filter (matches (zbc_ro_mask (zbc_ro_mask ro)))
                        (zones_from zl sector)
    end.
Proof.
  intros Hops Hpart Hcap Hroom Hpartial Hcalloc Hsmall Hfuel.
  destruct (zones_partition_sorted _ _ _ Hpart ltac:(lia) Hcap)
    as [Hsorted Hall].
  set (P0 := matches (zbc_ro_mask (zbc_ro_mask ro))).
  set (P1 := matches (Z.lor (zbc_ro_mask (zbc_ro_mask ro))
                            ZBC_RO_PARTIAL)).
  set (m0 := List.filter P0 (zones_from zl sector)).
  assert (HP : forall s, List.filter P1 (zones_from zl s)
                         = List.filter P0 (zones_from zl s)).
  { intros s. apply filter_ext_eq. exact Hpartial. }
  assert (Hm0len : (length m0 <= length zl)%nat).
  { unfold m0, zones_from.
    etransitivity; [apply list_filter_length_le|].
    apply list_filter_length_le. }
  assert (Hm0sorted : StronglySorted ends_increase m0).
  { unfold m0, zones_from.
    do 2 apply StronglySorted_list_filter. exact Hsorted. }
  assert (Hm0all : Forall (fun z => sector < zone_end z
                                    <= zbd_sectors (zbd_info dev)) m0).
  { apply Forall_forall. intros z Hz.
    apply list_elem_of_In in Hz. unfold m0, zones_from in Hz.
    apply filter_In in Hz as [Hz _]. apply filter_In in Hz as [Hz Hs].
    apply Z.ltb_lt in Hs. split; [exact Hs|].
    rewrite Forall_forall in Hall.
    apply list_elem_of_In in Hz. apply Hall in Hz. lia. }
  assert (HG : forall i z,
             m0 !! i = Some z ->
             List.filter P1 (zones_from zl (zone_end z))
             = drop (S i) m0).
  { intros i z Hi.
    rewrite <- (filter_after_sorted m0 Hm0sorted i z Hi).
    rewrite HP. unfold m0, zones_from.
    transitivity (List.filter (fun x => zone_end z <? zone_end x)
                              (List.filter P0 zl)).
    { apply filter_comm. }
    rewrite (filter_comm _ P0 (fun z0 => sector <? zone_end z0) zl).
    symmetry. apply filter_implied.
    intros x Hx. apply Z.ltb_lt in Hx. apply Z.ltb_lt.
    rewrite Forall_forall in Hm0all.
    pose proof (Hm0all z (list_elem_of_lookup_2 _ _ _ Hi)). lia. }
  assert (HE : forall i z,
             m0 !! i = Some z ->
             zbd_sectors (zbd_info dev) <= zone_end z ->
             S i = length m0).
  { intros i z Hi Hz.
    pose proof (filter_after_sorted m0 Hm0sorted i z Hi) as Hd.
    rewrite filter_none in Hd.
    - pose proof (lookup_lt_Some _ _ _ Hi) as Hlt.
      assert (Hl : length (drop (S i) m0) = 0%nat)
        by (rewrite <- Hd; reflexivity).
      rewrite length_drop in Hl. lia.
    - eapply Forall_impl; [exact Hm0all|].
      intros x Hx. cbn in Hx. apply Z.ltb_ge. lia. }
  destruct (negb (zbc_test_mode dev)
            && (sector >=? zbd_sectors (zbd_info dev))) eqn:Hearly.
  { exists {| rz_world := w; rz_ret := 0; rz_nr_zones := 0;
              rz_zones := None; rz_rounds := [] |}.
    assert (Ec : zbc_report_nr_zones w sector (zbc_ro_mask ro)
                 = Some {| rz_world := w; rz_ret := 0; rz_nr_zones := 0;
                           rz_zones := None; rz_rounds := [] |}).
    { unfold zbc_report_nr_zones, zbc_report_zones.
      rewrite Hearly. reflexivity. }
    unfold zbc_list_zones. rewrite Ec. cbn.
    eexists. exists None. cbn. repeat split. }
  set (reply := {| rr_ret := 0; rr_n := Z.of_nat (length m0);
                   rr_zones := [] |}).
  set (c := {| rz_world := w; rz_ret := 0;
               rz_nr_zones := Z.of_nat (length m0); rz_zones := None;
               rz_rounds :=
                 [{| rd_sector := sector;
                     rd_ro := zbc_ro_mask (zbc_ro_mask ro);
                     rd_n := 0; rd_reply := reply |}] |}).
  assert (Ec : zbc_report_nr_zones w sector (zbc_ro_mask ro) = Some c).
  { unfold zbc_report_nr_zones, zbc_report_zones.
    rewrite Hearly, Hops. unfold device_report_zones.
    fold P0. fold m0. cbn [rr_ret rr_n].
    rewrite (u32_small (Z.of_nat (length m0))) by lia. reflexivity. }
  exists c. unfold zbc_list_zones. rewrite Ec.
  cbn [rz_ret rz_nr_zones rz_world c].
  change (0 <? 0) with false. cbv iota.
  destruct (Z.eqb_spec (Z.of_nat (length m0)) 0) as [Hz|Hnz].
  { eexists. exists None. cbn. repeat split. exact Hz. }
  specialize (Hcalloc w (Z.of_nat (length m0))).
  destruct (calloc w (Z.of_nat (length m0))) as [w1 ok].
  cbn [snd] in Hcalloc. subst ok.
  rewrite Nat2Z.id.
  unfold zbc_report_zones. rewrite Hearly.
  destruct (zbc_report_zones_loop_complete
              zl matches room (zbc_ro_mask ro) m0 fuel
              Hops Hroom HG HE ltac:(lia)
              w1 sector (replicate (length m0) zero_zone) O)
    as (r & Er & Hw & Hret & Hnr & Hzs).
  { rewrite drop_0. apply HP. }
  { reflexivity. }
  { apply length_replicate. }
  { lia. }
  { lia. }
  change (Z.of_nat 0) with 0 in Er. rewrite Er, Hret.
  cbn [Z.eqb]. eexists. exists (Some m0). cbn.
  rewrite Hzs, Hnr. repeat split.
Qed.

(** *** The splitter *)

Lemma iov_total_nonneg iov :
  Forall (fun e => 0 <= iov_len e) iov -> 0 <= iov_total iov.
Proof.
  induction 1 as [|e l He Hl IH]; unfold iov_total in *;
    cbn [fold_right]; lia.
Qed.

Lemma zbc_iov_count_total iov :
  Forall (fun e => 0 <= iov_len e) iov -> iov_total iov < 2 ^ 64 ->
  zbc_iov_count iov (Z.of_nat (length iov)) = iov_total iov.
Proof.
  intros Hpos Hsmall. unfold zbc_iov_count.
  rewrite Nat2Z.id. rewrite take_ge by reflexivity.
  assert (Hgen : forall acc,
             0 <= acc -> acc + iov_total iov < 2 ^ 64 ->
             fold_left (fun count e => u64 (count + iov_len e)) iov acc
             = acc + iov_total iov).
  { clear Hsmall. induction Hpos as [|e l He Hl IH]; intros acc Hacc Hs.
    - cbn. lia.
    - cbn [fold_left iov_total fold_right] in *.
      pose proof (iov_total_nonneg l Hl) as Hn.
      fold (iov_total l) in *.
      rewrite u64_small by lia. rewrite IH by lia. lia. }
  rewrite Hgen by lia. lia.
Qed.

(** The vector made for a window has exactly the bytes of the
    window when the caller's vector reaches that far. *)
Lemma zbc_iov_convert_loop_total iov :
  forall size offset count,
    Forall (fun e => 0 <= iov_len e) iov ->
    512 * iov_total iov <= SSIZE_MAX -> size <= SSIZE_MAX ->
    0 <= offset -> 0 <= count <= size ->
    offset + (size - count) <= 512 * iov_total iov ->
    iov_total (zbc_iov_convert_loop iov size offset count)
    = size - count.
Proof.
  unfold SSIZE_MAX.
  induction iov as [|e rest IH];
    intros size offset count Hpos Htot Hsize Hoff Hcount Hreach.
  - cbn in *. lia.
  - inversion Hpos as [|? ? He Hrest]; subst.
    pose proof (iov_total_nonneg rest Hrest) as Hn.
    cbn [iov_total fold_right] in Htot, Hreach.
    fold (iov_total rest) in Htot, Hreach.
    cbn [zbc_iov_convert_loop].
    destruct (Z.ltb_spec count size) as [Hlt|Hge].
    2:{ cbn. lia. }
    rewrite Z.shiftl_mul_pow2 by lia.
    rewrite (u64_small (iov_len e * 2 ^ 9)) by lia.
    destruct (Z.geb_spec offset (iov_len e * 2 ^ 9)) as [Hskip|Hin].
    + rewrite u64_small by lia. apply IH; (assumption || lia).
    + rewrite (u64_small (iov_len e * 2 ^ 9 - offset)) by lia.
      rewrite (u64_small (count + (iov_len e * 2 ^ 9 - offset))) by lia.
      destruct (Z.gtb_spec (count + (iov_len e * 2 ^ 9 - offset)) size)
        as [Hcut|Hfit].
      * rewrite (u64_small (size - count)) by lia.
        cbn [iov_total fold_right iov_len].
        fold (iov_total (zbc_iov_convert_loop
                           rest size 0 (u64 (count + (size - count))))).
        rewrite (u64_small (count + (size - count))) by lia.
        rewrite IH by (assumption || lia). lia.
      * cbn [iov_total fold_right iov_len].
        fold (iov_total (zbc_iov_convert_loop
                           rest size 0
                           (u64 (count + (iov_len e * 2 ^ 9 - offset))))).
        rewrite (u64_small (count + (iov_len e * 2 ^ 9 - offset)))
          by lia.
        rewrite IH by (assumption || lia). lia.
Qed.

Lemma zbc_iov_convert_total iov sector_offset sectors :
  Forall (fun e => 0 <= iov_len e) iov ->
  512 * iov_total iov <= SSIZE_MAX ->
  0 <= sector_offset -> 0 <= sectors ->
  sector_offset + sectors <= iov_total iov ->
  iov_total (zbc_iov_convert iov (Z.of_nat (length iov))
                             sector_offset sectors)
  = 512 * sectors.
Proof.
  intros Hpos Htot Hoff Hsec Hreach. unfold zbc_iov_convert.
  rewrite Nat2Z.id. rewrite take_ge by reflexivity.
  unfold SSIZE_MAX in Htot.
  rewrite !Z.shiftl_mul_pow2 by lia.
  rewrite (u64_small (sectors * 2 ^ 9)) by lia.
  rewrite (u64_small (sector_offset * 2 ^ 9)) by lia.
  rewrite zbc_iov_convert_loop_total;
    (assumption || unfold SSIZE_MAX; lia).
Qed.

(** The status logged with a call is what the backend method
    answered to the vector and sector of the call. *)
Definition call_answered
           (rw : W -> zbc_device -> list iovec -> Z -> W * Z)
           (c : io_call) : Prop :=
  exists w0, snd (rw w0 dev (io_iov c) (io_sector c)) = io_ret c.


(** *** The vector handed to a backend *)

(** [o] is a non-empty piece of the buffer of [e], whose
    length is in sectors while that of [o] is in bytes. *)
Definition slice_of (e o : iovec) : Prop :=
  iov_base e <= iov_base o /\ 0 < iov_len o /\
  iov_base o + iov_len o <= iov_base e + 512 * iov_len e.

(** A vector made of at most one piece of each buffer of
    another one, in the same order. *)
Inductive slices : list iovec -> list iovec -> Prop :=
| slices_nil : slices [] []
| slices_skip e rest out : slices rest out -> slices (e :: rest) out
| slices_keep e o rest out :
    slice_of e o -> slices rest out ->
    slices (e :: rest) (o :: out).

Lemma slices_none iov : slices iov [].
Proof. induction iov; constructor; assumption. Qed.

Lemma slices_length iov out :
  slices iov out -> (length out <= length iov)%nat.
Proof. induction 1; cbn; lia. Qed.

Lemma u64_le x : 0 <= x -> 0 <= u64 x <= x.
Proof.
  intros H. unfold u64. split.
  - apply Z.mod_pos_bound. lia.
  - apply Z.mod_le; lia.
Qed.

Lemma zbc_iov_convert_loop_slices iov :
  forall size offset count,
    Forall (fun e => 0 <= iov_len e) iov ->
    0 <= offset -> 0 <= count -> size < 2 ^ 64 ->
    slices iov (zbc_iov_convert_loop iov size offset count).
Proof.
  induction iov as [|e rest IH];
    intros size offset count Hpos Hoff Hcount Hsize.
  - constructor.
  - inversion Hpos as [|? ? He Hrest]; subst.
    cbn [zbc_iov_convert_loop].
    destruct (Z.ltb_spec count size) as [Hlt|Hge];
      [|apply slices_none].
    assert (Hl : 0 <= u64 (Z.shiftl (iov_len e) 9) <= 512 * iov_len e).
    { rewrite Z.shiftl_mul_pow2 by lia.
      pose proof (u64_le (iov_len e * 2 ^ 9) ltac:(lia)). lia. }
    set (length := u64 (Z.shiftl (iov_len e) 9)) in *.
    destruct (Z.geb_spec offset length) as [Hskip|Hin].
    + apply slices_skip, IH; try assumption.
      apply u64_range.
    + pose proof (u64_range length) as Hr. unfold length in Hr at 1.
      assert (Hr' : length < 2 ^ 64).
      { unfold length. apply u64_range. }
      rewrite (u64_small (length - offset)) by lia.
      apply slices_keep.
      * unfold slice_of. cbn [iov_base iov_len].
        split; [lia|].
        destruct (Z.gtb_spec (u64 (count + (length - offset))) size)
          as [Hcut|Hfit].
        -- rewrite (u64_small (size - count)) by lia.
           split; [lia|].
           assert (size - count <= length - offset); [|lia].
           destruct (Z.lt_ge_cases (count + (length - offset))
                                   (2 ^ 64)) as [Hs|Hb].
           ++ rewrite u64_small in Hcut by lia. lia.
           ++ lia.
        -- lia.
      * apply IH; try assumption; try lia. apply u64_range.
Qed.

Lemma slices_positive iov out :
  slices iov out -> Forall (fun o => 0 < iov_len o) out.
Proof.
  induction 1 as [| |e o rest out' Hso Hs IH].
  - constructor.
  - assumption.
  - constructor; [apply Hso | exact IH].
Qed.

Lemma zbc_iov_convert_sliced iov iovcnt sector_offset sectors :
  Forall (fun e => 0 <= iov_len e) iov ->
  slices (take (Z.to_nat iovcnt) iov)
         (zbc_iov_convert iov iovcnt sector_offset sectors).
Proof.
  intros Hpos. unfold zbc_iov_convert.
  apply zbc_iov_convert_loop_slices.
  - apply Forall_take, Hpos.
  - apply u64_range.
  - lia.
  - apply u64_range.
Qed.

(** X7: whatever the window, the vector that [zbc_iov_convert]
    makes for a backend holds at most one piece of each of the
    first [iovcnt] buffers of the caller, in the caller's
    order: every piece is non-empty and lies inside its
    buffer, and there are at most [iovcnt] of them, which is
    the size of the scratch array they are written to. *)
Theorem zbc_iov_convert_slices iov iovcnt sector_offset sectors :
  Forall (fun e => 0 <= iov_len e) iov -> 0 <= iovcnt ->
  let out := zbc_iov_convert iov iovcnt sector_offset sectors in
  slices (take (Z.to_nat iovcnt) iov) out /\
  Z.of_nat (length out) <= iovcnt /\
  Forall (fun o => 0 < iov_len o) out.
Proof.
  intros Hpos Hcnt out.
  pose proof (zbc_iov_convert_sliced iov iovcnt sector_offset sectors
                Hpos) as Hs.
  fold out in Hs.
  split; [exact Hs|]. split.
  - apply slices_length in Hs. rewrite length_take in Hs. lia.
  - eapply slices_positive, Hs.
Qed.

(** The bytes of a window of [size] bytes that starts [offset]
    bytes into a vector of [total] sectors. *)
Definition window_bytes (total offset size : Z) : Z :=
  Z.min size (Z.max 0 (512 * total - offset)).

Lemma zbc_iov_convert_loop_bytes iov :
  forall size offset count,
    Forall (fun e => 0 <= iov_len e) iov ->
    512 * iov_total iov <= SSIZE_MAX -> size <= SSIZE_MAX ->
    0 <= offset < 2 ^ 64 -> 0 <= count <= size ->
    iov_total (zbc_iov_convert_loop iov size offset count)
    = window_bytes (iov_total iov) offset (size - count).
Proof.
  unfold SSIZE_MAX, window_bytes.
  induction iov as [|e rest IH];
    intros size offset count Hpos Htot Hsize Hoff Hcount.
  - cbn. lia.
  - inversion Hpos as [|? ? He Hrest]; subst.
    pose proof (iov_total_nonneg rest Hrest) as Hn.
    cbn [iov_total fold_right] in Htot |- *.
    fold (iov_total rest) in Htot |- *.
    cbn [zbc_iov_convert_loop].
    destruct (Z.ltb_spec count size) as [Hlt|Hge].
    2:{ cbn. lia. }
    rewrite Z.shiftl_mul_pow2 by lia.
    rewrite (u64_small (iov_len e * 2 ^ 9)) by lia.
    destruct (Z.geb_spec offset (iov_len e * 2 ^ 9)) as [Hskip|Hin].
    + rewrite (u64_small (offset - iov_len e * 2 ^ 9)) by lia.
      rewrite IH by (assumption || lia). lia.
    + rewrite (u64_small (iov_len e * 2 ^ 9 - offset)) by lia.
      rewrite (u64_small (count + (iov_len e * 2 ^ 9 - offset)))
        by lia.
      destruct (Z.gtb_spec (count + (iov_len e * 2 ^ 9 - offset)) size)
        as [Hcut|Hfit].
      * rewrite (u64_small (size - count)) by lia.
        cbn [iov_total fold_right iov_len].
        fold (iov_total (zbc_iov_convert_loop
                           rest size 0 (u64 (count + (size - count))))).
        rewrite (u64_small (count + (size - count))) by lia.
        rewrite IH by (assumption || lia). lia.
      * cbn [iov_total fold_right iov_len].
        fold (iov_total (zbc_iov_convert_loop
                           rest size 0
                           (u64 (count + (iov_len e * 2 ^ 9 - offset))))).
        rewrite (u64_small (count + (iov_len e * 2 ^ 9 - offset)))
          by lia.
        rewrite IH by (assumption || lia). lia.
Qed.

(** X8: the vector that [zbc_iov_convert] makes for a window of
    [sectors] sectors that starts [sector_offset] sectors into
    the caller's vector holds the bytes of the window that the
    caller's vector has: all 512 * [sectors] of them when the
    vector reaches the end of the window, what is left of the
    vector when it ends inside the window, and none when it
    ends before the window starts. *)
Theorem zbc_iov_convert_bytes iov sector_offset sectors :
  Forall (fun e => 0 <= iov_len e) iov ->
  512 * iov_total iov <= SSIZE_MAX ->
  0 <= sector_offset -> 512 * sector_offset < 2 ^ 64 ->
  0 <= sectors -> 512 * sectors <= SSIZE_MAX ->
  let out := zbc_iov_convert iov (Z.of_nat (length iov))
                             sector_offset sectors in
  iov_total out
  = Z.min (512 * sectors)
          (Z.max 0 (512 * (iov_total iov - sector_offset))) /\
  (sector_offset + sectors <= iov_total iov ->
   iov_total out = 512 * sectors) /\
  (iov_total iov <= sector_offset -> out = []).
Proof.
  intros Hpos Htot Hoff Hoff' Hsec Hsec' out.
  assert (Ht : iov_total out
               = window_bytes (iov_total iov) (512 * sector_offset)
                              (512 * sectors)).
  { unfold out, zbc_iov_convert.
    rewrite Nat2Z.id. rewrite take_ge by reflexivity.
    unfold SSIZE_MAX in *.
    rewrite !Z.shiftl_mul_pow2 by lia.
    rewrite (u64_small (sectors * 2 ^ 9)) by lia.
    rewrite (u64_small (sector_offset * 2 ^ 9)) by lia.
    rewrite zbc_iov_convert_loop_bytes;
      (assumption || unfold SSIZE_MAX; try lia).
    f_equal; lia. }
  unfold window_bytes in Ht.
  split; [rewrite Ht; lia|]. split.
  - intros Hreach. rewrite Ht. lia.
  - intros Hend.
    assert (Hz : iov_total out = 0) by (rewrite Ht; lia).
    pose proof (slices_positive _ _
                  (zbc_iov_convert_sliced
                     iov (Z.of_nat (length iov)) sector_offset sectors
                     Hpos)) as Hp.
    fold out in Hp. destruct Hp as [|o out' Ho Hp]; [reflexivity|].
    exfalso. cbn [iov_total fold_right] in Hz.
    fold (iov_total out') in Hz.
    assert (0 <= iov_total out').
    { apply iov_total_nonneg.
      eapply Forall_impl; [exact Hp|]. cbn. intros; lia. }
    lia.
Qed.

(** An entry of a caller's vector, with its length in bytes. *)
Definition to_bytes (e : iovec) : iovec :=
  {| iov_base := iov_base e; iov_len := 512 * iov_len e |}.

Definition nonempty (e : iovec) : bool := negb (iov_len e =? 0).

Lemma filter_nonempty_none iov :
  Forall (fun e => 0 <= iov_len e) iov -> iov_total iov <= 0 ->
  List.filter nonempty iov = [].
Proof.
  induction 1 as [|e rest He Hrest IH]; intros Hz; [reflexivity|].
  pose proof (iov_total_nonneg rest Hrest) as Hn.
  cbn [iov_total fold_right] in Hz. fold (iov_total rest) in Hz.
  cbn [List.filter]. unfold nonempty at 1.
  destruct (Z.eqb_spec (iov_len e) 0); [|lia].
  cbn [negb]. apply IH. lia.
Qed.

Lemma zbc_iov_convert_loop_whole iov :
  forall size count,
    Forall (fun e => 0 <= iov_len e) iov ->
    size <= SSIZE_MAX -> 0 <= count ->
    count + 512 * iov_total iov = size ->
    zbc_iov_convert_loop iov size 0 count
    = map to_bytes (List.filter nonempty iov).
Proof.
  unfold SSIZE_MAX.
  induction iov as [|e rest IH]; intros size count Hpos Hsize Hcount Hsum;
    [reflexivity|].
  pose proof Hpos as Hpos'.
  apply Forall_cons in Hpos'. destruct Hpos' as [He Hrest].
  pose proof (iov_total_nonneg rest Hrest) as Hn.
  cbn [iov_total fold_right] in Hsum. fold (iov_total rest) in Hsum.
  subst size.
  cbn [zbc_iov_convert_loop].
  destruct (Z.ltb_spec count (count + 512 * (iov_len e + iov_total rest)))
    as [Hlt|Hge].
  2:{ rewrite filter_nonempty_none; [reflexivity | exact Hpos|].
      cbn [iov_total fold_right]. fold (iov_total rest). lia. }
  rewrite Z.shiftl_mul_pow2 by lia.
  rewrite (u64_small (iov_len e * 2 ^ 9)) by lia.
  cbn [List.filter]. unfold nonempty at 1.
  destruct (Z.eqb_spec (iov_len e) 0) as [Hz|Hnz].
  - rewrite Hz. cbn [Z.mul Z.geb Z.compare negb Z.sub Z.opp Z.add].
    change (u64 0) with 0.
    apply IH; (assumption || lia).
  - cbn [negb map].
    destruct (Z.geb_spec 0 (iov_len e * 2 ^ 9)) as [|_]; [lia|].
    rewrite Z.sub_0_r, Z.add_0_r.
    rewrite (u64_small (iov_len e * 2 ^ 9)) by lia.
    rewrite (u64_small (count + iov_len e * 2 ^ 9)) by lia.
    destruct (Z.gtb_spec (count + iov_len e * 2 ^ 9)
                         (count + 512 * (iov_len e + iov_total rest)))
      as [|_]; [lia|].
    rewrite (u64_small (count + iov_len e * 2 ^ 9)) by lia.
    f_equal.
    + unfold to_bytes. f_equal. lia.
    + apply IH; (assumption || lia).
Qed.

(** X9: for the window that covers a whole vector,
    [zbc_iov_convert] hands the backend the caller's buffers
    as they are, with their lengths in bytes, less the empty
    ones, which it leaves out. *)
Theorem zbc_iov_convert_whole iov :
  Forall (fun e => 0 <= iov_len e) iov ->
  512 * iov_total iov <= SSIZE_MAX ->
  zbc_iov_convert iov (Z.of_nat (length iov)) 0 (iov_total iov)
  = map to_bytes (List.filter nonempty iov).
Proof.
  intros Hpos Htot. unfold zbc_iov_convert.
  rewrite Nat2Z.id. rewrite take_ge by reflexivity.
  pose proof (iov_total_nonneg iov Hpos) as Hn.
  unfold SSIZE_MAX in Htot.
  rewrite Z.shiftl_mul_pow2 by lia.
  rewrite (u64_small (iov_total iov * 2 ^ 9)) by lia.
  change (u64 (Z.shiftl 0 9)) with 0.
  apply zbc_iov_convert_loop_whole;
    (assumption || unfold SSIZE_MAX; lia).
Qed.

(** *** Mapping a buffer *)

(** The entry that [zbc_map_iov] writes to [iov[j]] for a
    buffer at [buf] of [sectors] sectors cut every [iovlen]
    sectors. *)
Definition chunk (buf sectors iovlen j : Z) : iovec :=
  {| iov_base := buf + 512 * (j * iovlen);
     iov_len := Z.min iovlen (sectors - j * iovlen) |}.

Lemma zbc_map_iov_loop_chunks iovlen fuel :
  forall buf sectors iov i k,
    0 < iovlen -> 0 <= sectors -> 512 * sectors <= SSIZE_MAX ->
    0 <= i -> 0 <= k ->
    sectors <= k * iovlen -> (0 < k -> (k - 1) * iovlen < sectors) ->
    i + k <= Z.of_nat (length iov) -> Z.of_nat (length iov) < 2 ^ 31 ->
    (Z.to_nat k < fuel)%nat ->
    exists iov',
      zbc_map_iov_loop fuel buf sectors iov iovlen i
      = Some (i + k, iov') /\
      length iov' = length iov /\
      (forall j, (j < Z.to_nat i)%nat -> iov' !! j = iov !! j) /\
      (forall j, (Z.to_nat (i + k) <= j)%nat -> iov' !! j = iov !! j) /\
      (forall j, 0 <= j < k ->
                 iov' !! Z.to_nat (i + j)
                 = Some (chunk buf sectors iovlen j)) /\
      iov_total (take (Z.to_nat k) (drop (Z.to_nat i) iov')) = sectors.
Proof.
  unfold SSIZE_MAX.
  induction fuel as [|fuel IH];
    intros buf sectors iov i k Hlen Hsec Hsmall Hi Hk Hup Hlow Hfit
           Hint Hfuel; [lia|].
  cbn [zbc_map_iov_loop].
  destruct (Z.eqb_spec sectors 0) as [->|Hne].
  { assert (k = 0) by nia. subst k. rewrite Z.add_0_r.
    exists iov. split; [reflexivity|]. split; [reflexivity|].
    split; [reflexivity|]. split; [reflexivity|].
    split; [intros; lia | reflexivity]. }
  assert (Hk1 : 0 < k) by nia.
  specialize (Hlow Hk1).
  set (len := if sectors >? iovlen then iovlen else sectors).
  assert (Hl : len = Z.min iovlen sectors /\ 0 < len).
  { unfold len. destruct (Z.gtb_spec sectors iovlen); lia. }
  destruct Hl as [Hl Hlpos].
  assert (Hcase : (len = iovlen /\ iovlen <= sectors)
                  \/ (len = sectors /\ sectors < iovlen /\ k = 1)).
  { destruct (Z.le_gt_cases iovlen sectors).
    - left. lia.
    - right. split; [lia|]. split; [lia|]. nia. }
  destruct (Z.leb_spec 0 i) as [_|]; [|lia].
  destruct (Z.ltb_spec i (Z.of_nat (length iov))) as [_|]; [|lia].
  cbn [andb].
  rewrite Z.shiftl_mul_pow2 by lia.
  rewrite (u64_small (len * 2 ^ 9)) by lia.
  rewrite (u64_small (sectors - len)) by lia.
  rewrite (to_int_small (i + 1)) by lia.
  set (iov1 := <[Z.to_nat i := {| iov_base := buf; iov_len := len |}]> iov).
  assert (Hlen1 : length iov1 = length iov) by apply length_insert.
  assert (Hup1 : sectors - len <= (k - 1) * iovlen)
    by (destruct Hcase as [[E1 ?]|(E1 & ? & E2)]; nia).
  assert (Hlow1 : 0 < k - 1 -> (k - 1 - 1) * iovlen < sectors - len)
    by (intros Hk2; destruct Hcase as [[E1 ?]|(E1 & ? & E2)]; nia).
  destruct (IH (buf + len * 2 ^ 9) (sectors - len) iov1 (i + 1) (k - 1)
               Hlen ltac:(lia) ltac:(lia) ltac:(lia) ltac:(lia)
               Hup1 Hlow1 ltac:(lia) ltac:(lia) ltac:(lia))
    as (iov' & E & Hlen' & Hbelow & Habove & Hat & Htot).
  assert (Hi' : iov' !! Z.to_nat i
                = Some {| iov_base := buf; iov_len := len |}).
  { rewrite Hbelow by lia. unfold iov1.
    apply list_lookup_insert_eq. lia. }
  exists iov'. split.
  { rewrite E. f_equal. f_equal. lia. }
  split.
  { rewrite Hlen'. unfold iov1. apply length_insert. }
  split.
  { intros j Hj. rewrite Hbelow by lia. unfold iov1.
    apply list_lookup_insert_ne. lia. }
  split.
  { intros j Hj. rewrite Habove by lia. unfold iov1.
    apply list_lookup_insert_ne. lia. }
  split.
  { intros j Hj. destruct (Z.eq_dec j 0) as [->|Hj0].
    - rewrite Z.add_0_r, Hi'.
      unfold chunk. f_equal. f_equal; lia.
    - replace (i + j) with (i + 1 + (j - 1)) by lia.
      rewrite Hat by lia. unfold chunk. f_equal.
      destruct Hcase as [[E1 ?]|(E1 & ? & E2)]; [|lia].
      f_equal; lia. }
  rewrite (drop_S _ _ _ Hi').
  replace (Z.to_nat k) with (S (Z.to_nat (k - 1))) by lia.
  cbn [take iov_total fold_right iov_len].
  replace (S (Z.to_nat i)) with (Z.to_nat (i + 1)) by lia.
  fold (iov_total (take (Z.to_nat (k - 1))
                        (drop (Z.to_nat (i + 1)) iov'))).
  rewrite Htot. lia.
Qed.

(** The number of entries that [sectors] sectors take when an
    entry holds at most [iovlen] of them. *)
Definition chunks (sectors iovlen : Z) : Z :=
  (sectors + iovlen - 1) / iovlen.

Lemma zbc_map_iov_mapped fuel buf sectors v iovcnt iovlen :
  buf <> 0 -> 0 < sectors -> 512 * sectors <= SSIZE_MAX ->
  0 < iovcnt < 2 ^ 31 -> 0 <= iovlen ->
  sectors <= u64 (iovcnt * iovlen) ->
  Z.of_nat (length v) = iovcnt ->
  (Z.to_nat iovcnt < fuel)%nat ->
  let n := chunks sectors iovlen in
  exists v',
    zbc_map_iov fuel buf sectors (Some v) iovcnt iovlen
    = Some (n, Some v') /\
    0 < n <= iovcnt /\ length v' = length v /\
    (forall j, 0 <= j < n ->
               v' !! Z.to_nat j = Some (chunk buf sectors iovlen j)) /\
    (forall j, (Z.to_nat n <= j)%nat -> v' !! j = v !! j) /\
    iov_total (take (Z.to_nat n) v') = sectors.
Proof.
  intros Hbuf Hsec Hsmall Hcnt Hlen Hfit Harr Hfuel n.
  pose proof (u64_le (iovcnt * iovlen) ltac:(nia)) as Hprod.
  assert (Hlen' : 0 < iovlen) by nia.
  pose proof (Z.div_mod (sectors + iovlen - 1) iovlen ltac:(lia)) as Hdm.
  pose proof (Z.mod_pos_bound (sectors + iovlen - 1) iovlen Hlen') as Hr.
  fold (chunks sectors iovlen) in Hdm. fold n in Hdm.
  assert (Hn : sectors <= n * iovlen /\ (n - 1) * iovlen < sectors
               /\ 0 < n <= iovcnt).
  { split; [lia|]. split; [lia|]. nia. }
  destruct Hn as (Hup & Hlow & Hn).
  unfold zbc_map_iov.
  destruct (Z.eqb_spec buf 0) as [|_]; [contradiction|].
  destruct (Z.eqb_spec sectors 0) as [|_]; [lia|].
  destruct (Z.leb_spec iovcnt 0) as [|_]; [lia|].
  rewrite (u64_small iovcnt) by lia.
  destruct (Z.gtb_spec sectors (u64 (iovcnt * iovlen))) as [|_]; [lia|].
  cbn [orb].
  destruct (zbc_map_iov_loop_chunks
              iovlen fuel buf sectors v 0 n Hlen' ltac:(lia) Hsmall
              ltac:(lia) ltac:(lia) Hup ltac:(intros _; exact Hlow)
              ltac:(lia) ltac:(lia) ltac:(lia))
    as (v' & E & Hl & _ & Habove & Hat & Htot).
  rewrite E. cbn [Z.add]. exists v'.
  split; [reflexivity|]. split; [exact Hn|]. split; [exact Hl|].
  split; [|split].
  - intros j Hj. rewrite <- (Hat j Hj). reflexivity.
  - intros j Hj. apply Habove. cbn [Z.add]. exact Hj.
  - exact Htot.
Qed.

(** X10: [zbc_map_iov] on a buffer of [sectors] sectors and an
    array of [iovcnt] entries that can hold them, at most
    [iovlen] sectors each, returns the number of entries it
    took, which is [sectors] / [iovlen] rounded up and at most
    [iovcnt].  Entry [j] starts 512 * [j] * [iovlen] bytes into
    the buffer and has [iovlen] sectors, the last one what is
    left; the entries that follow are left as they were. *)
Theorem zbc_map_iov_covers fuel buf sectors v iovcnt iovlen :
  buf <> 0 -> 0 < sectors -> 512 * sectors <= SSIZE_MAX ->
  0 < iovcnt < 2 ^ 31 -> 0 <= iovlen ->
  sectors <= u64 (iovcnt * iovlen) ->
  Z.of_nat (length v) = iovcnt ->
  (Z.to_nat iovcnt < fuel)%nat ->
  let n := chunks sectors iovlen in
  exists v',
    zbc_map_iov fuel buf sectors (Some v) iovcnt iovlen
    = Some (n, Some v') /\
    0 < n <= iovcnt /\ length v' = length v /\
    (forall j, 0 <= j < n ->
               v' !! Z.to_nat j
               = Some {| iov_base := buf + 512 * (j * iovlen);
                         iov_len := Z.min iovlen
                                          (sectors - j * iovlen) |}) /\
    (forall j, 0 <= j < n - 1 ->
               Z.min iovlen (sectors - j * iovlen) = iovlen) /\
    (forall j, (Z.to_nat n <= j)%nat -> v' !! j = v !! j).
Proof.
  intros Hbuf Hsec Hsmall Hcnt Hlen Hfit Harr Hfuel n.
  destruct (zbc_map_iov_mapped fuel buf sectors v iovcnt iovlen
              Hbuf Hsec Hsmall Hcnt Hlen Hfit Harr Hfuel)
    as (v' & E & Hn & Hl & Hat & Habove & _).
  fold n in E, Hn, Hat, Habove.
  exists v'. split; [exact E|]. split; [exact Hn|].
  split; [exact Hl|]. split; [exact Hat|]. split; [|exact Habove].
  intros j Hj.
  pose proof (u64_le (iovcnt * iovlen) ltac:(nia)) as Hprod.
  assert (Hlen' : 0 < iovlen) by nia.
  pose proof (Z.div_mod (sectors + iovlen - 1) iovlen ltac:(lia)) as Hdm.
  pose proof (Z.mod_pos_bound (sectors + iovlen - 1) iovlen Hlen') as Hr.
  fold (chunks sectors iovlen) in Hdm. fold n in Hdm.
  apply Z.min_l. nia.
Qed.

(** X11: [zbc_map_iov] turns down a null buffer, a buffer of no
    sector, a null array, an array of no entry or of a
    negative number of entries, and a buffer that
    [iovcnt] entries of [iovlen] sectors cannot hold (so every
    buffer when [iovlen] is 0): it returns -EINVAL and writes
    nothing to the array. *)
Theorem zbc_map_iov_rejects fuel buf sectors iov iovcnt iovlen :
  buf = 0 \/ sectors = 0 \/ iov = None \/ iovcnt <= 0
  \/ u64 (u64 iovcnt * iovlen) < sectors
  \/ (iovlen = 0 /\ 0 <= sectors) ->
  zbc_map_iov fuel buf sectors iov iovcnt iovlen
  = Some (- EINVAL, iov).
Proof.
  intros H. unfold zbc_map_iov.
  destruct iov as [v|]; [|reflexivity].
  destruct (Z.eqb_spec buf 0) as [|Hb]; [reflexivity|].
  destruct (Z.eqb_spec sectors 0) as [|Hs]; [reflexivity|].
  destruct (Z.leb_spec iovcnt 0) as [|Hc]; [reflexivity|].
  destruct (Z.gtb_spec sectors (u64 (u64 iovcnt * iovlen)))
    as [|Hf]; [reflexivity|].
  exfalso.
  destruct H as [H|[H|[H|[H|[H|[H1 H2]]]]]];
    try contradiction; try discriminate; try lia.
  subst iovlen. rewrite Z.mul_0_r in Hf. change (u64 0) with 0 in Hf.
  lia.
Qed.

(** X12: a buffer mapped by [zbc_map_iov] and handed over as a
    vector is transferred whole and in place: the entries
    taken count the sectors of the buffer, and the vector that
    [zbc_iov_convert] makes of them for the window of all
    these sectors is the buffer cut in consecutive pieces,
    piece [j] starting 512 * [j] * [iovlen] bytes into the
    buffer and ending where piece [j + 1] starts. *)
Theorem zbc_map_iov_transfer fuel buf sectors v iovcnt iovlen :
  buf <> 0 -> 0 < sectors -> 512 * sectors <= SSIZE_MAX ->
  0 < iovcnt < 2 ^ 31 -> 0 <= iovlen ->
  sectors <= u64 (iovcnt * iovlen) ->
  Z.of_nat (length v) = iovcnt ->
  (Z.to_nat iovcnt < fuel)%nat ->
  exists n v',
    zbc_map_iov fuel buf sectors (Some v) iovcnt iovlen
    = Some (n, Some v') /\
    zbc_iov_count v' n = sectors /\
    let out := zbc_iov_convert v' n 0 sectors in
    Z.of_nat (length out) = n /\
    iov_total out = 512 * sectors /\
    (forall j, 0 <= j < n ->
       exists o,
         out !! Z.to_nat j = Some o /\
         iov_base o = buf + 512 * (j * iovlen) /\
         (j < n - 1 -> iov_len o = 512 * iovlen) /\
         (j = n - 1 ->
          iov_base o + iov_len o = buf + 512 * sectors)).
Proof.
  intros Hbuf Hsec Hsmall Hcnt Hlen Hfit Harr Hfuel.
  destruct (zbc_map_iov_mapped fuel buf sectors v iovcnt iovlen
              Hbuf Hsec Hsmall Hcnt Hlen Hfit Harr Hfuel)
    as (v' & E & Hn & Hl & Hat & Habove & Htot).
  set (n := chunks sectors iovlen) in *.
  pose proof (u64_le (iovcnt * iovlen) ltac:(nia)) as Hprod.
  assert (Hlen' : 0 < iovlen) by nia.
  pose proof (Z.div_mod (sectors + iovlen - 1) iovlen ltac:(lia)) as Hdm.
  pose proof (Z.mod_pos_bound (sectors + iovlen - 1) iovlen Hlen') as Hr.
  fold (chunks sectors iovlen) in Hdm. fold n in Hdm.
  set (m := take (Z.to_nat n) v') in *.
  assert (Hml : length m = Z.to_nat n).
  { unfold m. rewrite length_take. lia. }
  assert (Hmat : forall j, 0 <= j < n ->
                   m !! Z.to_nat j = Some (chunk buf sectors iovlen j)).
  { intros j Hj. unfold m. rewrite lookup_take_lt by lia.
    apply Hat, Hj. }
  assert (Hmpos : Forall (fun e => 0 < iov_len e) m).
  { apply Forall_lookup_2. intros i e Hi.
    pose proof (lookup_lt_Some _ _ _ Hi) as Hlt.
    rewrite <- (Nat2Z.id i) in Hi.
    rewrite Hmat in Hi by lia. inversion Hi; subst e.
    unfold chunk. cbn [iov_len]. nia. }
  assert (Hmnn : Forall (fun e => 0 <= iov_len e) m).
  { eapply Forall_impl; [exact Hmpos|]. cbn. intros; lia. }
  exists n, v'. split; [exact E|].
  assert (Hcount : zbc_iov_count v' n = sectors).
  { unfold zbc_iov_count. fold m.
    pose proof (zbc_iov_count_total m Hmnn) as Hc.
    unfold zbc_iov_count in Hc.
    rewrite Nat2Z.id, take_ge in Hc by reflexivity.
    rewrite Hc; [exact Htot|]. unfold SSIZE_MAX in Hsmall. lia. }
  split; [exact Hcount|].
  assert (Hout : zbc_iov_convert v' n 0 sectors = map to_bytes m).
  { unfold zbc_iov_convert. fold m.
    unfold SSIZE_MAX in Hsmall.
    rewrite Z.shiftl_mul_pow2 by lia.
    rewrite (u64_small (sectors * 2 ^ 9)) by lia.
    change (u64 (Z.shiftl 0 9)) with 0.
    rewrite (zbc_iov_convert_loop_whole m (sectors * 2 ^ 9) 0 Hmnn);
      [|unfold SSIZE_MAX; lia | lia | lia].
    rewrite filter_all; [reflexivity|].
    eapply Forall_impl; [exact Hmpos|]. cbn. intros e He.
    unfold nonempty. destruct (Z.eqb_spec (iov_len e) 0); [lia|].
    reflexivity. }
  cbv zeta. rewrite Hout.
  split; [rewrite length_map; lia|].
  split.
  { clear -Htot. revert Htot. generalize sectors.
    induction m as [|e m IH]; intros s Hs.
    - cbn in *. lia.
    - cbn [map iov_total fold_right to_bytes iov_len] in *.
      fold (iov_total m) in Hs. fold (iov_total (map to_bytes m)).
      rewrite (IH (iov_total m)) by reflexivity. lia. }
  intros j Hj. exists (to_bytes (chunk buf sectors iovlen j)).
  split.
  { rewrite list_lookup_fmap, Hmat by lia. reflexivity. }
  unfold to_bytes, chunk. cbn [iov_base iov_len].
  split; [reflexivity|]. split.
  - intros Hj'. rewrite Z.min_l by nia. reflexivity.
  - intros ->. rewrite Z.min_r by nia. lia.
Qed.

(** *** The calls of a transfer, whatever the backend answers *)

(** The backend call that the splitter makes when [o] of the
    [count] sectors of a request are done and the next one is
    sector [s] of the device: it asks for what is left, and
    for no more than the device takes at once. *)
Definition next_call (iov : list iovec) (iovcnt count o s : Z)
           (c : io_call) : Prop :=
  io_iov_offset c = o /\
  io_iov_count c = Z.min (count - o) (zbd_max_rw_sectors (zbd_info dev))
  /\ io_sector c = s /\
  io_iov c = zbc_iov_convert iov iovcnt o (io_iov_count c).

(** The calls of a transfer of [count] sectors and its status:
    a call that the backend answers with a number of sectors
    is followed by a call for what comes after these sectors;
    a call that it answers with an error ends the transfer
    with that error, and one that it answers with 0 ends it
    with -EIO; the status is [count] when the calls have gone
    through the [count] sectors. *)
Inductive transfers (iov : list iovec) (iovcnt count : Z)
  : Z -> Z -> list io_call -> Z -> Prop :=
| transfers_done o s :
    count <= o -> transfers iov iovcnt count o s [] count
| transfers_failed o s c :
    o < count -> next_call iov iovcnt count o s c ->
    io_ret c <= 0 ->
    transfers iov iovcnt count o s [c]
              (if io_ret c =? 0 then - EIO else io_ret c)
| transfers_next o s c rest status :
    o < count -> next_call iov iovcnt count o s c ->
    0 < io_ret c ->
    transfers iov iovcnt count (o + io_ret c) (u64 (s + io_ret c))
              rest status ->
    transfers iov iovcnt count o s (c :: rest) status.

Lemma transfers_status iov iovcnt count o s calls status :
  transfers iov iovcnt count o s calls status ->
  status = count \/ status < 0.
Proof.
  induction 1 as [| o s c Ho Hc Hret |]; [left; reflexivity | | assumption].
  right. destruct (Z.eqb_spec (io_ret c) 0); [reflexivity | lia].
Qed.

(** A backend method answers within the range of [ssize_t]. *)
Definition backend_ssize_t
           (rw : W -> zbc_device -> list iovec -> Z -> W * Z) : Prop :=
  forall w v s, snd (rw w dev v s) <= SSIZE_MAX.

Lemma zbc_do_rw_loop_transfers rw iov iovcnt count fuel :
  backend_ssize_t rw -> count <= SSIZE_MAX ->
  forall w offset iov_offset,
    0 <= iov_offset ->
    (Z.to_nat (count - iov_offset) < fuel)%nat ->
    exists r,
      zbc_do_rw_loop rw fuel w iov iovcnt
                     (zbd_max_rw_sectors (zbd_info dev))
                     count offset iov_offset = Some r /\
      transfers iov iovcnt count iov_offset offset
                (io_calls r) (io_status r) /\
      Forall (call_answered rw) (io_calls r).
Proof.
  intros Hrw Hcount. unfold SSIZE_MAX in Hcount.
  induction fuel as [|fuel IH];
    intros w offset iov_offset Hio Hfuel; [lia|].
  cbn [zbc_do_rw_loop].
  destruct (Z.ltb_spec iov_offset count) as [Hlt|Hge].
  2:{ eexists. split; [reflexivity|]. cbn.
      split; [constructor; lia | constructor]. }
  rewrite (u64_small (count - iov_offset)) by lia.
  set (iov_count :=
         if count - iov_offset >? zbd_max_rw_sectors (zbd_info dev)
         then zbd_max_rw_sectors (zbd_info dev)
         else count - iov_offset).
  assert (Hic : iov_count
                = Z.min (count - iov_offset)
                        (zbd_max_rw_sectors (zbd_info dev))).
  { unfold iov_count.
    destruct (Z.gtb_spec (count - iov_offset)
                         (zbd_max_rw_sectors (zbd_info dev))); lia. }
  set (v := zbc_iov_convert iov iovcnt iov_offset iov_count).
  pose proof (Hrw w v offset) as Hret.
  destruct (rw w dev v offset) as [w1 ret] eqn:Ecall.
  cbn [snd] in Hret. unfold SSIZE_MAX in Hret.
  set (call := {| io_iov_offset := iov_offset;
                  io_iov_count := iov_count; io_iov := v;
                  io_sector := offset; io_ret := ret |}).
  assert (Hnext : next_call iov iovcnt count iov_offset offset call).
  { unfold next_call. cbn. rewrite <- Hic. repeat split. }
  assert (Hans : call_answered rw call).
  { exists w. cbn. rewrite Ecall. reflexivity. }
  destruct (Z.leb_spec ret 0) as [Hfail|Hok].
  - eexists. split; [reflexivity|]. cbn [io_calls io_status].
    split; [|repeat constructor; exact Hans].
    apply (transfers_failed iov iovcnt count iov_offset offset call);
      assumption.
  - rewrite (u64_small (iov_offset + ret)) by lia.
    destruct (IH w1 (u64 (offset + ret)) (iov_offset + ret))
      as (r & Er & Ht & Ha); [lia | lia |].
    rewrite Er. eexists. split; [reflexivity|]. cbn.
    split; [|constructor; assumption].
    apply (transfers_next iov iovcnt count iov_offset offset call);
      assumption.
Qed.

(** The sectors that a request of [total] sectors at
    [offset] is for: all of them in test mode, and those
    before the capacity otherwise. *)
Definition request_count (total offset : Z) : Z :=
  if zbc_test_mode dev then total
  else Z.min total (zbd_sectors (zbd_info dev) - offset).

(** What holds of a transfer of [count] sectors at [offset]
    that returned. *)
Definition transfer_outcome
           (rw : W -> zbc_device -> list iovec -> Z -> W * Z)
           (iov : list iovec) (count offset : Z) (r : io_result)
  : Prop :=
  transfers iov (Z.of_nat (length iov)) count 0 offset
            (io_calls r) (io_status r) /\
  (io_status r = count \/ io_status r < 0) /\
  Forall (call_answered rw) (io_calls r).

Lemma zbc_do_rw_outcome aligned rw fuel w iov offset :
  Forall (fun e => 0 <= iov_len e) iov ->
  0 < iov_total iov -> 512 * iov_total iov <= SSIZE_MAX ->
  0 <= offset -> offset + iov_total iov < 2 ^ 64 ->
  (zbc_test_mode dev = false ->
   aligned dev (iov_total iov) = true /\ aligned dev offset = true /\
   offset < zbd_sectors (zbd_info dev)) ->
  backend_ssize_t rw ->
  (Z.to_nat (iov_total iov) < fuel)%nat ->
  exists r,
    zbc_do_rw aligned rw fuel w iov (Z.of_nat (length iov)) offset
    = Some r /\
    transfer_outcome rw iov (request_count (iov_total iov) offset)
                     offset r.
Proof.
  intros Hpos Hne Htot Hoff Hwrap Hmode Hrw Hfuel.
  unfold zbc_do_rw, request_count, transfer_outcome.
  unfold SSIZE_MAX in Htot.
  rewrite zbc_iov_count_total by (assumption || lia).
  rewrite Z.shiftl_mul_pow2 by lia.
  rewrite (u64_small (iov_total iov * 2 ^ 9)) by lia.
  destruct (Z.gtb_spec (iov_total iov * 2 ^ 9) SSIZE_MAX) as [Hbig|_];
    [unfold SSIZE_MAX in Hbig; lia|].
  destruct (zbc_test_mode dev) eqn:Htest.
  - destruct (Z.eqb_spec (iov_total iov) 0) as [|_]; [lia|].
    cbn [andb].
    destruct (zbc_do_rw_loop_transfers
                rw iov (Z.of_nat (length iov)) (iov_total iov) fuel
                Hrw ltac:(unfold SSIZE_MAX; lia) w offset 0
                ltac:(lia) ltac:(lia))
      as (r & Er & Ht & Ha).
    exists r. split; [exact Er|]. split; [exact Ht|].
    split; [|exact Ha]. eapply transfers_status, Ht.
  - destruct (Hmode eq_refl) as (Ha1 & Ha2 & Hcap).
    rewrite Ha1, Ha2. cbn [negb orb andb].
    rewrite (u64_small (offset + iov_total iov)) by lia.
    set (count1 := if offset + iov_total iov
                      >? zbd_sectors (zbd_info dev)
                   then u64 (zbd_sectors (zbd_info dev) - offset)
                   else iov_total iov).
    assert (Hc1 : count1 = Z.min (iov_total iov)
                                 (zbd_sectors (zbd_info dev) - offset)).
    { unfold count1.
      destruct (Z.gtb_spec (offset + iov_total iov)
                           (zbd_sectors (zbd_info dev))).
      - rewrite u64_small by lia. lia.
      - lia. }
    rewrite <- Hc1.
    destruct (Z.eqb_spec count1 0) as [|_]; [lia|].
    destruct (Z.geb_spec offset (zbd_sectors (zbd_info dev)))
      as [|_]; [lia|].
    cbn [orb].
    destruct (zbc_do_rw_loop_transfers
                rw iov (Z.of_nat (length iov)) count1 fuel
                Hrw ltac:(unfold SSIZE_MAX; lia) w offset 0
                ltac:(lia) ltac:(lia))
      as (r & Er & Ht & Ha).
    exists r. split; [exact Er|]. split; [exact Ht|].
    split; [|exact Ha]. eapply transfers_status, Ht.
Qed.

(** X13: a read or write of at least one sector that passes
    the tests made before the transfer (none but the size
    test in test mode; alignment and a start before the
    capacity otherwise) returns, whatever the backend
    answers.  It calls the backend for what is left of the
    request (all of it in test mode, the part before the
    capacity otherwise), at most [zbd_max_rw_sectors] at a
    time, each call starting after the sectors that the call
    before transferred.  A call answered with an error ends
    the transfer with that error, a call answered with 0 ends
    it with -EIO, and otherwise the status is the number of
    sectors of the request: never a smaller number of
    sectors. *)
Theorem zbc_rw_all_or_error fuel w iov offset :
  Forall (fun e => 0 <= iov_len e) iov ->
  0 < iov_total iov -> 512 * iov_total iov <= SSIZE_MAX ->
  0 <= offset -> offset + iov_total iov < 2 ^ 64 ->
  (Z.to_nat (iov_total iov) < fuel)%nat ->
  let count := request_count (iov_total iov) offset in
  ((zbc_test_mode dev = false ->
    zbc_dev_sect_laligned dev (iov_total iov) = true /\
    zbc_dev_sect_laligned dev offset = true /\
    offset < zbd_sectors (zbd_info dev)) ->
   backend_ssize_t (zbd_preadv ops) ->
   exists r,
     zbc_do_preadv fuel w iov (Z.of_nat (length iov)) offset = Some r /\
     transfer_outcome (zbd_preadv ops) iov count offset r) /\
  ((zbc_test_mode dev = false ->
    zbc_dev_sect_paligned dev (iov_total iov) = true /\
    zbc_dev_sect_paligned dev offset = true /\
    offset < zbd_sectors (zbd_info dev)) ->
   backend_ssize_t (zbd_pwritev ops) ->
   exists r,
     zbc_do_pwritev fuel w iov (Z.of_nat (length iov)) offset = Some r /\
     transfer_outcome (zbd_pwritev ops) iov count offset r).
Proof.
  intros Hpos Hne Htot Hoff Hwrap Hfuel count.
  split; intros Hmode Hrw; apply zbc_do_rw_outcome; assumption.
Qed.

Lemma zbc_do_rw_empty aligned rw fuel w iov iovcnt offset :
  zbc_iov_count iov iovcnt = 0 -> 0 <= offset < 2 ^ 64 ->
  zbc_do_rw aligned rw fuel w iov iovcnt offset
  = Some {| io_world := w;
            io_status :=
              if zbc_test_mode dev || negb (aligned dev 0)
                 || negb (aligned dev offset)
              then - EINVAL else 0;
            io_calls := [] |}.
Proof.
  intros Hz Hoff. unfold zbc_do_rw. rewrite Hz.
  change (u64 (Z.shiftl 0 9) >? SSIZE_MAX) with false. cbv iota.
  destruct (zbc_test_mode dev); [reflexivity|].
  cbn [orb Z.eqb].
  destruct (aligned dev 0); [|reflexivity].
  destruct (aligned dev offset); [|reflexivity].
  cbn [negb orb]. rewrite Z.add_0_r, (u64_small offset) by lia.
  destruct (Z.gtb_spec offset (zbd_sectors (zbd_info dev))).
  - destruct (Z.geb_spec offset (zbd_sectors (zbd_info dev)));
      [|lia].
    rewrite orb_true_r. reflexivity.
  - reflexivity.
Qed.

(** X14: a read or write of no sector never reaches the
    backend: in test mode it is turned down with -EINVAL; off
    test mode it returns 0 when 0 and the start sector pass
    the alignment test (logical block for a read, physical
    block for a write) and -EINVAL when they do not.  So the
    backend call that the source keeps for a request of no
    sector in test mode is never made. *)
Theorem zbc_rw_empty_request fuel w iov iovcnt offset :
  zbc_iov_count iov iovcnt = 0 -> 0 <= offset < 2 ^ 64 ->
  zbc_do_preadv fuel w iov iovcnt offset
  = Some {| io_world := w;
            io_status :=
              if zbc_test_mode dev
                 || negb (zbc_dev_sect_laligned dev 0)
                 || negb (zbc_dev_sect_laligned dev offset)
              then - EINVAL else 0;
            io_calls := [] |} /\
  zbc_do_pwritev fuel w iov iovcnt offset
  = Some {| io_world := w;
            io_status :=
              if zbc_test_mode dev
                 || negb (zbc_dev_sect_paligned dev 0)
                 || negb (zbc_dev_sect_paligned dev offset)
              then - EINVAL else 0;
            io_calls := [] |}.
Proof.
  intros Hz Hoff. split; apply zbc_do_rw_empty; assumption.
Qed.

(** *** The array that [zbc_report_zones] hands back *)

(** X15: a report into an array for [nr_zones] zones, from a
    backend that fills what it is given, never reports more
    than [nr_zones] zones; when it succeeds, the array holds
    the descriptors that the backend stored round after
    round, in that order, the number reported is their
    number, and the entries of the array after them are as
    they were. *)
Theorem zbc_report_zones_gathers fuel w sector ro zs nr_zones :
  backend_fills_array ->
  0 <= nr_zones < 2 ^ 32 ->
  (Z.to_nat nr_zones <= length zs)%nat ->
  (Z.to_nat nr_zones < fuel)%nat ->
  exists r,
    zbc_report_zones fuel w sector ro (Some zs) nr_zones = Some r /\
    rz_nr_zones r <= nr_zones /\
    (rz_ret r = 0 ->
     let got := gathered (rz_rounds r) in
     rz_nr_zones r = Z.of_nat (length got) /\
     rz_zones r = Some (got ++ drop (length got) zs) /\
     exists zs', rz_zones r = Some zs' /\ length zs' = length zs).
Proof.
  intros Hfill Hnr Hlen Hfuel.
  destruct (zbc_report_zones_gathered fuel w sector ro zs nr_zones
              Hfill Hnr Hlen Hfuel) as (r & Er & Hb & Hr).
  exists r. split; [exact Er|]. split; [exact Hb|].
  intros Hok. destruct (Hr Hok) as [Hc Ha]. cbv zeta.
  rewrite Hc, Nat2Z.id in Ha.
  split; [exact Hc|]. split; [exact Ha|].
  eexists. split; [exact Ha|].
  rewrite length_app, length_drop. lia.
Qed.

(** *** What [zbc_list_zones] hands back *)

(** X16: with a backend that fills what it is given,
    [zbc_list_zones] returns, and it stores [*pzones] and
    [*pnr_zones] when it returns 0 and at no other time.  A
    count query that fails ends it with the error of the
    query, before any allocation; a count of no zone makes it
    store a null array and 0 with no allocation and no report;
    a failed allocation gives -ENOMEM.  An array that it
    stores has as many entries as the count query counted, and
    the number of zones stored with it is no larger. *)
Theorem zbc_list_zones_outcome fuel w sector ro :
  backend_fills_array ->
  (forall c, zbc_report_nr_zones w sector (zbc_ro_mask ro) = Some c ->
             (Z.to_nat (rz_nr_zones c) < fuel)%nat) ->
  exists r,
    zbc_list_zones fuel w sector ro = Some r /\
    zbc_report_nr_zones w sector (zbc_ro_mask ro) = Some (lz_count r) /\
    (lz_out r <> None <-> lz_ret r = 0) /\
    (rz_ret (lz_count r) < 0 ->
     lz_ret r = rz_ret (lz_count r) /\ lz_report r = None /\
     lz_world r = rz_world (lz_count r)) /\
    (0 <= rz_ret (lz_count r) -> rz_nr_zones (lz_count r) = 0 ->
     lz_ret r = 0 /\ lz_out r = Some (None, 0) /\ lz_report r = None /\
     lz_world r = rz_world (lz_count r)) /\
    (0 <= rz_ret (lz_count r) -> rz_nr_zones (lz_count r) <> 0 ->
     snd (calloc (rz_world (lz_count r)) (rz_nr_zones (lz_count r)))
     = false ->
     lz_ret r = - ENOMEM /\ lz_report r = None) /\
    (forall zones n,
        lz_out r = Some (Some zones, n) ->
        Z.of_nat (length zones) = rz_nr_zones (lz_count r) /\
        0 <= n <= rz_nr_zones (lz_count r)).
Proof.
  intros Hfill Hfuel. unfold zbc_list_zones.
  destruct (zbc_report_nr_zones w sector (zbc_ro_mask ro)) as [c|] eqn:Ec.
  2:{ unfold zbc_report_nr_zones, zbc_report_zones in Ec.
      destruct (negb (zbc_test_mode dev) && _); [discriminate|].
      destruct (zbd_report_zones ops w dev sector _ false 0);
        discriminate. }
  specialize (Hfuel c eq_refl).
  assert (Hrange : 0 <= rz_nr_zones c < 2 ^ 32).
  { unfold zbc_report_nr_zones, zbc_report_zones in Ec.
    destruct (negb (zbc_test_mode dev) && _).
    - inversion Ec; subst c. cbn. lia.
    - destruct (zbd_report_zones ops w dev sector _ false 0).
      inversion Ec; subst c. cbn. apply u32_range. }
  destruct (Z.ltb_spec (rz_ret c) 0) as [Hneg|Hnn].
  { eexists. split; [reflexivity|].
    cbn [lz_world lz_ret lz_out lz_count lz_report].
    split; [reflexivity|].
    split; [split; [intros H; contradiction | lia]|].
    split; [intros _; repeat split|].
    split; [intros; lia|].
    split; [intros; lia|].
    intros zones n H. discriminate H. }
  destruct (Z.eqb_spec (rz_nr_zones c) 0) as [Hz|Hnz].
  { eexists. split; [reflexivity|].
    cbn [lz_world lz_ret lz_out lz_count lz_report].
    split; [reflexivity|].
    split; [split; [reflexivity | discriminate]|].
    split; [intros; lia|].
    split; [intros _ _; rewrite Hz; repeat split|].
    split; [intros; contradiction|].
    intros zones n H. discriminate H. }
  destruct (calloc (rz_world c) (rz_nr_zones c)) as [w1 ok] eqn:Ecal.
  cbn [snd]. destruct ok.
  2:{ eexists. split; [reflexivity|].
      cbn [lz_world lz_ret lz_out lz_count lz_report].
      split; [reflexivity|].
      split; [split; [intros H; contradiction | unfold ENOMEM; lia]|].
      split; [intros; lia|].
      split; [intros; contradiction|].
      split; [intros; split; reflexivity|].
      intros zones n H. discriminate H. }
  destruct (zbc_report_zones_gathered
              fuel w1 sector (zbc_ro_mask ro)
              (replicate (Z.to_nat (rz_nr_zones c)) zero_zone)
              (rz_nr_zones c) Hfill Hrange
              ltac:(rewrite length_replicate; lia) Hfuel)
    as (r & Er & Hb & Hr).
  rewrite Er.
  destruct (Z.eqb_spec (rz_ret r) 0) as [Hok|Herr].
  - eexists. split; [reflexivity|].
    cbn [lz_world lz_ret lz_out lz_count lz_report].
    split; [reflexivity|].
    split; [split; [reflexivity | discriminate]|].
    split; [intros; lia|].
    split; [intros; contradiction|].
    split; [intros ? ? H; rewrite Ecal in H; discriminate H|].
    intros zones n H. inversion H as [[Hzones Hn]].
    destruct (Hr Hok) as [Hc Ha].
    rewrite Ha in Hzones. inversion Hzones as [Hz'].
    rewrite length_app, length_drop, length_replicate. lia.
  - eexists. split; [reflexivity|].
    cbn [lz_world lz_ret lz_out lz_count lz_report].
    split; [reflexivity|].
    split; [split; [intros H; contradiction
                   | intros; contradiction]|].
    split; [intros; lia|].
    split; [intros; contradiction|].
    split; [intros ? ? H; rewrite Ecal in H; discriminate H|].
    intros zones n H. discriminate H.
Qed.

(** *** Operations handed to the driver *)

(** X17: off test mode [zbc_zone_operation] turns down with
    -EINVAL, without calling the driver, a sector that is not
    on a logical block, unless the flags have
    [ZBC_OP_ALL_ZONES]; in test mode, with that flag, or
    with an aligned sector, the driver's [zbd_zone_op] gets
    the sector, the operation and the flags as they are, and
    its status is returned. *)
Theorem zbc_zone_operation_checks w sector op flags :
  (zbc_test_mode dev = false ->
   Z.land flags ZBC_OP_ALL_ZONES = 0 ->
   zbc_dev_sect_laligned dev sector = false ->
   zbc_zone_operation w sector op flags
   = {| or_world := w; or_ret := - EINVAL; or_call := None |}) /\
  (zbc_test_mode dev = true \/ Z.land flags ZBC_OP_ALL_ZONES <> 0
   \/ zbc_dev_sect_laligned dev sector = true ->
   zbc_zone_operation w sector op flags
   = {| or_world := fst (zbd_zone_op methods w dev sector op flags);
        or_ret := snd (zbd_zone_op methods w dev sector op flags);
        or_call := Some [sector; op; flags] |}).
Proof.
  unfold zbc_zone_operation. split.
  - intros -> -> ->. reflexivity.
  - intros H.
    assert (E : negb (zbc_test_mode dev)
                && (Z.land flags ZBC_OP_ALL_ZONES =? 0)
                && negb (zbc_dev_sect_laligned dev sector) = false).
    { destruct H as [->|[H| ->]].
      - reflexivity.
      - destruct (Z.eqb_spec (Z.land flags ZBC_OP_ALL_ZONES) 0);
          [contradiction|].
        rewrite andb_false_r. reflexivity.
      - rewrite andb_false_r. reflexivity. }
    rewrite E.
    destruct (zbd_zone_op methods w dev sector op flags).
    reflexivity.
Qed.

(** X18: [zbc_set_zones] and [zbc_set_write_pointer] return
    -ENXIO for a driver that has no such method, whatever the
    arguments; for a driver that has it they test both
    arguments on the physical block, in test mode too, and
    return -EINVAL without calling the driver when one is not
    aligned.  Neither returns -EINVAL for a driver without
    the method. *)
Theorem zbc_set_unsupported_or_unaligned w a b :
  (zbd_set_zones methods = None ->
   zbc_set_zones w a b
   = {| or_world := w; or_ret := - ENXIO; or_call := None |}) /\
  (zbd_set_wp methods = None ->
   zbc_set_write_pointer w a b
   = {| or_world := w; or_ret := - ENXIO; or_call := None |}) /\
  (zbc_dev_sect_paligned dev a = false
   \/ zbc_dev_sect_paligned dev b = false ->
   (zbd_set_zones methods <> None ->
    zbc_set_zones w a b
    = {| or_world := w; or_ret := - EINVAL; or_call := None |}) /\
   (zbd_set_wp methods <> None ->
    zbc_set_write_pointer w a b
    = {| or_world := w; or_ret := - EINVAL; or_call := None |})) /\
  (zbc_dev_sect_paligned dev a = true ->
   zbc_dev_sect_paligned dev b = true ->
   (forall m, zbd_set_zones methods = Some m ->
              or_ret (zbc_set_zones w a b) = snd (m w dev a b) /\
              or_call (zbc_set_zones w a b) = Some [a; b]) /\
   (forall m, zbd_set_wp methods = Some m ->
              or_ret (zbc_set_write_pointer w a b) = snd (m w dev a b) /\
              or_call (zbc_set_write_pointer w a b) = Some [a; b])).
Proof.
  unfold zbc_set_zones, zbc_set_write_pointer, zbc_set.
  split; [intros ->; reflexivity|].
  split; [intros ->; reflexivity|].
  split.
  - intros H.
    assert (E : negb (zbc_dev_sect_paligned dev a)
                || negb (zbc_dev_sect_paligned dev b) = true).
    { destruct H as [-> | ->]; [reflexivity|].
      apply orb_true_r. }
    rewrite E.
    split; intros Hm.
    + destruct (zbd_set_zones methods); [reflexivity|contradiction].
    + destruct (zbd_set_wp methods); [reflexivity|contradiction].
  - intros -> ->. cbn [negb orb].
    split; intros m ->; destruct (m w dev a b); split; reflexivity.
Qed.
(** *** The bytes of a transfer *)

(** The addresses of the bytes of a vector whose lengths are
    in bytes, in the order in which a transfer goes through
    them. *)
Definition iov_addresses (v : list iovec) : list Z :=
  concat (map (fun e => seqZ (iov_base e) (iov_len e)) v).

(** The bytes of a caller's vector, whose lengths are in
    sectors. *)
Definition request_bytes (iov : list iovec) : list Z :=
  iov_addresses (map to_bytes iov).

(** [n] sectors of a list of bytes from sector [o] on. *)
Definition sectors_at (bytes : list Z) (o n : Z) : list Z :=
  take (Z.to_nat (512 * n)) (drop (Z.to_nat (512 * o)) bytes).

Lemma take_seqZ b len n :
  0 <= n <= len -> take (Z.to_nat n) (seqZ b len) = seqZ b n.
Proof.
  intros H. replace len with (n + (len - n)) by lia.
  rewrite seqZ_app by lia.
  apply take_app_length'. rewrite length_seqZ. reflexivity.
Qed.

Lemma drop_seqZ b len n :
  0 <= n <= len ->
  drop (Z.to_nat n) (seqZ b len) = seqZ (b + n) (len - n).
Proof.
  intros H. replace len with (n + (len - n)) at 1 by lia.
  rewrite seqZ_app by lia.
  apply drop_app_length'. rewrite length_seqZ. reflexivity.
Qed.

Lemma take_take_drop {A} (l : list A) (a b : nat) :
  take a l ++ take b (drop a l) = take (a + b) l.
Proof.
  revert l. induction a as [|a IH]; intros l; [reflexivity|].
  destruct l as [|x l]; cbn.
  - rewrite take_nil. reflexivity.
  - f_equal. apply IH.
Qed.

Lemma zbc_iov_convert_loop_done iov size offset :
  zbc_iov_convert_loop iov size offset size = [].
Proof.
  destruct iov; cbn [zbc_iov_convert_loop]; [reflexivity|].
  rewrite Z.ltb_irrefl. reflexivity.
Qed.

Lemma zbc_iov_convert_loop_addresses iov :
  forall size offset count,
    Forall (fun e => 0 <= iov_len e) iov ->
    512 * iov_total iov <= SSIZE_MAX -> size <= SSIZE_MAX ->
    0 <= offset < 2 ^ 64 -> 0 <= count <= size ->
    iov_addresses (zbc_iov_convert_loop iov size offset count)
    = take (Z.to_nat (size - count))
           (drop (Z.to_nat offset) (request_bytes iov)).
Proof.
  unfold SSIZE_MAX, request_bytes.
  induction iov as [|e rest IH];
    intros size offset count Hpos Htot Hsize Hoff Hcount.
  - cbn. rewrite drop_nil, take_nil. reflexivity.
  - inversion Hpos as [|? ? He Hrest]; subst.
    pose proof (iov_total_nonneg rest Hrest) as Hn.
    cbn [iov_total fold_right] in Htot.
    fold (iov_total rest) in Htot.
    cbn [zbc_iov_convert_loop].
    cbn [map iov_addresses concat to_bytes iov_base iov_len].
    fold (iov_addresses (map to_bytes rest)).
    destruct (Z.ltb_spec count size) as [Hlt|Hge].
    2:{ replace (size - count) with 0 by lia. reflexivity. }
    rewrite Z.shiftl_mul_pow2 by lia.
    rewrite (u64_small (iov_len e * 2 ^ 9)) by lia.
    replace (iov_len e * 2 ^ 9) with (512 * iov_len e) by lia.
    destruct (Z.geb_spec offset (512 * iov_len e)) as [Hskip|Hin].
    + rewrite (u64_small (offset - 512 * iov_len e)) by lia.
      rewrite IH by (assumption || lia).
      rewrite drop_app_ge by (rewrite length_seqZ; lia).
      rewrite length_seqZ.
      replace (Z.to_nat offset - Z.to_nat (512 * iov_len e))%nat
        with (Z.to_nat (offset - 512 * iov_len e)) by lia.
      reflexivity.
    + rewrite (u64_small (512 * iov_len e - offset)) by lia.
      rewrite (u64_small (count + (512 * iov_len e - offset)))
        by lia.
      rewrite drop_app_le by (rewrite length_seqZ; lia).
      rewrite drop_seqZ by lia.
      destruct (Z.gtb_spec (count + (512 * iov_len e - offset)) size)
        as [Hcut|Hfit].
      * rewrite (u64_small (size - count)) by lia.
        rewrite (u64_small (count + (size - count))) by lia.
        replace (count + (size - count)) with size by lia.
        rewrite zbc_iov_convert_loop_done.
        cbn [map iov_addresses concat iov_base iov_len].
        rewrite app_nil_r.
        rewrite take_app_le by (rewrite length_seqZ; lia).
        rewrite take_seqZ by lia. reflexivity.
      * rewrite (u64_small (count + (512 * iov_len e - offset)))
          by lia.
        cbn [map iov_addresses concat iov_base iov_len].
        fold (iov_addresses
                (zbc_iov_convert_loop
                   rest size 0
                   (count + (512 * iov_len e - offset)))).
        rewrite IH by (assumption || lia).
        rewrite take_app_ge by (rewrite length_seqZ; lia).
        rewrite length_seqZ. cbn [Z.to_nat drop].
        f_equal. f_equal. lia.
Qed.

Lemma zbc_iov_convert_addressed iov sector_offset sectors :
  Forall (fun e => 0 <= iov_len e) iov ->
  512 * iov_total iov <= SSIZE_MAX ->
  0 <= sector_offset -> 512 * sector_offset < 2 ^ 64 ->
  0 <= sectors -> 512 * sectors <= SSIZE_MAX ->
  iov_addresses (zbc_iov_convert iov (Z.of_nat (length iov))
                                 sector_offset sectors)
  = sectors_at (request_bytes iov) sector_offset sectors.
Proof.
  intros Hpos Htot Hoff Hoff' Hsec Hsec'.
  unfold zbc_iov_convert, sectors_at.
  rewrite Nat2Z.id. rewrite take_ge by reflexivity.
  unfold SSIZE_MAX in *.
  rewrite !Z.shiftl_mul_pow2 by lia.
  rewrite (u64_small (sectors * 2 ^ 9)) by lia.
  rewrite (u64_small (sector_offset * 2 ^ 9)) by lia.
  rewrite zbc_iov_convert_loop_addresses;
    (assumption || unfold SSIZE_MAX; try lia).
  f_equal; [lia|]. f_equal. lia.
Qed.

(** X21: the vector that [zbc_iov_convert] makes for a window
    of [sectors] sectors that starts [sector_offset] sectors
    into the caller's vector goes through exactly the bytes of
    that window, in the caller's order: the bytes of the
    caller's buffers laid end to end, less the first 512 *
    [sector_offset], cut after 512 * [sectors]. *)
Theorem zbc_iov_convert_addresses iov sector_offset sectors :
  Forall (fun e => 0 <= iov_len e) iov ->
  512 * iov_total iov <= SSIZE_MAX ->
  0 <= sector_offset -> 512 * sector_offset < 2 ^ 64 ->
  0 <= sectors -> 512 * sectors <= SSIZE_MAX ->
  iov_addresses (zbc_iov_convert iov (Z.of_nat (length iov))
                                 sector_offset sectors)
  = take (Z.to_nat (512 * sectors))
         (drop (Z.to_nat (512 * sector_offset))
               (concat (map (fun e => seqZ (iov_base e)
                                           (512 * iov_len e)) iov))).
Proof.
  intros Hpos Htot Hoff Hoff' Hsec Hsec'.
  rewrite zbc_iov_convert_addressed by assumption.
  unfold sectors_at, request_bytes, iov_addresses.
  rewrite map_map. reflexivity.
Qed.

Lemma request_bytes_length iov :
  Forall (fun e => 0 <= iov_len e) iov ->
  length (request_bytes iov) = Z.to_nat (512 * iov_total iov).
Proof.
  unfold request_bytes.
  induction 1 as [|e rest He Hrest IH]; [reflexivity|].
  pose proof (iov_total_nonneg rest Hrest) as Hn.
  cbn [map iov_addresses concat to_bytes iov_base iov_len].
  fold (iov_addresses (map to_bytes rest)).
  rewrite length_app, length_seqZ, IH.
  cbn [iov_total fold_right]. fold (iov_total rest). lia.
Qed.

(** A backend call is in place: it is for the sector of the
    device that lies as far from [offset] as the call is into
    the request, and its vector goes through the bytes that
    the caller's vector has for the sectors of the call. *)
Definition call_in_place (iov : list iovec) (offset : Z) (c : io_call)
  : Prop :=
  io_sector c = offset + io_iov_offset c /\
  iov_addresses (io_iov c)
  = sectors_at (request_bytes iov) (io_iov_offset c) (io_iov_count c).

Lemma transfers_in_place iov count offset o s calls status :
  transfers iov (Z.of_nat (length iov)) count o s calls status ->
  Forall (fun e => 0 <= iov_len e) iov ->
  512 * iov_total iov <= SSIZE_MAX -> count <= iov_total iov ->
  0 <= zbd_max_rw_sectors (zbd_info dev) ->
  0 <= offset -> offset + count < 2 ^ 64 -> 0 <= o ->
  (o < count -> s = offset + o) ->
  Forall (call_in_place iov offset) calls.
Proof.
  intros Ht Hpos Htot Hcount Hmax Hoff Hwrap.
  unfold SSIZE_MAX in Htot.
  assert (Hplace : forall o' s' c,
             0 <= o' -> o' < count -> s' = offset + o' ->
             next_call iov (Z.of_nat (length iov)) count o' s' c ->
             call_in_place iov offset c).
  { intros o' s' c Ho Hlt Hs (E1 & E2 & E3 & E4).
    unfold call_in_place. rewrite E3, E1. split; [exact Hs|].
    rewrite E4. apply zbc_iov_convert_addressed;
      try assumption; unfold SSIZE_MAX; rewrite ?E2; lia. }
  induction Ht as [o s Hdone|o s c Ho Hc Hret
                   |o s c rest status Ho Hc Hret Ht IH];
    intros Ho0 Hs.
  - constructor.
  - constructor; [|constructor].
    apply (Hplace o s c); auto.
  - constructor.
    + apply (Hplace o s c); auto.
    + apply IH; [lia|]. intros Hlt.
      rewrite (Hs Ho), u64_small by lia. lia.
Qed.

Lemma request_count_le total offset :
  0 <= offset -> request_count total offset <= total.
Proof.
  intros H. unfold request_count.
  destruct (zbc_test_mode dev); lia.
Qed.

Lemma zbc_do_rw_in_place aligned rw fuel w iov offset :
  Forall (fun e => 0 <= iov_len e) iov ->
  0 < iov_total iov -> 512 * iov_total iov <= SSIZE_MAX ->
  0 <= offset -> offset + iov_total iov < 2 ^ 64 ->
  0 <= zbd_max_rw_sectors (zbd_info dev) ->
  (zbc_test_mode dev = false ->
   aligned dev (iov_total iov) = true /\ aligned dev offset = true /\
   offset < zbd_sectors (zbd_info dev)) ->
  backend_ssize_t rw ->
  (Z.to_nat (iov_total iov) < fuel)%nat ->
  exists r,
    zbc_do_rw aligned rw fuel w iov (Z.of_nat (length iov)) offset
    = Some r /\
    Forall (call_in_place iov offset) (io_calls r).
Proof.
  intros Hpos Hne Htot Hoff Hwrap Hmax Hmode Hrw Hfuel.
  destruct (zbc_do_rw_outcome aligned rw fuel w iov offset
              Hpos Hne Htot Hoff Hwrap Hmode Hrw Hfuel)
    as (r & Er & Ht & _).
  exists r. split; [exact Er|].
  pose proof (request_count_le (iov_total iov) offset Hoff) as Hle.
  eapply transfers_in_place; try exact Ht; try assumption; lia.
Qed.

(** X22: in a read or write that passes the tests made before
    the transfer, every call of the backend is in place,
    whatever the backend answered to the calls before it,
    short transfers included: the call that starts [k]
    sectors into the request is for sector [offset] + [k] of
    the device, and the vector it hands over goes through the
    bytes that the caller's buffers hold for the sectors of
    the call, from byte 512 * [k] of the buffers laid end to
    end. *)
Theorem zbc_rw_calls_in_place fuel w iov offset :
  Forall (fun e => 0 <= iov_len e) iov ->
  0 < iov_total iov -> 512 * iov_total iov <= SSIZE_MAX ->
  0 <= offset -> offset + iov_total iov < 2 ^ 64 ->
  0 <= zbd_max_rw_sectors (zbd_info dev) ->
  (Z.to_nat (iov_total iov) < fuel)%nat ->
  ((zbc_test_mode dev = false ->
    zbc_dev_sect_laligned dev (iov_total iov) = true /\
    zbc_dev_sect_laligned dev offset = true /\
    offset < zbd_sectors (zbd_info dev)) ->
   backend_ssize_t (zbd_preadv ops) ->
   exists r,
     zbc_do_preadv fuel w iov (Z.of_nat (length iov)) offset = Some r /\
     Forall (call_in_place iov offset) (io_calls r)) /\
  ((zbc_test_mode dev = false ->
    zbc_dev_sect_paligned dev (iov_total iov) = true /\
    zbc_dev_sect_paligned dev offset = true /\
    offset < zbd_sectors (zbd_info dev)) ->
   backend_ssize_t (zbd_pwritev ops) ->
   exists r,
     zbc_do_pwritev fuel w iov (Z.of_nat (length iov)) offset = Some r /\
     Forall (call_in_place iov offset) (io_calls r)).
Proof.
  intros Hpos Hne Htot Hoff Hwrap Hmax Hfuel.
  split; intros Hmode Hrw; apply zbc_do_rw_in_place; assumption.
Qed.

(** A backend method that transfers all of the vector it is
    given. *)
Definition backend_exact
           (rw : W -> zbc_device -> list iovec -> Z -> W * Z) : Prop :=
  forall w v s,
    iov_total v <= SSIZE_MAX -> snd (rw w dev v s) = iov_total v / 512.

(** The bytes that the calls of a transfer hand over, one call
    after the other. *)
Definition bytes_handed_over (calls : list io_call) : list Z :=
  concat (map (fun c => iov_addresses (io_iov c)) calls).

Lemma sectors_at_app bytes o a b :
  0 <= o -> 0 <= a -> 0 <= b ->
  sectors_at bytes o a ++ sectors_at bytes (o + a) b
  = sectors_at bytes o (a + b).
Proof.
  intros Ho Ha Hb. unfold sectors_at.
  replace (Z.to_nat (512 * (o + a)))
    with (Z.to_nat (512 * o) + Z.to_nat (512 * a))%nat by lia.
  rewrite <- drop_drop, take_take_drop.
  f_equal. lia.
Qed.

Lemma transfers_exact rw iov count o s calls status :
  transfers iov (Z.of_nat (length iov)) count o s calls status ->
  backend_exact rw -> Forall (call_answered rw) calls ->
  Forall (fun e => 0 <= iov_len e) iov ->
  512 * iov_total iov <= SSIZE_MAX -> count <= iov_total iov ->
  0 < zbd_max_rw_sectors (zbd_info dev) -> 0 <= o ->
  status = count /\
  bytes_handed_over calls
  = sectors_at (request_bytes iov) o (count - o).
Proof.
  intros Ht Hex Hans Hpos Htot Hcount Hmax.
  assert (Hret : forall o' s' c,
             0 <= o' -> o' < count ->
             next_call iov (Z.of_nat (length iov)) count o' s' c ->
             call_answered rw c ->
             io_ret c = io_iov_count c /\
             iov_addresses (io_iov c)
             = sectors_at (request_bytes iov) o' (io_iov_count c)).
  { intros o' s' c Ho Hlt (E1 & E2 & E3 & E4) (w0 & Ea).
    unfold SSIZE_MAX in Htot.
    assert (Ht' : iov_total (io_iov c) = 512 * io_iov_count c).
    { rewrite E4. apply zbc_iov_convert_total;
        try assumption; unfold SSIZE_MAX; lia. }
    split.
    - rewrite <- Ea, Hex by (rewrite Ht'; unfold SSIZE_MAX; lia).
      rewrite Ht'. rewrite Z.mul_comm. apply Z.div_mul. lia.
    - rewrite E4. apply zbc_iov_convert_addressed;
        try assumption; unfold SSIZE_MAX; lia. }
  induction Ht as [o s Hdone|o s c Ho Hc Hle
                   |o s c rest status Ho Hc Hgt Ht IH];
    intros Ho0.
  - split; [reflexivity|]. unfold sectors_at.
    replace (Z.to_nat (512 * (count - o))) with O by lia.
    reflexivity.
  - exfalso. apply Forall_cons in Hans. destruct Hans as [Ha _].
    destruct (Hret o s c Ho0 Ho Hc Ha) as [Er _].
    destruct Hc as (_ & E2 & _). lia.
  - apply Forall_cons in Hans. destruct Hans as [Ha Hrest].
    destruct (Hret o s c Ho0 Ho Hc Ha) as [Er Eb].
    destruct (IH Hrest ltac:(lia)) as [Es Ebs].
    split; [exact Es|].
    unfold bytes_handed_over in *. cbn [map concat].
    rewrite Eb, Ebs, Er.
    destruct Hc as (_ & E2 & _).
    rewrite sectors_at_app by lia.
    f_equal. lia.
Qed.

Lemma zbc_do_rw_exact aligned rw fuel w iov offset :
  Forall (fun e => 0 <= iov_len e) iov ->
  0 < iov_total iov -> 512 * iov_total iov <= SSIZE_MAX ->
  0 <= offset -> offset + iov_total iov < 2 ^ 64 ->
  0 < zbd_max_rw_sectors (zbd_info dev) ->
  (zbc_test_mode dev = false ->
   aligned dev (iov_total iov) = true /\ aligned dev offset = true /\
   offset < zbd_sectors (zbd_info dev)) ->
  backend_ssize_t rw -> backend_exact rw ->
  (Z.to_nat (iov_total iov) < fuel)%nat ->
  exists r,
    zbc_do_rw aligned rw fuel w iov (Z.of_nat (length iov)) offset
    = Some r /\
    io_status r = request_count (iov_total iov) offset /\
    bytes_handed_over (io_calls r)
    = sectors_at (request_bytes iov) 0
                 (request_count (iov_total iov) offset).
Proof.
  intros Hpos Hne Htot Hoff Hwrap Hmax Hmode Hrw Hex Hfuel.
  destruct (zbc_do_rw_outcome aligned rw fuel w iov offset
              Hpos Hne Htot Hoff Hwrap Hmode Hrw Hfuel)
    as (r & Er & Ht & _ & Ha).
  exists r. split; [exact Er|].
  pose proof (request_count_le (iov_total iov) offset Hoff) as Hle.
  destruct (transfers_exact rw iov _ _ _ _ _ Ht Hex Ha Hpos Htot Hle
                            Hmax ltac:(lia)) as [Es Eb].
  split; [exact Es|]. rewrite Eb, Z.sub_0_r. reflexivity.
Qed.

(** X23: with a backend that transfers all of each vector it
    is given, a read or write that passes the tests made
    before the transfer returns the number of sectors of the
    request (all of them in test mode, those before the
    capacity otherwise), and the vectors of its backend calls,
    one after the other, go through the bytes that the
    caller's buffers hold for these sectors, each byte once
    and in the caller's order, however many calls the limit
    [zbd_max_rw_sectors] splits the request into. *)
Theorem zbc_rw_hands_over_request fuel w iov offset :
  Forall (fun e => 0 <= iov_len e) iov ->
  0 < iov_total iov -> 512 * iov_total iov <= SSIZE_MAX ->
  0 <= offset -> offset + iov_total iov < 2 ^ 64 ->
  0 < zbd_max_rw_sectors (zbd_info dev) ->
  (Z.to_nat (iov_total iov) < fuel)%nat ->
  let count := request_count (iov_total iov) offset in
  ((zbc_test_mode dev = false ->
    zbc_dev_sect_laligned dev (iov_total iov) = true /\
    zbc_dev_sect_laligned dev offset = true /\
    offset < zbd_sectors (zbd_info dev)) ->
   backend_ssize_t (zbd_preadv ops) -> backend_exact (zbd_preadv ops) ->
   exists r,
     zbc_do_preadv fuel w iov (Z.of_nat (length iov)) offset = Some r /\
     io_status r = count /\
     bytes_handed_over (io_calls r)
     = take (Z.to_nat (512 * count)) (request_bytes iov)) /\
  ((zbc_test_mode dev = false ->
    zbc_dev_sect_paligned dev (iov_total iov) = true /\
    zbc_dev_sect_paligned dev offset = true /\
    offset < zbd_sectors (zbd_info dev)) ->
   backend_ssize_t (zbd_pwritev ops) ->
   backend_exact (zbd_pwritev ops) ->
   exists r,
     zbc_do_pwritev fuel w iov (Z.of_nat (length iov)) offset = Some r /\
     io_status r = count /\
     bytes_handed_over (io_calls r)
     = take (Z.to_nat (512 * count)) (request_bytes iov)).
Proof.
  intros Hpos Hne Htot Hoff Hwrap Hmax Hfuel count.
  split; intros Hmode Hrw Hex;
    apply zbc_do_rw_exact; assumption.
Qed.

(** *** A transfer that reaches past the capacity *)






End Device.

(** *** Probing the backends *)

(** Whether the [for] loop of [zbc_open] calls the driver's
    [zbd_open] or skips it. *)
Definition drv_allowed (flags : Z) (d : drv_id) : bool :=
  negb (Z.land (flag (drv d)) (allowed_drv flags) =? 0).

(** The probing of a list of candidate drivers, in the words of the
    interface description: a driver that answers -ENXIO is followed
    by the next candidate; a driver that answers 0 is chosen and
    ends the probing; a driver that answers anything else ends the
    probing with that status.  When the candidates run out, the
    status is that of the last probe, or [ret0] when there was
    none. *)
Inductive probed (ret0 : Z)
  : list drv_id -> list (drv_id * Z) -> Z -> option drv_id -> Prop :=
| probed_none : probed ret0 [] [] ret0 None
| probed_accept d rest : probed ret0 (d :: rest) [(d, 0)] 0 (Some d)
| probed_error d e rest :
    e <> 0 -> e <> - ENXIO -> probed ret0 (d :: rest) [(d, e)] e None
| probed_next d rest log ret chosen :
    probed (- ENXIO) rest log ret chosen ->
    probed ret0 (d :: rest) ((d, - ENXIO) :: log) ret chosen.

(** The status logged with a probe is what the driver's [zbd_open]
    answered for the path and the flags. *)
Definition probe_answered (path : option string) (flags : Z)
           (p : drv_id * Z) : Prop :=
  exists w0, fst (snd (zbd_open (drv (fst p)) w0 path flags)) = snd p.

(** A driver whose [zbd_open] returns 0 has stored a handle. *)
Definition backends_store_handle : Prop :=
  forall d w p f,
    fst (snd (zbd_open (drv d) w p f)) = 0 ->
    snd (snd (zbd_open (drv d) w p f)) <> None.

Lemma zbc_open_loop_probed drvs :
  forall w path flags dev ret,
    backends_store_handle ->
    exists r chosen,
      zbc_open_loop drvs w path flags (allowed_drv flags) dev ret
      = Some r /\
      probed ret (List.filter (drv_allowed flags) drvs)
             (op_probed r) (op_ret r) chosen /\
      Forall (probe_answered path flags) (op_probed r) /\
      match chosen with
      | Some d => exists x, op_pdev r = Some x /\ zbd_drv x = Some d
      | None => op_pdev r = None
      end.
Proof.
  induction drvs as [|d rest IH]; intros w path flags dev ret Hstore.
  - do 2 eexists. split; [reflexivity|]. split; [constructor|].
    split; [constructor | reflexivity].
  - cbn [zbc_open_loop List.filter]. unfold drv_allowed at 1.
    destruct (Z.land (flag (drv d)) (allowed_drv flags) =? 0).
    + cbn [negb]. apply IH, Hstore.
    + cbn [negb].
      pose proof (Hstore d w path flags) as Hd.
      destruct (zbd_open (drv d) w path flags) as [w1 [ret1 stored]]
        eqn:Ecall.
      cbn [fst snd] in Hd.
      assert (Hans : probe_answered path flags (d, ret1)).
      { exists w. cbn [fst snd]. rewrite Ecall. reflexivity. }
      destruct (Z.eqb_spec ret1 0) as [->|Hne0].
      * destruct stored as [x|]; [|exfalso; apply Hd; reflexivity].
        exists {| op_world := w1; op_ret := 0;
                  op_pdev := Some (set_zbd_drv x d);
                  op_probed := [(d, 0)] |}, (Some d).
        split; [reflexivity|]. split; [constructor|].
        split; [repeat constructor; exact Hans|].
        eexists. split; reflexivity.
      * destruct (Z.eqb_spec ret1 (- ENXIO)) as [->|Hnx].
        -- destruct (IH w1 path flags
                        (match stored with Some x => Some x | None => dev end)
                        (- ENXIO) Hstore)
             as (r & chosen & Er & Hp & Ha & Hc).
           rewrite Er. exists (add_probe (d, - ENXIO) r), chosen.
           split; [reflexivity|]. cbn.
           split; [constructor; exact Hp|].
           split; [constructor; assumption | exact Hc].
        -- do 2 eexists. split; [reflexivity|].
           split; [constructor; assumption|].
           split; [repeat constructor; exact Hans | reflexivity].
Qed.

(** The driver bits that [flags] ask for: those of [flags], or
    all of them when [flags] has none. *)
Definition requested_drv (flags : Z) : Z :=
  if Z.land flags ZBC_O_DRV_MASK =? 0 then ZBC_O_DRV_MASK
  else Z.land flags ZBC_O_DRV_MASK.

(** Whether a driver is among those to probe, in the words of the
    interface description and with what the build adds to them:
    its flag has a bit that [flags] ask for, and in a build
    without the zoned block interface it is not the block
    driver. *)
Definition candidate (flags : Z) (d : drv_id) : bool :=
  negb (Z.land (flag (drv d)) (requested_drv flags) =? 0)
  && (HAVE_LINUX_BLKZONED_H || negb (drv_id_eqb d zbc_block_drv)).

(** The flag of the block driver is the block bit, which the flag
    of no other driver has. *)
Definition block_bit_of_block_drv : Prop :=
  flag (drv zbc_block_drv) = ZBC_O_DRV_BLOCK /\
  forall d, d <> zbc_block_drv ->
            Z.land (flag (drv d)) ZBC_O_DRV_BLOCK = 0.

Lemma land_lnot_disjoint a b :
  Z.land a b = 0 -> Z.land a (Z.lnot b) = a.
Proof.
  intros H. apply Z.bits_inj'. intros n Hn.
  rewrite Z.land_spec, Z.lnot_spec by exact Hn.
  assert (Hb : Z.testbit (Z.land a b) n = false)
    by (rewrite H; apply Z.bits_0).
  rewrite Z.land_spec in Hb.
  destruct (Z.testbit a n), (Z.testbit b n);
    (reflexivity || discriminate).
Qed.

Lemma drv_allowed_candidate flags d :
  block_bit_of_block_drv -> drv_allowed flags d = candidate flags d.
Proof.
  intros [Hblock Hothers].
  unfold drv_allowed, candidate, allowed_drv.
  fold (requested_drv flags).
  destruct HAVE_LINUX_BLKZONED_H.
  - cbn [orb]. rewrite andb_true_r. reflexivity.
  - cbn [orb].
    destruct d; cbn [drv_id_eqb negb];
      rewrite ?andb_true_r, ?andb_false_r.
    + rewrite Hblock.
      rewrite (Z.land_comm (requested_drv flags)), Z.land_assoc,
        Z.land_lnot_diag.
      reflexivity.
    + rewrite (Z.land_comm (requested_drv flags)), Z.land_assoc,
        land_lnot_disjoint by (apply Hothers; discriminate).
      reflexivity.
    + rewrite (Z.land_comm (requested_drv flags)), Z.land_assoc,
        land_lnot_disjoint by (apply Hothers; discriminate).
      reflexivity.
    + rewrite (Z.land_comm (requested_drv flags)), Z.land_assoc,
        land_lnot_disjoint by (apply Hothers; discriminate).
      reflexivity.
Qed.

Lemma filter_ext_bool {A} (f g : A -> bool) l :
  (forall x, f x = g x) -> List.filter f l = List.filter g l.
Proof.
  intros H. induction l as [|x l IH]; [reflexivity|].
  cbn [List.filter]. rewrite H, IH. reflexivity.
Qed.

(** C4 (amended): [zbc_open] calls [zbd_open] of the drivers of the
    [zbc_drv] array in the order block, SCSI, ATA, fake, leaving
    out those whose flag has none of the driver bits asked for
    (the driver bits of [flags], or all driver bits when [flags]
    has none) and, in a build without the zoned block interface,
    the block driver whatever the flags.  -ENXIO from a driver
    sends it on to the next one, any other error is returned at
    once, and on the first 0 the handle is stored with its driver
    pointer set to that driver and 0 is returned; when no driver
    is left to probe the status is -ENODEV. *)
Theorem zbc_open_probe_order w filename flags w1 path :
  backends_store_handle ->
  block_bit_of_block_drv ->
  zbc_realpath w filename = (w1, (0, path)) ->
  zbc_drv = [zbc_block_drv; zbc_scsi_drv; zbc_ata_drv; zbc_fake_drv] /\
  (forall d, drv_allowed flags d = candidate flags d) /\
  exists r chosen,
    zbc_open w filename flags = Some r /\
    probed (- ENODEV) (List.filter (candidate flags) zbc_drv)
           (op_probed r) (op_ret r) chosen /\
    Forall (probe_answered path flags) (op_probed r) /\
    match chosen with
    | Some d => exists x, op_pdev r = Some x /\ zbd_drv x = Some d
    | None => op_pdev r = None
    end.
Proof.
  intros Hstore Hbit Hpath. split; [reflexivity|]. split.
  - intros d. apply drv_allowed_candidate, Hbit.
  - unfold zbc_open. rewrite Hpath. cbn [Z.eqb].
    rewrite <- (filter_ext_bool (drv_allowed flags) (candidate flags))
      by (intros d; apply drv_allowed_candidate, Hbit).
    apply zbc_open_loop_probed, Hstore.
Qed.

(** *** The status of [zbc_open] and of [zbc_device_is_zoned] *)

(** The status that a probing ends with is that of its last
    probe, the probes before the last one were answered with
    -ENXIO, and a driver is chosen when that status is 0 and at
    no other time. *)
Lemma probed_last ret0 drvs log ret chosen :
  probed ret0 drvs log ret chosen ->
  ret = match last log with Some p => snd p | None => ret0 end /\
  (log = [] <-> drvs = []) /\
  Forall (fun p => snd p = - ENXIO) (removelast log) /\
  (log <> [] -> (chosen <> None <-> ret = 0)) /\
  (log = [] -> chosen = None).
Proof.
  induction 1 as [ret0|ret0 d rest|ret0 d e rest He0 Hex
                  |ret0 d rest log ret chosen Hp IH].
  - cbn. repeat split; try constructor; try discriminate;
      try contradiction; reflexivity.
  - cbn. repeat split; try constructor; try discriminate; reflexivity.
  - cbn. repeat split; try constructor; try discriminate;
      try contradiction; auto.
  - destruct IH as (Hret & Hnil & Hall & Hch & Hno).
    split.
    { destruct log as [|p log]; [rewrite Hret; reflexivity|].
      change (last ((d, - ENXIO) :: p :: log)) with (last (p :: log)).
      rewrite Hret.
      destruct (last (p :: log)) eqn:E; [reflexivity|].
      apply last_None in E. discriminate E. }
    split; [split; discriminate|].
    split.
    { destruct log as [|p log]; [constructor|].
      cbn [removelast]. constructor; [reflexivity | exact Hall]. }
    split; [|discriminate].
    intros _. destruct log as [|p log].
    + rewrite (Hno eq_refl). subst ret. cbn.
      split; [intros H; contradiction | unfold ENXIO; lia].
    + apply Hch. discriminate.
Qed.

(** X19: with drivers that store a handle when they return 0,
    [zbc_open] returns, and it stores [*pdev] when it returns
    0 and at no other time.  When the path cannot be resolved
    it returns the negated [errno] without any probe.
    Otherwise its status is that of the last driver it probed,
    all the drivers probed before that one having answered
    -ENXIO, so that it is -ENXIO when all of them declined; it
    is -ENODEV when no driver of the array is allowed by the
    flags, and no driver is probed then. *)
Theorem zbc_open_status w filename flags :
  backends_store_handle ->
  exists r,
    zbc_open w filename flags = Some r /\
    (op_pdev r <> None <-> op_ret r = 0) /\
    (fst (snd (zbc_realpath w filename)) <> 0 ->
     op_ret r = fst (snd (zbc_realpath w filename)) /\
     op_probed r = [] /\ op_world r = fst (zbc_realpath w filename)) /\
    (fst (snd (zbc_realpath w filename)) = 0 ->
     op_ret r = match last (op_probed r) with
                | Some p => snd p
                | None => - ENODEV
                end /\
     Forall (fun p => snd p = - ENXIO) (removelast (op_probed r)) /\
     (op_probed r = []
      <-> List.filter (drv_allowed flags) zbc_drv = [])).
Proof.
  intros Hstore. unfold zbc_open.
  destruct (zbc_realpath w filename) as [w1 [ret path]].
  cbn [fst snd].
  destruct (Z.eqb_spec ret 0) as [->|Hne].
  - destruct (zbc_open_loop_probed zbc_drv w1 path flags None (- ENODEV)
                Hstore) as (r & chosen & Er & Hp & _ & Hc).
    exists r. split; [exact Er|].
    apply probed_last in Hp.
    destruct Hp as (Hret & Hnil & Hall & Hch & Hno).
    split.
    { destruct (op_probed r) as [|p log] eqn:Elog.
      - rewrite (Hno eq_refl) in Hc. rewrite Hc. cbn in Hret.
        rewrite Hret.
        split; [intros H; contradiction | unfold ENODEV; lia].
      - rewrite <- (Hch ltac:(discriminate)).
        destruct chosen as [d|].
        + destruct Hc as (x & -> & _).
          split; intros; discriminate.
        + rewrite Hc. split; intros H; contradiction. }
    split; [intros H; contradiction|].
    intros _. split; [exact Hret|]. split; assumption.
  - eexists. split; [reflexivity|]. cbn.
    split; [split; [intros H; contradiction | intros; contradiction]|].
    split; [intros _; repeat split|].
    intros; contradiction.
Qed.

(** A driver whose [zbd_open] fails has stored no handle. *)
Definition backends_store_on_success : Prop :=
  forall d w p f,
    fst (snd (zbd_open (drv d) w p f)) <> 0 ->
    snd (snd (zbd_open (drv d) w p f)) = None.

Lemma zbc_device_is_zoned_loop_probed filename drvs :
  forall w ret,
    backends_store_handle -> backends_store_on_success ->
    exists p chosen,
      zbc_device_is_zoned_loop drvs w filename None ret = Some p /\
      probed ret drvs (ip_probed p) (ip_ret p) chosen /\
      Forall (probe_answered (Some filename) O_RDONLY) (ip_probed p) /\
      match chosen with
      | Some d =>
          ip_out p = false /\
          exists x, ip_dev p = Some x /\ zbd_drv x = Some d
      | None =>
          ip_dev p = None /\
          (ip_out p = false -> ip_ret p = - ENXIO \/ drvs = []) /\
          (ip_out p = true -> ip_ret p <> - ENXIO)
      end.
Proof.
  induction drvs as [|d rest IH]; intros w ret Hstore Hfail.
  - do 2 eexists. split; [reflexivity|]. cbn.
    split; [constructor|]. split; [constructor|].
    split; [reflexivity|]. split; [auto | discriminate].
  - cbn [zbc_device_is_zoned_loop].
    pose proof (Hstore d w (Some filename) O_RDONLY) as Hs.
    pose proof (Hfail d w (Some filename) O_RDONLY) as Hf.
    destruct (zbd_open (drv d) w (Some filename) O_RDONLY)
      as [w1 [ret1 stored]] eqn:Ecall.
    cbn [fst snd] in Hs, Hf.
    assert (Hans : probe_answered (Some filename) O_RDONLY (d, ret1)).
    { exists w. cbn [fst snd]. rewrite Ecall. reflexivity. }
    destruct (Z.eqb_spec ret1 0) as [->|Hne0].
    + destruct stored as [x|]; [|exfalso; apply Hs; reflexivity].
      exists {| ip_world := w1; ip_dev := Some (set_zbd_drv x d);
                ip_ret := 0; ip_out := false;
                ip_probed := [(d, 0)] |}, (Some d).
      split; [reflexivity|]. split; [constructor|].
      split; [repeat constructor; exact Hans|].
      split; [reflexivity|]. eexists. split; reflexivity.
    + rewrite (Hf Hne0).
      destruct (Z.eqb_spec ret1 (- ENXIO)) as [->|Hnx].
      * cbn [negb].
        destruct (IH w1 (- ENXIO) Hstore Hfail)
          as (p & chosen & Ep & Hp & Ha & Hc).
        rewrite Ep. exists (add_iz_probe (d, - ENXIO) p), chosen.
        split; [reflexivity|]. cbn.
        split; [constructor; exact Hp|].
        split; [constructor; assumption|].
        destruct chosen as [d'|]; [exact Hc|].
        destruct Hc as (Hd & Ho & Ht). split; [exact Hd|].
        split; [|exact Ht].
        intros Hout. left. destruct (Ho Hout) as [E|E]; [exact E|].
        subst rest. inversion Hp; subst. reflexivity.
      * cbn [negb]. do 2 eexists. split; [reflexivity|]. cbn.
        split; [constructor; assumption|].
        split; [repeat constructor; exact Hans|].
        split; [reflexivity|]. split; [discriminate|].
        intros _. exact Hnx.
Qed.

(** X20: when the path can be resolved and the drivers store a
    handle when they return 0 and at no other time,
    [zbc_device_is_zoned] returns.  It probes the four drivers
    of the array in their order, whatever the build, with
    [filename] as it was given and [O_RDONLY], going on after
    -ENXIO and stopping at the first other status.  When a
    driver accepts the device it closes the handle with that
    driver, once, and returns 1 with the device information
    copied to a non-null [info], or, for the emulation driver
    with [fake] false, 0 with [info] untouched.  When all
    decline it returns 0; any other error of a driver is
    returned as it is, so also -EPERM and -EACCES. *)
Theorem zbc_device_is_zoned_outcome w filename fake info :
  backends_store_handle -> backends_store_on_success ->
  fst (snd (zbc_realpath w filename)) = 0 ->
  exists r status chosen,
    zbc_device_is_zoned w filename fake info = Some r /\
    probed 0 zbc_drv (iz_probed r) status chosen /\
    Forall (probe_answered (Some filename) O_RDONLY) (iz_probed r) /\
    match chosen with
    | Some d =>
        (exists x, iz_closed r = Some (d, x) /\ zbd_drv x = Some d /\
                   iz_info r
                   = if iz_ret r =? 1
                     then option_map (fun _ => zbd_info x) info
                     else info) /\
        iz_ret r = if drv_id_eqb d zbc_fake_drv && negb fake
                   then 0 else 1
    | None =>
        iz_closed r = None /\ iz_info r = info /\
        iz_ret r = if status =? - ENXIO then 0 else status
    end.
Proof.
  intros Hstore Hfail Hpath. unfold zbc_device_is_zoned.
  destruct (zbc_realpath w filename) as [w1 [ret path]].
  cbn [fst snd] in Hpath. subst ret. cbn [Z.eqb negb].
  destruct (zbc_device_is_zoned_loop_probed filename zbc_drv w1 0
              Hstore Hfail) as (p & chosen & Ep & Hp & Ha & Hc).
  rewrite Ep. destruct chosen as [d|].
  - destruct Hc as (Hout & x & Hdev & Hdrv).
    rewrite Hout, Hdev, Hdrv.
    destruct (drv_id_eqb d zbc_fake_drv && negb fake) eqn:Efake.
    + eexists. exists (ip_ret p), (Some d).
      split; [reflexivity|]. cbn.
      split; [exact Hp|]. split; [exact Ha|].
      split; [|rewrite Efake; reflexivity].
      exists x. repeat split. exact Hdrv.
    + eexists. exists (ip_ret p), (Some d).
      split; [reflexivity|]. cbn.
      split; [exact Hp|]. split; [exact Ha|].
      split; [|rewrite Efake; reflexivity].
      exists x. split; [reflexivity|]. split; [exact Hdrv|].
      destruct info; reflexivity.
  - destruct Hc as (Hdev & Hout & Hhard). rewrite Hdev.
    destruct (ip_out p) eqn:Eout.
    + eexists. exists (ip_ret p), None.
      split; [reflexivity|]. cbn.
      split; [exact Hp|]. split; [exact Ha|].
      split; [reflexivity|]. split; [reflexivity|].
      destruct (Z.eqb_spec (ip_ret p) (- ENXIO)) as [E|]; [|reflexivity].
      exfalso. apply (Hhard eq_refl), E.
    + eexists. exists (ip_ret p), None.
      split; [reflexivity|]. cbn.
      split; [exact Hp|]. split; [exact Ha|].
      split; [reflexivity|]. split; [reflexivity|].
      destruct (Hout eq_refl) as [E|E]; [|discriminate E].
      rewrite E. reflexivity.
Qed.

End Layer.

(** *** A device to run the layer on

    The world is the number of backend transfers made so far. *)

(** A build without the test mode. *)
Definition ex_test_mode (d : zbc_device) : bool := false.

(** Modelled from the spec: the alignment macros of the absent header;
    a sector is aligned on a block when its byte address is a
    multiple of the block size. *)
Definition ex_laligned (d : zbc_device) (sect : Z) : bool :=
  Z.shiftl sect 9 mod zbd_lblock_size (zbd_info d) =? 0.

Definition ex_paligned (d : zbc_device) (sect : Z) : bool :=
  Z.shiftl sect 9 mod zbd_pblock_size (zbd_info d) =? 0.

(** Modelled from the spec: the reporting options are the low four
    bits; the partial bit lies above them. *)
Definition ex_ro_mask (ro : Z) : Z := Z.land ro 0xf.
Definition ex_RO_PARTIAL : Z := 0x80.

(** Driver bits for the examples, one per driver. *)
Definition ex_O_DRV_BLOCK : Z := 1.
Definition ex_O_DRV_SCSI : Z := 2.
Definition ex_O_DRV_ATA : Z := 4.
Definition ex_O_DRV_FAKE : Z := 8.
Definition ex_O_DRV_MASK : Z := 15.

(** A device of 300 sectors with 512-byte logical and 4096-byte
    physical blocks: a conventional zone and two sequential zones of
    100 sectors each. *)
Definition ex_dev : zbc_device :=
  {| zbd_filename := "/dev/sdz"; zbd_fd := 3; zbd_o_flags := 0;
     zbd_info := {| zbd_sectors := 300; zbd_lblock_size := 512;
                    zbd_pblock_size := 4096; zbd_max_rw_sectors := 256 |};
     zbd_drv := Some zbc_scsi_drv |}.

Definition ex_zone (type start : Z) : zbc_zone :=
  {| zbz_type := type; zbz_condition := 1; zbz_start := start;
     zbz_length := 100; zbz_write_pointer := start;
     zbz_need_reset := false; zbz_non_seq := false |}.

Definition ex_zones : list zbc_zone :=
  [ex_zone 1 0; ex_zone 2 100; ex_zone 2 200].

(** A transfer of at most two sectors per call. *)
Definition ex_rw (w : nat) (d : zbc_device) (v : list iovec) (s : Z)
  : nat * Z :=
  (S w, Z.max 1 (Z.min 2 (iov_total v / 512))).

(** The driver of the device: it reports every zone, two at most per
    call. *)
Definition ex_ops (accepts : Z) : zbc_drv_ops :=
  {| flag := 0;
     zbd_open := fun w _ _ =>
                   (w, (accepts,
                        if accepts =? 0 then Some ex_dev else None));
     zbd_report_zones := device_report_zones ex_zones (fun _ _ => true) 2;
     zbd_preadv := ex_rw;
     zbd_pwritev := ex_rw |}.

(** The four drivers: the block driver turns the device down, the
    SCSI driver takes it. *)
Definition ex_drv (d : drv_id) : @zbc_drv_ops nat :=
  match d with
  | zbc_block_drv =>
      {| flag := ex_O_DRV_BLOCK; zbd_open := zbd_open (ex_ops (- ENXIO));
         zbd_report_zones := zbd_report_zones (ex_ops 0);
         zbd_preadv := ex_rw; zbd_pwritev := ex_rw |}
  | zbc_scsi_drv =>
      {| flag := ex_O_DRV_SCSI; zbd_open := zbd_open (ex_ops 0);
         zbd_report_zones := zbd_report_zones (ex_ops 0);
         zbd_preadv := ex_rw; zbd_pwritev := ex_rw |}
  | zbc_ata_drv =>
      {| flag := ex_O_DRV_ATA; zbd_open := zbd_open (ex_ops (- ENXIO));
         zbd_report_zones := zbd_report_zones (ex_ops 0);
         zbd_preadv := ex_rw; zbd_pwritev := ex_rw |}
  | zbc_fake_drv =>
      {| flag := ex_O_DRV_FAKE; zbd_open := zbd_open (ex_ops (- ENXIO));
         zbd_report_zones := zbd_report_zones (ex_ops 0);
         zbd_preadv := ex_rw; zbd_pwritev := ex_rw |}
  end.

Definition ex_realpath (w : nat) (f : string) : nat * (string + Z) :=
  (w, inl f).

Definition ex_calloc (w : nat) (n : Z) : nat * bool := (w, true).

Lemma ex_backends_store_handle : backends_store_handle ex_drv.
Proof.
  intros d w p f. destruct d; cbn; intros H; (discriminate || lia).
Qed.

(** A report of the three zones into an array of three: two rounds. *)
Lemma zbc_report_zones_rounds_witness :
  exists r,
    zbc_report_zones ex_test_mode ex_ro_mask ex_RO_PARTIAL (ex_ops 0)
                     ex_dev 4 O 0 0 (Some (replicate 3 zero_zone)) 3
    = Some r /\
    (rounds ex_ro_mask ex_RO_PARTIAL ex_dev 0 3 0 0
            (rz_rounds r) (rz_ret r) (rz_nr_zones r) /\
     Forall (round_answered (ex_ops 0) ex_dev) (rz_rounds r)) /\
    (rz_ret r = 0 ->
     rz_nr_zones r = Z.of_nat (length (gathered (rz_rounds r))) /\
     rz_zones r
     = Some (gathered (rz_rounds r)
             ++ drop (length (gathered (rz_rounds r)))
                     (replicate 3 zero_zone))).
Proof.
  refine (zbc_report_zones_rounds
            ex_test_mode ex_ro_mask ex_RO_PARTIAL (ex_ops 0) ex_dev
            4 O 0 0 (replicate 3 zero_zone) 3
            (device_fills_array (ex_ops 0) ex_dev ex_zones
                                (fun _ _ => true) 2 eq_refl _)
            _ _ _); cbn; lia.
Defined.

(** A device of 304 sectors with 4096-byte logical blocks. *)
Definition ex_dev_4k : zbc_device :=
  {| zbd_filename := "/dev/sdy"; zbd_fd := 4; zbd_o_flags := 0;
     zbd_info := {| zbd_sectors := 304; zbd_lblock_size := 4096;
                    zbd_pblock_size := 4096; zbd_max_rw_sectors := 256 |};
     zbd_drv := Some zbc_scsi_drv |}.


(** A write of 8 sectors at sector 297, which is not on a 4096-byte
    block. *)
Lemma zbc_rw_unaligned_rejected_witness :
  zbc_pwrite ex_test_mode ex_paligned (ex_ops 0) ex_dev 1 O 0 8 297
  = Some {| io_world := O; io_status := - EINVAL; io_calls := [] |}.
Proof.
  refine (proj1 (proj2 (proj2 (zbc_rw_unaligned_rejected
                                 ex_test_mode ex_laligned ex_paligned
                                 (ex_ops 0) ex_dev 1 O 297 eq_refl)))
                0 8 (or_intror eq_refl)).
Defined.

Lemma ex_block_bit_of_block_drv :
  block_bit_of_block_drv ex_drv ex_O_DRV_BLOCK.
Proof.
  split; [reflexivity|]. intros d Hd.
  destruct d; [contradiction | reflexivity..].
Qed.

(** C4 (counterexample): in a build without the zoned block
    interface, opening with no driver bit in the flags does not
    probe the block driver, which the build with the interface
    probes first; and opening with the block bit alone probes no
    driver and returns -ENODEV. *)
Lemma zbc_open_empty_mask_skips_block :
  Z.land 0 ex_O_DRV_MASK = 0 /\
  option_map (fun r => (op_ret r, op_probed r))
             (zbc_open ex_drv ex_O_DRV_MASK ex_O_DRV_BLOCK false ex_realpath
                       O "/dev/sdz" 0)
  = Some (0, [(zbc_scsi_drv, 0)]) /\
  option_map (fun r => (op_ret r, op_probed r))
             (zbc_open ex_drv ex_O_DRV_MASK ex_O_DRV_BLOCK true ex_realpath
                       O "/dev/sdz" 0)
  = Some (0, [(zbc_block_drv, - ENXIO); (zbc_scsi_drv, 0)]) /\
  option_map (fun r => (op_ret r, op_probed r, op_pdev r))
             (zbc_open ex_drv ex_O_DRV_MASK ex_O_DRV_BLOCK false ex_realpath
                       O "/dev/sdz" ex_O_DRV_BLOCK)
  = Some (- ENODEV, [], None).
Proof. repeat split; vm_compute; reflexivity. Qed.

(** Opening with no driver bit in the flags in a build without the
    zoned block interface: the SCSI driver is probed first, and
    chosen. *)
Lemma zbc_open_probe_order_witness :
  exists r chosen,
    zbc_open ex_drv ex_O_DRV_MASK ex_O_DRV_BLOCK false ex_realpath
             O "/dev/sdz" 0 = Some r /\
    probed (- ENODEV)
           (List.filter (candidate ex_drv ex_O_DRV_MASK false 0) zbc_drv)
           (op_probed r) (op_ret r) chosen /\
    Forall (probe_answered ex_drv (Some "/dev/sdz"%string) 0)
           (op_probed r) /\
    match chosen with
    | Some d => exists x, op_pdev r = Some x /\ zbd_drv x = Some d
    | None => op_pdev r = None
    end.
Proof.
  exact (proj2 (proj2 (zbc_open_probe_order
                         ex_drv ex_O_DRV_MASK ex_O_DRV_BLOCK false
                         ex_realpath O "/dev/sdz" 0 O (Some "/dev/sdz"%string)
                         ex_backends_store_handle
                         ex_block_bit_of_block_drv eq_refl))).
Defined.

Example ex_candidates_without_blkzoned :
  List.filter (candidate ex_drv ex_O_DRV_MASK false 0) zbc_drv
  = [zbc_scsi_drv; zbc_ata_drv; zbc_fake_drv].
Proof. reflexivity. Qed.

(** Listing the zones of the example device from sector 0. *)
Lemma zbc_list_zones_complete_witness :
  exists c r zones,
    zbc_report_nr_zones ex_test_mode ex_ro_mask ex_RO_PARTIAL (ex_ops 0)
                        ex_dev O 0 (ex_ro_mask 0) = Some c /\
    zbc_list_zones ex_test_mode ex_ro_mask ex_RO_PARTIAL ex_calloc
                   (ex_ops 0) ex_dev 4 O 0 0 = Some r /\
    lz_count r = c /\ rz_ret c = 0 /\ lz_ret r = 0 /\
    lz_out r = Some (zones, rz_nr_zones c) /\
    match zones with
    | None => rz_nr_zones c = 0
    | Some a =>
        Z.of_nat (length a) = rz_nr_zones c /\
        a = List.filter (fun _ => true) (zones_from ex_zones 0)
    end.
Proof.
  refine (zbc_list_zones_complete
            ex_test_mode ex_ro_mask ex_RO_PARTIAL ex_calloc (ex_ops 0)
            ex_dev ex_zones (fun _ _ => true) 2 4 O 0 0
            eq_refl eq_refl _ _ _ _ _ _).
  - cbn. lia.
  - lia.
  - intros z. reflexivity.
  - intros w n. reflexivity.
  - cbn. lia.
  - cbn. lia.
Defined.

(** A report from the capacity on. *)
Lemma zbc_report_zones_beyond_capacity_witness :
  zbc_report_zones ex_test_mode ex_ro_mask ex_RO_PARTIAL (ex_ops 0)
                   ex_dev 1 O 300 0 None 7
  = Some {| rz_world := O; rz_ret := 0; rz_nr_zones := 0;
            rz_zones := None; rz_rounds := [] |}.
Proof.
  refine (zbc_report_zones_beyond_capacity
            ex_test_mode ex_ro_mask ex_RO_PARTIAL (ex_ops 0) ex_dev
            1 O 300 0 None 7 eq_refl _).
  cbn. lia.
Defined.

(** The example device, run. *)

Example ex_open_probes :
  option_map op_probed
             (zbc_open ex_drv ex_O_DRV_MASK ex_O_DRV_BLOCK true ex_realpath
                       O "/dev/sdz" 0)
  = Some [(zbc_block_drv, - ENXIO); (zbc_scsi_drv, 0)].
Proof. vm_compute. reflexivity. Qed.

Example ex_open_restricted_to_ata :
  option_map (fun r => (op_probed r, op_ret r))
             (zbc_open ex_drv ex_O_DRV_MASK ex_O_DRV_BLOCK true ex_realpath
                       O "/dev/sdz" ex_O_DRV_ATA)
  = Some ([(zbc_ata_drv, - ENXIO)], - ENXIO).
Proof. vm_compute. reflexivity. Qed.

Example ex_list_zones :
  option_map lz_out
             (zbc_list_zones ex_test_mode ex_ro_mask ex_RO_PARTIAL ex_calloc
                             (ex_ops 0) ex_dev 4 O 0 0)
  = Some (Some (Some ex_zones, 3)).
Proof. vm_compute. reflexivity. Qed.

Example ex_report_two_rounds :
  option_map (fun r => (map rd_sector (rz_rounds r), map rd_n (rz_rounds r),
                        rz_nr_zones r))
             (zbc_report_zones ex_test_mode ex_ro_mask ex_RO_PARTIAL
                               (ex_ops 0) ex_dev 4 O 0 0
                               (Some (replicate 3 zero_zone)) 3)
  = Some ([0; 200], [3; 1], 3).
Proof. vm_compute. reflexivity. Qed.

Example ex_read_straddles_capacity :
  option_map (fun r => (io_status r,
                        map (fun c => (io_sector c, io_iov_count c,
                                       io_iov c)) (io_calls r)))
             (zbc_pread ex_test_mode ex_laligned (ex_ops 0) ex_dev 5 O
                        4096 8 296)
  = Some (4, [(296, 4, [{| iov_base := 4096; iov_len := 2048 |}]);
              (298, 2, [{| iov_base := 4096 + 1024; iov_len := 1024 |}])]).
Proof. vm_compute. reflexivity. Qed.

Example ex_write_unaligned :
  option_map io_status
             (zbc_pwrite ex_test_mode ex_paligned (ex_ops 0) ex_dev 5 O
                         4096 8 297)
  = Some (- EINVAL).
Proof. vm_compute. reflexivity. Qed.

(** *** Vectors, transfers and operations on the example device *)

(** A vector of three buffers, the second one empty. *)
Definition ex_iov : list iovec :=
  [{| iov_base := 4096; iov_len := 2 |};
   {| iov_base := 8192; iov_len := 0 |};
   {| iov_base := 16384; iov_len := 3 |}].

(** The window of 3 sectors that starts 1 sector into the vector. *)
Lemma zbc_iov_convert_slices_witness :
  let out := zbc_iov_convert ex_iov 3 1 3 in
  slices (take 3 ex_iov) out /\
  Z.of_nat (length out) <= 3 /\
  Forall (fun o => 0 < iov_len o) out.
Proof.
  refine (zbc_iov_convert_slices ex_iov 3 1 3 _ _).
  - repeat constructor; cbn; lia.
  - lia.
Defined.

Example ex_convert_window :
  zbc_iov_convert ex_iov 3 1 3
  = [{| iov_base := 4096 + 512; iov_len := 512 |};
     {| iov_base := 16384; iov_len := 1024 |}].
Proof. reflexivity. Qed.

(** A window of 4 sectors that starts 3 sectors into the vector of
    5 gets the 2 sectors that the vector has left. *)
Lemma zbc_iov_convert_bytes_witness :
  let out := zbc_iov_convert ex_iov 3 3 4 in
  iov_total out = Z.min (512 * 4) (Z.max 0 (512 * (5 - 3))) /\
  (3 + 4 <= 5 -> iov_total out = 512 * 4) /\
  (5 <= 3 -> out = []).
Proof.
  refine (zbc_iov_convert_bytes ex_iov 3 4 _ _ _ _ _ _).
  - repeat constructor; cbn; lia.
  - unfold SSIZE_MAX. cbn. lia.
  - lia.
  - lia.
  - lia.
  - unfold SSIZE_MAX. lia.
Defined.

(** The whole vector: the empty buffer is left out. *)
Lemma zbc_iov_convert_whole_witness :
  zbc_iov_convert ex_iov 3 0 5
  = [{| iov_base := 4096; iov_len := 1024 |};
     {| iov_base := 16384; iov_len := 1536 |}].
Proof.
  refine (zbc_iov_convert_whole ex_iov _ _).
  - repeat constructor; cbn; lia.
  - unfold SSIZE_MAX. cbn. lia.
Defined.

(** A buffer of 10 sectors at address 4096 mapped to entries of at
    most 4 sectors, in an array of 4 entries: 3 entries are
    taken. *)
Definition ex_blank : list iovec :=
  replicate 4 {| iov_base := 0; iov_len := 0 |}.

Lemma zbc_map_iov_covers_witness :
  exists v',
    zbc_map_iov 5 4096 10 (Some ex_blank) 4 4 = Some (3, Some v') /\
    0 < 3 <= 4 /\ length v' = length ex_blank /\
    (forall j, 0 <= j < 3 ->
               v' !! Z.to_nat j
               = Some {| iov_base := 4096 + 512 * (j * 4);
                         iov_len := Z.min 4 (10 - j * 4) |}) /\
    (forall j, 0 <= j < 3 - 1 -> Z.min 4 (10 - j * 4) = 4) /\
    (forall j, (Z.to_nat 3 <= j)%nat -> v' !! j = ex_blank !! j).
Proof.
  refine (zbc_map_iov_covers 5 4096 10 ex_blank 4 4 _ _ _ _ _ _ eq_refl _).
  - lia.
  - lia.
  - unfold SSIZE_MAX. lia.
  - lia.
  - lia.
  - apply Z.leb_le. reflexivity.
  - cbn. lia.
Defined.

Example ex_map_iov :
  zbc_map_iov 5 4096 10 (Some ex_blank) 4 4
  = Some (3, Some [{| iov_base := 4096; iov_len := 4 |};
                   {| iov_base := 4096 + 2048; iov_len := 4 |};
                   {| iov_base := 4096 + 4096; iov_len := 2 |};
                   {| iov_base := 0; iov_len := 0 |}]).
Proof. reflexivity. Qed.

(** Entries of no sector hold no buffer. *)
Lemma zbc_map_iov_rejects_witness :
  zbc_map_iov 5 4096 10 (Some ex_blank) 4 0
  = Some (- EINVAL, Some ex_blank).
Proof.
  refine (zbc_map_iov_rejects 5 4096 10 (Some ex_blank) 4 0 _).
  right. right. right. right. right. split; [reflexivity | lia].
Defined.

Lemma zbc_map_iov_transfer_witness :
  exists n v',
    zbc_map_iov 5 4096 10 (Some ex_blank) 4 4 = Some (n, Some v') /\
    zbc_iov_count v' n = 10 /\
    let out := zbc_iov_convert v' n 0 10 in
    Z.of_nat (length out) = n /\
    iov_total out = 512 * 10 /\
    (forall j, 0 <= j < n ->
       exists o,
         out !! Z.to_nat j = Some o /\
         iov_base o = 4096 + 512 * (j * 4) /\
         (j < n - 1 -> iov_len o = 512 * 4) /\
         (j = n - 1 -> iov_base o + iov_len o = 4096 + 512 * 10)).
Proof.
  refine (zbc_map_iov_transfer 5 4096 10 ex_blank 4 4 _ _ _ _ _ _ eq_refl _).
  - lia.
  - lia.
  - unfold SSIZE_MAX. lia.
  - lia.
  - lia.
  - apply Z.leb_le. reflexivity.
  - cbn. lia.
Defined.

(** A backend whose second transfer fails with -EIO. *)
Definition ex_rw_flaky (w : nat) (d : zbc_device) (v : list iovec) (s : Z)
  : nat * Z :=
  (S w, match w with O => 2 | _ => - EIO end).

Definition ex_ops_flaky : zbc_drv_ops :=
  {| flag := 0;
     zbd_open := zbd_open (ex_ops 0);
     zbd_report_zones := zbd_report_zones (ex_ops 0);
     zbd_preadv := ex_rw_flaky;
     zbd_pwritev := ex_rw_flaky |}.

Lemma ex_flaky_ssize_t : backend_ssize_t ex_dev ex_rw_flaky.
Proof.
  intros w v s. unfold ex_rw_flaky, SSIZE_MAX, EIO. cbn [snd].
  destruct w; lia.
Qed.

(** A read of 8 sectors at sector 100 of which the backend takes 2
    and then fails. *)
Lemma zbc_rw_all_or_error_witness :
  exists r,
    zbc_do_preadv ex_test_mode ex_laligned ex_ops_flaky ex_dev 9 O
                  [{| iov_base := 4096; iov_len := 8 |}] 1 100
    = Some r /\
    transfer_outcome ex_dev ex_rw_flaky
                     [{| iov_base := 4096; iov_len := 8 |}]
                     (request_count ex_test_mode ex_dev 8 100) 100 r.
Proof.
  refine (proj1 (zbc_rw_all_or_error
                   ex_test_mode ex_laligned ex_paligned ex_ops_flaky ex_dev
                   9 O [{| iov_base := 4096; iov_len := 8 |}] 100
                   _ _ _ _ _ _)
                _ ex_flaky_ssize_t).
  - repeat constructor. cbn. lia.
  - cbn. lia.
  - unfold SSIZE_MAX. cbn. lia.
  - lia.
  - cbn. lia.
  - cbn. lia.
  - intros _. cbn. repeat split; lia.
Defined.

Example ex_read_fails_midway :
  option_map (fun r => (io_status r,
                        map (fun c => (io_sector c, io_iov_count c,
                                       io_ret c)) (io_calls r)))
             (zbc_pread ex_test_mode ex_laligned ex_ops_flaky ex_dev 9 O
                        4096 8 100)
  = Some (- EIO, [(100, 8, 2); (102, 6, - EIO)]).
Proof. vm_compute. reflexivity. Qed.

(** A read of no sector. *)
Lemma zbc_rw_empty_request_witness :
  zbc_do_preadv ex_test_mode ex_laligned (ex_ops 0) ex_dev 1 O
                [{| iov_base := 4096; iov_len := 0 |}] 1 100
  = Some {| io_world := O; io_status := 0; io_calls := [] |}.
Proof.
  refine (proj1 (zbc_rw_empty_request
                   ex_test_mode ex_laligned ex_paligned (ex_ops 0) ex_dev
                   1 O [{| iov_base := 4096; iov_len := 0 |}] 1 100
                   eq_refl _)).
  lia.
Defined.

(** A report of the three zones into an array of five. *)
Lemma zbc_report_zones_gathers_witness :
  exists r,
    zbc_report_zones ex_test_mode ex_ro_mask ex_RO_PARTIAL (ex_ops 0)
                     ex_dev 6 O 0 0 (Some (replicate 5 zero_zone)) 5
    = Some r /\
    rz_nr_zones r <= 5 /\
    (rz_ret r = 0 ->
     let got := gathered (rz_rounds r) in
     rz_nr_zones r = Z.of_nat (length got) /\
     rz_zones r = Some (got ++ drop (length got) (replicate 5 zero_zone)) /\
     exists zs', rz_zones r = Some zs'
                 /\ length zs' = length (replicate 5 zero_zone)).
Proof.
  refine (zbc_report_zones_gathers
            ex_test_mode ex_ro_mask ex_RO_PARTIAL (ex_ops 0) ex_dev
            6 O 0 0 (replicate 5 zero_zone) 5
            (device_fills_array (ex_ops 0) ex_dev ex_zones
                                (fun _ _ => true) 2 eq_refl _)
            _ _ _); cbn; lia.
Defined.

Example ex_report_into_larger_array :
  option_map (fun r => (rz_nr_zones r, rz_zones r))
             (zbc_report_zones ex_test_mode ex_ro_mask ex_RO_PARTIAL
                               (ex_ops 0) ex_dev 6 O 0 0
                               (Some (replicate 5 zero_zone)) 5)
  = Some (3, Some (ex_zones ++ [zero_zone; zero_zone])).
Proof. vm_compute. reflexivity. Qed.

(** Listing the zones of the example device. *)
Lemma zbc_list_zones_outcome_witness :
  exists r,
    zbc_list_zones ex_test_mode ex_ro_mask ex_RO_PARTIAL ex_calloc
                   (ex_ops 0) ex_dev 4 O 0 0 = Some r /\
    (lz_out r <> None <-> lz_ret r = 0).
Proof.
  destruct (zbc_list_zones_outcome
              ex_test_mode ex_ro_mask ex_RO_PARTIAL ex_calloc (ex_ops 0)
              ex_dev 4 O 0 0
              (device_fills_array (ex_ops 0) ex_dev ex_zones
                                  (fun _ _ => true) 2 eq_refl
                                  ltac:(lia)))
    as (r & E & _ & H & _).
  - intros c Hc. vm_compute in Hc. inversion Hc. cbn. lia.
  - exists r. split; assumption.
Defined.

(** The methods that the example driver has besides: no
    [zbd_set_zones] and no [zbd_set_wp]. *)
Definition ex_methods : @zbc_drv_methods nat :=
  {| zbd_close := fun w _ => (S w, 0);
     zbd_flush := fun w _ => (w, 0);
     zbd_zone_op := fun w _ _ _ _ => (S w, 0);
     zbd_set_zones := None;
     zbd_set_wp := None |}.

Definition ex_OP_ALL_ZONES : Z := 1.

(** An operation on sector 297 of the device with 4096-byte
    logical blocks. *)
Lemma zbc_zone_operation_checks_witness :
  zbc_zone_operation ex_test_mode ex_laligned ex_dev_4k ex_methods
                     ex_OP_ALL_ZONES O 297 1 0
  = {| or_world := O; or_ret := - EINVAL; or_call := None |}.
Proof.
  exact (proj1 (zbc_zone_operation_checks
                  ex_test_mode ex_laligned ex_dev_4k ex_methods
                  ex_OP_ALL_ZONES O 297 1 0)
               eq_refl eq_refl eq_refl).
Defined.

Example ex_zone_operation_all_zones :
  zbc_zone_operation ex_test_mode ex_laligned ex_dev_4k ex_methods
                     ex_OP_ALL_ZONES O 297 1 ex_OP_ALL_ZONES
  = {| or_world := 1%nat; or_ret := 0; or_call := Some [297; 1; 1] |}.
Proof. reflexivity. Qed.

(** Setting the zones of a device whose driver cannot, with sizes
    that are not aligned. *)
Lemma zbc_set_unsupported_or_unaligned_witness :
  zbc_set_zones ex_paligned ex_dev ex_methods O 3 5
  = {| or_world := O; or_ret := - ENXIO; or_call := None |}.
Proof.
  exact (proj1 (zbc_set_unsupported_or_unaligned
                  ex_paligned ex_dev ex_methods O 3 5)
               eq_refl).
Defined.

(** Opening the example device. *)
Lemma zbc_open_status_witness :
  exists r,
    zbc_open ex_drv ex_O_DRV_MASK ex_O_DRV_BLOCK true ex_realpath
             O "/dev/sdz" 0 = Some r /\
    (op_pdev r <> None <-> op_ret r = 0).
Proof.
  destruct (zbc_open_status ex_drv ex_O_DRV_MASK ex_O_DRV_BLOCK true
                            ex_realpath O "/dev/sdz" 0
                            ex_backends_store_handle)
    as (r & E & H & _).
  exists r. split; assumption.
Defined.

Lemma ex_backends_store_on_success : backends_store_on_success ex_drv.
Proof.
  intros d w p f. destruct d; cbn; intros H; (reflexivity || lia).
Qed.

Definition ex_drv_methods (d : drv_id) : @zbc_drv_methods nat := ex_methods.

Definition ex_info0 : zbc_device_info :=
  {| zbd_sectors := 0; zbd_lblock_size := 0; zbd_pblock_size := 0;
     zbd_max_rw_sectors := 0 |}.

(** Testing the example device: the SCSI driver takes it. *)
Lemma zbc_device_is_zoned_outcome_witness :
  exists r status chosen,
    zbc_device_is_zoned ex_drv ex_realpath ex_drv_methods 0
                        O "/dev/sdz" false (Some ex_info0) = Some r /\
    probed 0 zbc_drv (iz_probed r) status chosen /\
    Forall (probe_answered ex_drv (Some "/dev/sdz"%string) 0)
           (iz_probed r) /\
    match chosen with
    | Some d =>
        (exists x, iz_closed r = Some (d, x) /\ zbd_drv x = Some d /\
                   iz_info r = if iz_ret r =? 1
                               then option_map (fun _ => zbd_info x)
                                               (Some ex_info0)
                               else Some ex_info0) /\
        iz_ret r = if drv_id_eqb d zbc_fake_drv && negb false
                   then 0 else 1
    | None =>
        iz_closed r = None /\ iz_info r = Some ex_info0 /\
        iz_ret r = if status =? - ENXIO then 0 else status
    end.
Proof.
  exact (zbc_device_is_zoned_outcome
           ex_drv ex_realpath ex_drv_methods 0 O "/dev/sdz" false
           (Some ex_info0)
           ex_backends_store_handle ex_backends_store_on_success eq_refl).
Defined.

Example ex_device_is_zoned :
  option_map (fun r => (iz_ret r, iz_probed r, iz_info r))
             (zbc_device_is_zoned ex_drv ex_realpath ex_drv_methods 0
                                  O "/dev/sdz" false (Some ex_info0))
  = Some (1, [(zbc_block_drv, - ENXIO); (zbc_scsi_drv, 0)],
          Some (zbd_info ex_dev)).
Proof. vm_compute. reflexivity. Qed.


(** *** The bytes of a transfer on the example device *)

(** The window of 3 sectors that starts 1 sector into the vector:
    the second sector of the first buffer and the first two of
    the third. *)
Lemma zbc_iov_convert_addresses_witness :
  iov_addresses (zbc_iov_convert ex_iov 3 1 3)
  = take (Z.to_nat (512 * 3))
         (drop (Z.to_nat (512 * 1))
               (concat (map (fun e => seqZ (iov_base e) (512 * iov_len e))
                            ex_iov))).
Proof.
  refine (zbc_iov_convert_addresses ex_iov 1 3 _ _ _ _ _ _).
  - repeat constructor; cbn; lia.
  - unfold SSIZE_MAX. cbn. lia.
  - lia.
  - lia.
  - lia.
  - unfold SSIZE_MAX. lia.
Defined.

Example ex_window_addresses :
  iov_addresses (zbc_iov_convert ex_iov 3 1 3)
  = seqZ (4096 + 512) 512 ++ seqZ 16384 1024.
Proof. vm_compute. reflexivity. Qed.

(** A device with physical blocks of 512 bytes that takes 3
    sectors at most in one command. *)
Definition ex_dev_3 : zbc_device :=
  {| zbd_filename := "/dev/sdz"; zbd_fd := 3; zbd_o_flags := 0;
     zbd_info := {| zbd_sectors := 300; zbd_lblock_size := 512;
                    zbd_pblock_size := 512; zbd_max_rw_sectors := 3 |};
     zbd_drv := Some zbc_scsi_drv |}.

(** A backend that transfers all of the vector it is given. *)
Definition ex_rw_exact (w : nat) (d : zbc_device) (v : list iovec) (s : Z)
  : nat * Z :=
  (S w, Z.min (iov_total v / 512) SSIZE_MAX).

Definition ex_ops_exact : zbc_drv_ops :=
  {| flag := 0;
     zbd_open := zbd_open (ex_ops 0);
     zbd_report_zones := zbd_report_zones (ex_ops 0);
     zbd_preadv := ex_rw_exact;
     zbd_pwritev := ex_rw_exact |}.

Lemma ex_exact_ssize_t : backend_ssize_t ex_dev_3 ex_rw_exact.
Proof. intros w v s. unfold ex_rw_exact. cbn [snd]. apply Z.le_min_r. Qed.

Lemma ex_exact_exact : backend_exact ex_dev_3 ex_rw_exact.
Proof.
  intros w v s H. unfold ex_rw_exact. cbn [snd].
  unfold SSIZE_MAX in *.
  pose proof (Z.div_lt_upper_bound (iov_total v) 512 (2 ^ 63)
                ltac:(lia) ltac:(lia)).
  apply Z.min_l. lia.
Qed.

(** A read of the 5 sectors of the vector at sector 100, which the
    backend takes 2 sectors of and then fails: both calls are in
    place. *)
Lemma zbc_rw_calls_in_place_witness :
  exists r,
    zbc_do_preadv ex_test_mode ex_laligned ex_ops_flaky ex_dev 6 O
                  ex_iov 3 100 = Some r /\
    Forall (call_in_place ex_iov 100) (io_calls r).
Proof.
  refine (proj1 (zbc_rw_calls_in_place
                   ex_test_mode ex_laligned ex_paligned ex_ops_flaky ex_dev
                   6 O ex_iov 100 _ _ _ _ _ _ _)
                _ ex_flaky_ssize_t).
  - repeat constructor; cbn; lia.
  - cbn. lia.
  - unfold SSIZE_MAX. cbn. lia.
  - lia.
  - cbn. lia.
  - cbn. lia.
  - cbn. lia.
  - intros _. cbn. repeat split; lia.
Defined.

Example ex_calls_in_place :
  option_map (fun r => map (fun c => (io_sector c, io_iov_offset c,
                                      io_iov c)) (io_calls r))
             (zbc_do_preadv ex_test_mode ex_laligned ex_ops_flaky ex_dev
                            6 O ex_iov 3 100)
  = Some [(100, 0, [{| iov_base := 4096; iov_len := 1024 |};
                    {| iov_base := 16384; iov_len := 1536 |}]);
          (102, 2, [{| iov_base := 16384; iov_len := 1536 |}])].
Proof. vm_compute. reflexivity. Qed.

(** A write of the 5 sectors of the vector at sector 96 of the
    device that takes 3 sectors at a time: two calls, which go
    through the 2560 bytes of the two buffers that are not
    empty. *)
Lemma zbc_rw_hands_over_request_witness :
  exists r,
    zbc_do_pwritev ex_test_mode ex_paligned ex_ops_exact ex_dev_3 6 O
                   ex_iov 3 96 = Some r /\
    io_status r = request_count ex_test_mode ex_dev_3 5 96 /\
    bytes_handed_over (io_calls r)
    = take (Z.to_nat (512 * request_count ex_test_mode ex_dev_3 5 96))
           (request_bytes ex_iov).
Proof.
  refine (proj2 (zbc_rw_hands_over_request
                   ex_test_mode ex_laligned ex_paligned ex_ops_exact
                   ex_dev_3
                   6 O ex_iov 96 _ _ _ _ _ _ _)
                _ ex_exact_ssize_t ex_exact_exact).
  - repeat constructor; cbn; lia.
  - cbn. lia.
  - unfold SSIZE_MAX. cbn. lia.
  - lia.
  - cbn. lia.
  - cbn. lia.
  - cbn. lia.
  - intros _. cbn. repeat split; lia.
Defined.

Example ex_write_in_two_calls :
  option_map (fun r => (io_status r,
                        map (fun c => (io_sector c, io_iov c))
                            (io_calls r)))
             (zbc_do_pwritev ex_test_mode ex_paligned ex_ops_exact
                             ex_dev_3 6 O ex_iov 3 96)
  = Some (5, [(96, [{| iov_base := 4096; iov_len := 1024 |};
                    {| iov_base := 16384; iov_len := 512 |}]);
              (99, [{| iov_base := 16384 + 512; iov_len := 1024 |}])]).
Proof. vm_compute. reflexivity. Qed.

(** *** A read that straddles the capacity *)


(** The same read, run: 4 sectors are read, in a call for 3 sectors
    and a call for 1; and a read that starts at the capacity reads
    nothing. *)
Example ex_read_clamped :
  option_map (fun r => (io_status r,
                        map (fun c => (io_sector c, io_iov_count c,
                                       io_iov c, io_ret c)) (io_calls r)))
             (zbc_pread ex_test_mode ex_laligned ex_ops_exact ex_dev_3 5 O
                        4096 8 296)
  = Some (4, [(296, 3, [{| iov_base := 4096; iov_len := 1536 |}], 3);
              (299, 1, [{| iov_base := 4096 + 1536; iov_len := 512 |}],
               1)]) /\
  zbc_pread ex_test_mode ex_laligned ex_ops_exact ex_dev_3 5 O 4096 8 300
  = Some {| io_world := O; io_status := 0; io_calls := [] |}.
Proof. split; vm_compute; reflexivity. Qed.

End Zbc.
